(** * ERA5 HEALPix pipeline: the daily range downloader

    A shallow embedding of [src/data_access/era5-healpix-pipeline.py]
    (class [ERA5HealpixPipeline]) and the properties of its date-range
    resolution, its per-date download and its configuration validation.

    Layout of the development:
    - [PyDate]: [datetime.date] values and [timedelta] arithmetic;
    - [PyStr]: the string helpers used on file names;
    - exceptions, Python values, the output directory, the world;
    - the state-and-exception monad [M] the methods run in;
    - the methods of the class, in source order;
    - observations on traces, then the theorems. *)

From stdpp Require Import gmap strings list pretty.
From Equations Require Import Equations.
From Stdlib Require Import ZArith Lia Ascii.
Local Open Scope Z_scope.
Local Set Warnings "-register-all".


(** ** Calendar dates *)

Module PyDate.

(** A [datetime.date] is represented by its proleptic Gregorian ordinal
    ([date.toordinal()]: 0001-01-01 is day 1), which is also how CPython
    compares dates and adds a [timedelta] to them. *)
Definition date : Type := Z.

Definition MINORDINAL : Z := 1.
Definition MAXORDINAL : Z := 3652059.   (* date(9999, 12, 31).toordinal() *)

Definition valid_date (d : date) : Prop := MINORDINAL <= d <= MAXORDINAL.

Definition is_leap (y : Z) : bool :=
  (y mod 4 =? 0) && (negb (y mod 100 =? 0) || (y mod 400 =? 0)).

Definition days_before_year (y : Z) : Z :=
  let p := y - 1 in p * 365 + p / 4 - p / 100 + p / 400.

Definition days_in_month (y m : Z) : Z :=
  if (m =? 2) then (if is_leap y then 29 else 28)
  else if (m =? 4) || (m =? 6) || (m =? 9) || (m =? 11) then 30
  else 31.

Definition days_before_month_table (m : Z) : Z :=
  nth (Z.to_nat m) [0; 0; 31; 59; 90; 120; 151; 181; 212; 243; 273; 304; 334] 0.

Definition days_before_month (y m : Z) : Z :=
  days_before_month_table m + (if (2 <? m) && is_leap y then 1 else 0).

(** [date(y, m, d).toordinal()] *)
Definition ymd2ord (y m d : Z) : date :=
  days_before_year y + days_before_month y m + d.

(** The argument check of the [date(y, m, d)] constructor. *)
Definition check_date_fields (y m d : Z) : bool :=
  (1 <=? y) && (y <=? 9999) && (1 <=? m) && (m <=? 12) &&
  (1 <=? d) && (d <=? days_in_month y m).

(** [(d.year, d.month, d.day)] of the date with ordinal [n]. *)
Definition ord2ymd (n : date) : Z * Z * Z :=
  let n := n - 1 in
  let n400 := n / 146097 in let n := n mod 146097 in
  let n100 := n / 36524 in let n := n mod 36524 in
  let n4 := n / 1461 in let n := n mod 1461 in
  let n1 := n / 365 in let n := n mod 365 in
  let year := n400 * 400 + 1 + n100 * 100 + n4 * 4 + n1 in
  if (n1 =? 4) || (n100 =? 4) then (year - 1, 12, 31)
  else
    let leapyear := (n1 =? 3) && (negb (n4 =? 24) || (n100 =? 3)) in
    let month := Z.shiftr (n + 50) 5 in
    let preceding :=
      days_before_month_table month + (if (2 <? month) && leapyear then 1 else 0) in
    if n <? preceding then
      let month := month - 1 in
      let preceding :=
        preceding - (if (month =? 2) && leapyear then 29 else days_in_month 1 month) in
      (year, month, n - preceding + 1)
    else (year, month, n - preceding + 1).

(** [d + timedelta(days=n)]: the sum of the ordinals, or [None] for the
    [OverflowError] that CPython raises when the result leaves
    [date.min .. date.max]. *)
Definition add_days (d : date) (n : Z) : option date :=
  let o := d + n in
  if (0 <? o) && (o <=? MAXORDINAL) then Some o else None.

(** [datetime.fromtimestamp(t, timezone.utc).date()] for a clock reading
    of [us] microseconds since 1970-01-01T00:00:00Z: the time of day is
    dropped. [None] when the instant is outside the years 1..9999. *)
Definition UNIX_EPOCH_ORDINAL : Z := 719163.  (* date(1970, 1, 1).toordinal() *)
Definition MICROSECONDS_PER_DAY : Z := 86400000000.

Definition utc_date_of_timestamp (us : Z) : option date :=
  let o := UNIX_EPOCH_ORDINAL + us / MICROSECONDS_PER_DAY in
  if (MINORDINAL <=? o) && (o <=? MAXORDINAL) then Some o else None.

(** The dates [lo, lo+1, ..., hi], ascending; empty when [hi < lo]. *)
Definition date_range (lo hi : date) : list date :=
  seqZ lo (hi + 1 - lo).

End PyDate.
Import PyDate.

(** ** Strings *)

Module PyStr.

(** [s.split('.')[0]]: the part of [s] before its first dot, or all of
    [s] when it has none. *)
Fixpoint split_dot_head (s : string) : string :=
  match s with
  | EmptyString => EmptyString
  | String c r =>
      if Ascii.eqb c "."%char then EmptyString else String c (split_dot_head r)
  end.

(** [str(n)] for an integer. *)
Definition str_int (n : Z) : string := pretty n.

(** [f"{n:02d}"] and the four-digit form of [%Y], for [0 <= n]. *)
Definition zfill (width : nat) (s : string) : string :=
  String.concat EmptyString (replicate (width - String.length s)%nat "0"%string) +:+ s.

Definition fmt_02d (n : Z) : string := zfill 2 (str_int n).
Definition fmt_04d (n : Z) : string := zfill 4 (str_int n).

(** Reference formatter for ["%Y-%m-%d"] (year padded to four digits). *)
Definition format_ymd (d : date) : string :=
  let '(y, m, dd) := ord2ymd d in
  fmt_04d y +:+ "-" +:+ fmt_02d m +:+ "-" +:+ fmt_02d dd.

Definition digit_val (c : ascii) : option Z :=
  let n := Z.of_nat (nat_of_ascii c) in
  if (48 <=? n) && (n <=? 57) then Some (n - 48) else None.

(** The token grammar of [%m] in [strptime]: [1[0-2]|0[1-9]|[1-9]]. *)
Definition parse_month (s : string) : option Z :=
  match s with
  | String c EmptyString =>
      match digit_val c with
      | Some v => if 1 <=? v then Some v else None
      | None => None
      end
  | String c1 (String c2 EmptyString) =>
      match digit_val c1, digit_val c2 with
      | Some 1, Some v => if v <=? 2 then Some (10 + v) else None
      | Some 0, Some v => if 1 <=? v then Some v else None
      | _, _ => None
      end
  | _ => None
  end.

(** The token grammar of [%d]: [3[0-1]|[1-2]\d|0[1-9]|[1-9]| [1-9]]. *)
Definition parse_day (s : string) : option Z :=
  match s with
  | String c EmptyString =>
      match digit_val c with
      | Some v => if 1 <=? v then Some v else None
      | None => None
      end
  | String c1 (String c2 EmptyString) =>
      match digit_val c2 with
      | None => None
      | Some v =>
          if Ascii.eqb c1 " "%char then (if 1 <=? v then Some v else None)
          else match digit_val c1 with
               | Some 3 => if v <=? 1 then Some (30 + v) else None
               | Some 2 => Some (20 + v)
               | Some 1 => Some (10 + v)
               | Some 0 => if 1 <=? v then Some v else None
               | _ => None
               end
      end
  | _ => None
  end.

(** The characters of [s] before the first ['-'], and what follows it;
    [None] when [s] has no ['-']. *)
Fixpoint cut_dash (s : string) : option (string * string) :=
  match s with
  | EmptyString => None
  | String c r =>
      if Ascii.eqb c "-"%char then Some (EmptyString, r)
      else match cut_dash r with
           | Some (a, b) => Some (String c a, b)
           | None => None
           end
  end.

(** Reference parser for [datetime.strptime(s, "%Y-%m-%d").date()];
    [None] stands for the [ValueError] of a string that does not match,
    or that names no calendar date. *)
Definition parse_ymd (s : string) : option date :=
  match s with
  | String y1 (String y2 (String y3 (String y4 (String dash rest)))) =>
      match digit_val y1, digit_val y2, digit_val y3, digit_val y4 with
      | Some a, Some b, Some c, Some d =>
          if Ascii.eqb dash "-"%char then
            match cut_dash rest with
            | Some (ms, ds) =>
                match parse_month ms, parse_day ds with
                | Some m, Some dd =>
                    let y := 1000 * a + 100 * b + 10 * c + d in
                    if check_date_fields y m dd then Some (ymd2ord y m dd) else None
                | _, _ => None
                end
            | None => None
            end
          else None
      | _, _, _, _ => None
      end
  | _ => None
  end.

End PyStr.
Import PyStr.

(** ** Exceptions *)

(** The exceptions that can travel through the methods. [OSError] is what
    [os.listdir] raises, with the name of its class ([FileNotFoundError],
    [NotADirectoryError], [PermissionError]). The last two constructors stand
    for what a collaborator (the CDS client, [tempfile], [shutil]) may raise:
    any other subclass of [Exception], or an exception that derives from
    [BaseException] only ([KeyboardInterrupt], [SystemExit],
    [GeneratorExit]). *)
Inductive exn : Type :=
| AssertionError (msg : string)
| ValueError (msg : string)
| TypeError (msg : string)
| KeyError (key : string)
| OverflowError (msg : string)
| FileExistsError (path : string)
| ShutilError (msg : string)
| OSError (class_name : string)
| OtherException (class_name : string)
| OtherBaseException (class_name : string).


(** [isinstance(e, Exception)]: what [except Exception] catches. *)
Definition isinstance_Exception (e : exn) : bool :=
  match e with
  | OtherBaseException _ => false
  | _ => true
  end.

(** [isinstance(e, ValueError)]: what [except ValueError] catches. *)
Definition isinstance_ValueError (e : exn) : bool :=
  match e with
  | ValueError _ => true
  | _ => false
  end.


(** ** Python values held by a configuration dictionary *)

Inductive pyval : Type :=
| PyNone
| PyBool (b : bool)
| PyInt (n : Z)
| PyStr (s : string)
| PyList (items : list pyval)
| PyTuple (items : list pyval).

(** [bool(v)] *)
Definition truthy (v : pyval) : bool :=
  match v with
  | PyNone => false
  | PyBool b => b
  | PyInt n => negb (n =? 0)
  | PyStr s => negb (String.eqb s EmptyString)
  | PyList items | PyTuple items =>
      match items with [] => false | _ :: _ => true end
  end.

(** [isinstance(v, list)] *)
Definition isinstance_list (v : pyval) : bool :=
  match v with
  | PyList _ => true
  | _ => false
  end.

(** [len(v)] for the sized values. *)
Definition py_len (v : pyval) : Z :=
  match v with
  | PyList items | PyTuple items => Z.of_nat (length items)
  | PyStr s => Z.of_nat (String.length s)
  | _ => 0
  end.

(** A [dict] with string keys; dictionaries are objects, held in the heap
    and passed by reference. *)
Abbreviation pydict := (gmap string pyval).
Definition loc : Type := positive.

(** ** The output directory *)

(** An entry of [self.data_dir]: a regular file of a given size, or a
    subdirectory with the sizes of the regular files in it. *)
Inductive node : Type :=
| File (size : N)
| Dir (entries : gmap string N).

(** ** Messages and events *)

Inductive level : Type := DEBUG | INFO | WARNING | ERROR.

(** One constructor per message of the source, with the values that the
    source formats into it. *)
Inductive message : Type :=
| MsgAlreadyDownloaded (d : date)
| MsgProcessing (d : date)
| MsgArchiving (d : date)
| MsgDebugSkip (d : date)
| MsgStartingDownload (d : date)
| MsgInvalidConfiguration (e : exn)
| MsgCreatedTemp (temp_dir : string)
| MsgDownloadingTo (temp_dir file : string)
| MsgFileNotFound (temp_dir file : string)
| MsgFileEmpty (temp_dir file : string)
| MsgDownloaded (size : N) (d : date)
| MsgMoved (final_path : string)
| MsgDownloadFailed (d : date) (e : exn)
| MsgCleanedUp (temp_dir : string)
| MsgCleanupFailed (temp_dir : string) (e : exn).

(** The payload of [_build_cds_request]. *)
Record cds_request : Type := CdsRequest {
  req_product_type : string;
  req_format : string;
  req_variable : pyval;
  req_pressure_level : pyval;
  req_year : string;
  req_month : string;
  req_day : string;
  req_time : pyval;
  req_area : pyval;
}.

(** What the program does to the outside: output, and the calls into
    [tempfile], the CDS client and [shutil]. Paths are relative to
    [self.data_dir]. *)
Inductive event : Type :=
| EvPrint (m : message)
| EvLog (lvl : level) (m : message)
| EvMkdtemp (prefix : string)
| EvRetrieve (dataset : string) (request : cds_request) (temp_dir file : string)
| EvMove (temp_dir file : string) (final_path : string)
| EvRmtree (temp_dir : string).

(** ** The world *)

Record world : Type := World {
  fs : gmap string node;        (* the entries of [self.data_dir] *)
  heap : gmap loc pydict;       (* the dictionaries alive *)
  trace : list event;           (* the events so far, oldest first *)
}.

Definition set_fs (f : gmap string node → gmap string node) (w : world) : world :=
  {| fs := f (fs w); heap := heap w; trace := trace w |}.
Definition set_heap (f : gmap loc pydict → gmap loc pydict) (w : world) : world :=
  {| fs := fs w; heap := f (heap w); trace := trace w |}.
Definition add_event (e : event) (w : world) : world :=
  {| fs := fs w; heap := heap w; trace := trace w ++ [e] |}.

(** ** The platform and the collaborators *)

(** How one call of [client.retrieve] ends: whether it left a file of
    some size at the destination, and whether it raised. *)
Record retrieve_outcome : Type := RetrieveOutcome {
  written : option N;
  raised : option exn;
}.

(** Everything the class gets from outside, as functions of the world at
    the moment of the call (which includes the whole history in [trace], so
    that two calls need not behave alike). *)
Record env : Type := Env {
  (** [d.strftime('%Y-%m-%d')] *)
  strftime_ymd : date → string;
  (** [datetime.strptime(s, "%Y-%m-%d").date()], [None] for a [ValueError] *)
  strptime_ymd : string → option date;
  (** the clock, in microseconds since 1970-01-01T00:00:00Z *)
  utcnow : world → Z;
  (** the name picked by [tempfile.mkdtemp], or the exception it raises *)
  mkdtemp_name : world → exn + string;
  (** [self.client.retrieve(...)] *)
  retrieve : world → retrieve_outcome;
  (** the failure of [shutil.move], if it fails for a reason of the
      platform *)
  move_error : world → option exn;
  (** the failure of [shutil.rmtree], if it fails *)
  rmtree_error : world → option exn;
  (** the class of the [OSError] that [os.listdir(self.data_dir)] raises, if
      it fails: the directory is missing, is not a directory or cannot be
      read *)
  listdir_error : world → option string;
}.

(** ** The monad: state and exceptions *)

Inductive outcome (A : Type) : Type :=
| Ret (a : A)
| Raise (e : exn).
Arguments Ret {A} a.
Arguments Raise {A} e.

(** A computation transforms the world and returns or raises; the effects
    made before an exception stay. *)
Definition M (A : Type) : Type := world → outcome A * world.

#[global] Instance M_ret : MRet M := λ A a w, (Ret a, w).
#[global] Instance M_bind : MBind M := λ A B f m w,
  match m w with
  | (Ret a, w') => f a w'
  | (Raise e, w') => (Raise e, w')
  end.

Definition raise {A : Type} (e : exn) : M A := λ w, (Raise e, w).

(** [try: m  except <catches> as e: h e] *)
Definition try_except {A : Type} (m : M A) (catches : exn → bool) (h : exn → M A) : M A :=
  λ w, match m w with
       | (Ret a, w') => (Ret a, w')
       | (Raise e, w') => if catches e then h e w' else (Raise e, w')
       end.

(** [try: m  finally: fin]: [fin] runs whatever [m] did; an exception of
    [fin] replaces the outcome of [m]. *)
Definition try_finally {A : Type} (m : M A) (fin : M unit) : M A :=
  λ w, match m w with
       | (r, w1) =>
           match fin w1 with
           | (Ret _, w2) => (r, w2)
           | (Raise e, w2) => (Raise e, w2)
           end
       end.

Definition get_world : M world := λ w, (Ret w, w).
Definition modify (f : world → world) : M unit := λ w, (Ret tt, f w).
Definition emit (e : event) : M unit := modify (add_event e).

(** [print(...)] and [logger.<level>(...)] *)
Definition print (m : message) : M unit := emit (EvPrint m).
Definition log (lvl : level) (m : message) : M unit := emit (EvLog lvl m).

(** [assert cond, msg] *)
Definition py_assert (cond : bool) (msg : string) : M unit :=
  if cond then mret tt else raise (AssertionError msg).

(** Truth value of an optional argument holding a [date] or [None]: a
    [date] object is always true. *)
Definition is_given {A : Type} (o : option A) : bool :=
  match o with Some _ => true | None => false end.

(** Arguments with a default value: the caller leaves the parameter out,
    or passes a value (which may be [None]). *)
Inductive arg (A : Type) : Type :=
| Omitted
| Passed (a : A).
Arguments Omitted {A}.
Arguments Passed {A} a.

Definition arg_or_default {A : Type} (default_value : A) (a : arg A) : A :=
  match a with
  | Omitted => default_value
  | Passed v => v
  end.

(** ** The class *)

(** The fields of an [ERA5HealpixPipeline] that its methods read;
    [self.data_dir] is the directory held in [fs], and [self.client] is the
    [retrieve] of the environment. *)
Record pipeline : Type := Pipeline {
  redownload : bool;
  debug : bool;
}.

(** [date(1940, 1, 1)] *)
Definition EPOCH_START : date := Eval cbv in ymd2ord 1940 1 1.

(** [[90, -180, -90, 180]] *)
Definition GLOBAL_AREA : pyval :=
  PyList [PyInt 90; PyInt (-180); PyInt (-90); PyInt 180].

Definition TEMP_PREFIX : string := "era5_download_".
Definition DATASET : string := "reanalysis-era5-pressure-levels".

Section Methods.

Context (E : env).

(** *** Library calls *)

(** [d + timedelta(days=n)] *)
Definition date_plus_days (d : date) (n : Z) : M date :=
  match add_days d n with
  | Some d' => mret d'
  | None => raise (OverflowError "date value out of range")
  end.

(** [datetime.now(timezone.utc).date()] *)
Definition utc_today : M date :=
  w ← get_world;
  match utc_date_of_timestamp (utcnow E w) with
  | Some d => mret d
  | None => raise (OverflowError "timestamp out of range")
  end.

(** The names of the entries of [self.data_dir]. *)
Definition dir_entries (w : world) : list string := (map_to_list (fs w)).*1.

(** [os.listdir(self.data_dir)]: the names of the entries, or the
    [OSError] of a directory that cannot be listed. *)
Definition os_listdir : M (list string) :=
  w ← get_world;
  match listdir_error E w with
  | Some class_name => raise (OSError class_name)
  | None => mret (dir_entries w)
  end.

(** [os.path.isfile(os.path.join(self.data_dir, name))] *)
Definition os_path_isfile (w : world) (name : string) : bool :=
  match fs w !! name with
  | Some (File _) => true
  | _ => false
  end.

(** [os.path.exists(os.path.join(self.data_dir, name))] *)
Definition os_path_exists (w : world) (name : string) : bool :=
  is_given (fs w !! name).

(** The size of [temp_dir/file] when that is a regular file: both
    [os.path.exists] and [os.path.getsize] of the path. *)
Definition file_in_dir (w : world) (temp_dir file : string) : option N :=
  match fs w !! temp_dir with
  | Some (Dir entries) => entries !! file
  | _ => None
  end.

Definition write_in_dir (temp_dir file : string) (size : N) (f : gmap string node) : gmap string node :=
  match f !! temp_dir with
  | Some (Dir entries) => <[temp_dir := Dir (<[file := size]> entries)]> f
  | _ => f
  end.

Definition remove_from_dir (temp_dir file : string) (f : gmap string node) : gmap string node :=
  match f !! temp_dir with
  | Some (Dir entries) => <[temp_dir := Dir (delete file entries)]> f
  | _ => f
  end.

(** [tempfile.mkdtemp(prefix=..., dir=self.data_dir)]: a new, empty
    directory whose name did not exist. *)
Definition tempfile_mkdtemp (prefix : string) : M string :=
  emit (EvMkdtemp prefix);;
  w ← get_world;
  match mkdtemp_name E w with
  | inl e => raise e
  | inr suffix =>
      let name := prefix +:+ suffix in
      if os_path_exists w name then raise (FileExistsError name)
      else modify (set_fs (<[name := Dir ∅]>));; mret name
  end.

(** [self.client.retrieve(dataset, request, temp_dir/file)] *)
Definition client_retrieve (dataset : string) (request : cds_request) (temp_dir file : string) : M unit :=
  emit (EvRetrieve dataset request temp_dir file);;
  w ← get_world;
  let out := retrieve E w in
  match written out with
  | Some size => modify (set_fs (write_in_dir temp_dir file size))
  | None => mret tt
  end;;
  match raised out with
  | Some e => raise e
  | None => mret tt
  end.

(** [shutil.move(temp_dir/file, final_path)]: a rename that replaces a
    regular file at the destination; when the destination is a directory
    the file goes inside it, unless the name is taken there. *)
Definition shutil_move (temp_dir file final_path : string) : M unit :=
  emit (EvMove temp_dir file final_path);;
  w ← get_world;
  match move_error E w with
  | Some e => raise e
  | None =>
      match file_in_dir w temp_dir file with
      | None => raise (OtherException "FileNotFoundError")
      | Some size =>
          match fs w !! final_path with
          | Some (Dir entries) =>
              match entries !! file with
              | Some _ => raise (ShutilError "Destination path already exists")
              | None =>
                  modify (set_fs (λ f, <[final_path := Dir (<[file := size]> entries)]>
                                         (remove_from_dir temp_dir file f)))
              end
          | _ =>
              modify (set_fs (λ f, <[final_path := File size]>
                                     (remove_from_dir temp_dir file f)))
          end
      end
  end.

(** [shutil.rmtree(temp_dir)] *)
Definition shutil_rmtree (temp_dir : string) : M unit :=
  emit (EvRmtree temp_dir);;
  w ← get_world;
  match rmtree_error E w with
  | Some e => raise e
  | None => modify (set_fs (delete temp_dir))
  end.

(** A new [dict] object. *)
Definition new_dict (d : pydict) : M loc :=
  w ← get_world;
  let l := fresh (dom (heap w)) in
  modify (set_heap (<[l := d]>));; mret l.

(** The dictionary behind a reference. *)
Definition deref (config : loc) : M pydict :=
  w ← get_world;
  match heap w !! config with
  | Some d => mret d
  | None => raise (TypeError "not a dict")
  end.

(** [config[key]] *)
Definition getitem (config : loc) (key : string) : M pyval :=
  d ← deref config;
  match d !! key with
  | Some v => mret v
  | None => raise (KeyError key)
  end.

(** [config[key] = v] *)
Definition setitem (config : loc) (key : string) (v : pyval) : M unit :=
  d ← deref config;
  modify (set_heap (<[config := <[key := v]> d]>)).

(** *** [_get_start_and_end_dates] *)

Definition _get_start_and_end_dates (start_date end_date fixed_date : option date)
  : M (option (date * date)) :=
  today ← utc_today;
  latest_available_date ← date_plus_days today (-5);
  match fixed_date with
  | Some fixed => mret (Some (fixed, fixed))
  | None =>
      match start_date, end_date with
      | Some s, Some e => mret (Some (s, e))
      | Some s, None => mret (Some (s, latest_available_date))
      | None, Some e => mret (Some (EPOCH_START, e))
      | None, None => mret None      (* falls off the end: returns [None] *)
      end
  end.

(** *** [_get_already_downloaded_dates] *)

Fixpoint collect_dates (w : world) (names : list string) : list date :=
  match names with
  | [] => []
  | fname :: rest =>
      if negb (os_path_isfile w fname) then collect_dates w rest
      else match strptime_ymd E (split_dot_head fname) with
           | Some d => d :: collect_dates w rest
           | None => collect_dates w rest
           end
  end.

Definition _get_already_downloaded_dates : M (list date) :=
  names ← os_listdir;
  w ← get_world;
  mret (collect_dates w names).

(** *** [_get_default_download_config] *)

Definition default_download_config : pydict :=
  list_to_map
    [("variable"%string, PyList [PyStr "relative_humidity"; PyStr "specific_humidity"]);
     ("pressure_level"%string,
       PyList [PyStr "300"; PyStr "500"; PyStr "800"; PyStr "900"; PyStr "975"]);
     ("time"%string, PyList [PyStr "00:00"; PyStr "06:00"; PyStr "12:00"; PyStr "18:00"]);
     ("area"%string, GLOBAL_AREA)].

Definition _get_default_download_config : M loc :=
  new_dict default_download_config.

(** *** [_validate_download_config] *)

Definition required_keys : list string := ["variable"; "pressure_level"; "time"]%string.

(** [not isinstance(v, list) or len(v) == 0] *)
Definition not_nonempty_list (v : pyval) : bool :=
  negb (isinstance_list v) || (py_len v =? 0).

Definition _validate_download_config (config : loc) : M loc :=
  provided ← deref config;
  if negb (forallb (λ k, is_given (provided !! k)) required_keys) then
    raise (ValueError "Missing required config keys")
  else
    variable ← getitem config "variable";
    if not_nonempty_list variable then
      raise (ValueError "variable must be a non-empty list")
    else
      pressure_level ← getitem config "pressure_level";
      if not_nonempty_list pressure_level then
        raise (ValueError "pressure_level must be a non-empty list")
      else
        time ← getitem config "time";
        if not_nonempty_list time then
          raise (ValueError "time must be a non-empty list")
        else
          d ← deref config;
          (if negb (truthy (default (PyBool false) (d !! "area")))
           then setitem config "area" GLOBAL_AREA
           else mret tt);;
          area ← getitem config "area";
          if negb (isinstance_list area) || negb (py_len area =? 4) then
            raise (ValueError "area must be a list of 4 values [North, West, South, East]")
          else mret config.

(** *** [_build_cds_request] *)

Definition _build_cds_request (target_date : date) (config : loc) : M cds_request :=
  let '(y, m, d) := ord2ymd target_date in
  variable ← getitem config "variable";
  pressure_level ← getitem config "pressure_level";
  time ← getitem config "time";
  area ← getitem config "area";
  mret {| req_product_type := "reanalysis";
          req_format := "netcdf";
          req_variable := variable;
          req_pressure_level := pressure_level;
          req_year := str_int y;
          req_month := fmt_02d m;
          req_day := fmt_02d d;
          req_time := time;
          req_area := area |}.

(** *** [download_data_for_date] *)

(** The [except Exception as e:] clause of the download. *)
Definition download_failed (target_date : date) (e : exn) : M (option string) :=
  log ERROR (MsgDownloadFailed target_date e);; mret None.

(** The [finally:] clause of the download, with the value that the local
    [temp_dir] has when control reaches it. *)
Definition cleanup (temp_dir : option string) : M unit :=
  match temp_dir with
  | None => mret tt
  | Some td =>
      w ← get_world;
      if negb (String.eqb td EmptyString) && os_path_exists w td then
        try_except
          (shutil_rmtree td;; log DEBUG (MsgCleanedUp td))
          isinstance_Exception
          (λ e, log WARNING (MsgCleanupFailed td e))
      else mret tt
  end.

(** The [try:] block after [temp_dir] has been bound. *)
Definition download_into (target_date : date) (config : loc) (temp_dir : string)
  : M (option string) :=
  log DEBUG (MsgCreatedTemp temp_dir);;
  request_params ← _build_cds_request target_date config;
  let output_file := strftime_ymd E target_date +:+ ".nc" in
  log DEBUG (MsgDownloadingTo temp_dir output_file);;
  client_retrieve DATASET request_params temp_dir output_file;;
  w ← get_world;
  match file_in_dir w temp_dir output_file with
  | None =>
      log ERROR (MsgFileNotFound temp_dir output_file);; mret None
  | Some file_size =>
      if (file_size =? 0)%N then
        log ERROR (MsgFileEmpty temp_dir output_file);; mret None
      else
        log INFO (MsgDownloaded file_size target_date);;
        let final_path := strftime_ymd E target_date +:+ ".nc" in
        shutil_move temp_dir output_file final_path;;
        log DEBUG (MsgMoved final_path);;
        mret (Some final_path)
  end.

(** The [try: ... except Exception: ... finally: ...] statement. The
    local [temp_dir] is [None] until [mkdtemp] has returned, so the
    [finally:] clause sees [None] when [mkdtemp] itself raised. *)
Definition download_attempt (target_date : date) (config : loc) : M (option string) :=
  λ w,
    match tempfile_mkdtemp TEMP_PREFIX w with
    | (Raise e, w1) =>
        try_finally
          (try_except (raise e) isinstance_Exception (download_failed target_date))
          (cleanup None) w1
    | (Ret temp_dir, w1) =>
        try_finally
          (try_except (download_into target_date config temp_dir)
                      isinstance_Exception (download_failed target_date))
          (cleanup (Some temp_dir)) w1
    end.

Definition download_data_for_date (self : pipeline) (target_date : date) (config : option loc)
  : M (option string) :=
  if debug self then
    log INFO (MsgDebugSkip target_date);; mret None
  else
    log INFO (MsgStartingDownload target_date);;
    config ← match config with
             | None => _get_default_download_config
             | Some c => mret c
             end;
    validated ← try_except
                  (c ← _validate_download_config config; mret (Some c))
                  isinstance_ValueError
                  (λ e, log ERROR (MsgInvalidConfiguration e);; mret None);
    match validated with
    | None => mret None                          (* [return None] of the handler *)
    | Some config => download_attempt target_date config
    end.

(** *** [process_data_for_date], [archive_data_for_date] *)

Definition process_data_for_date (d : date) : M unit := print (MsgProcessing d).
Definition archive_data_for_date (d : date) : M unit := print (MsgArchiving d).

(** *** [process_and_archive_daily_data] *)

(** The body of the [while] loop, up to the increment of [current_date]. *)
Definition visit_date (self : pipeline) (already_downloaded_dates : list date)
    (current_date : date) : M unit :=
  if bool_decide (current_date ∈ already_downloaded_dates) && negb (redownload self) then
    print (MsgAlreadyDownloaded current_date)
  else
    download_data_for_date self current_date None;;
    process_data_for_date current_date;;
    archive_data_for_date current_date.

Definition inspect {A : Type} (a : A) : {b : A | a = b} := exist _ a eq_refl.

(** [while current_date <= end_date: ...; current_date += timedelta(days=1)] *)
Equations? daily_loop (self : pipeline) (already_downloaded_dates : list date)
    (end_date : date) (current_date : date) (w : world)
  : outcome unit * world by wf (Z.to_nat (end_date + 1 - current_date)) lt :=
daily_loop self already end_date current_date w
  with inspect (current_date <=? end_date) => {
  | exist _ false _ => (Ret tt, w);
  | exist _ true Hle with visit_date self already current_date w => {
    | (Raise e, w1) => (Raise e, w1);
    | (Ret _, w1) with inspect (add_days current_date 1) => {
      | exist _ None _ => (Raise (OverflowError "date value out of range"), w1);
      | exist _ (Some next) Hnext => daily_loop self already end_date next w1 } } }.
Proof.
  unfold add_days in Hnext.
  destruct ((0 <? current_date + 1) && (current_date + 1 <=? MAXORDINAL)); [|done].
  injection Hnext as <-. lia.
Qed.

Definition process_and_archive_daily_data (self : pipeline)
    (start_date : arg (option date)) (end_date fixed_date : option date) : M unit :=
  let start_date := arg_or_default (Some EPOCH_START) start_date in
  py_assert (is_given start_date || is_given end_date || is_given fixed_date)
    "At least one of start_date, end_date, or fixed_date must be provided.";;
  py_assert (negb (is_given end_date && is_given fixed_date))
    "Provide either end_date or fixed_date, not both.";;
  resolved ← _get_start_and_end_dates start_date end_date fixed_date;
  match resolved with
  | None => raise (TypeError "cannot unpack non-iterable NoneType object")
  | Some (start_date, end_date) =>
      already_downloaded_dates ← _get_already_downloaded_dates;
      daily_loop self already_downloaded_dates end_date start_date
  end.

End Methods.

(** ** Observations on traces *)

(** The date an event starts the visit of, if it starts one: the loop
    body begins either with the message of a skipped date or with the first
    log line of [download_data_for_date]. *)
Definition visit_of (e : event) : option date :=
  match e with
  | EvPrint (MsgAlreadyDownloaded d) => Some d
  | EvLog INFO (MsgDebugSkip d) => Some d
  | EvLog INFO (MsgStartingDownload d) => Some d
  | _ => None
  end.

(** The dates visited, in the order of the visits. *)
Definition visited (tr : list event) : list date := omap visit_of tr.

Definition processed_of (e : event) : option date :=
  match e with
  | EvPrint (MsgProcessing d) => Some d
  | _ => None
  end.

Definition archived_of (e : event) : option date :=
  match e with
  | EvPrint (MsgArchiving d) => Some d
  | _ => None
  end.

(** The dates handed to the two placeholders, in order. *)
Definition processed (tr : list event) : list date := omap processed_of tr.
Definition archived (tr : list event) : list date := omap archived_of tr.

Definition is_retrieve (e : event) : bool :=
  match e with
  | EvRetrieve _ _ _ _ => true
  | _ => false
  end.

(** The calls of the CDS client. *)
Definition retrieve_calls (tr : list event) : list event := filter is_retrieve tr.

(** Calls into [tempfile], the client and [shutil]: the events that can
    touch the output directory or the network. *)
Definition is_external_call (e : event) : bool :=
  match e with
  | EvPrint _ | EvLog _ _ => false
  | _ => true
  end.

Definition external_calls (tr : list event) : list event := filter is_external_call tr.

(** ** Sample platforms *)

Module Sample.

(** 2025-01-15T10:30:00Z *)
Definition clock : Z :=
  Eval cbv in (ymd2ord 2025 1 15 - UNIX_EPOCH_ORDINAL) * MICROSECONDS_PER_DAY + 37800000000.

Definition fresh_suffix (w : world) : string := pretty (length (trace w)).

(** A platform on which everything works: each download leaves a file of
    1024 bytes. *)
Definition working : env :=
  {| strftime_ymd := format_ymd;
     strptime_ymd := parse_ymd;
     utcnow := λ _, clock;
     mkdtemp_name := λ w, inr (fresh_suffix w);
     retrieve := λ _, {| written := Some 1024%N; raised := None |};
     move_error := λ _, None;
     rmtree_error := λ _, None;
     listdir_error := λ _, None |}.

(** The client raises [e] and writes nothing. *)
Definition client_raises (e : exn) : env :=
  {| strftime_ymd := format_ymd;
     strptime_ymd := parse_ymd;
     utcnow := λ _, clock;
     mkdtemp_name := λ w, inr (fresh_suffix w);
     retrieve := λ _, {| written := None; raised := Some e |};
     move_error := λ _, None;
     rmtree_error := λ _, None;
     listdir_error := λ _, None |}.

(** The client returns, having written what [out] says. *)
Definition client_writes (out : option N) : env :=
  {| strftime_ymd := format_ymd;
     strptime_ymd := parse_ymd;
     utcnow := λ _, clock;
     mkdtemp_name := λ w, inr (fresh_suffix w);
     retrieve := λ _, {| written := out; raised := None |};
     move_error := λ _, None;
     rmtree_error := λ _, None;
     listdir_error := λ _, None |}.

(** Everything works but [shutil.rmtree], which raises [e]. *)
Definition rmtree_raises (e : exn) : env :=
  {| strftime_ymd := format_ymd;
     strptime_ymd := parse_ymd;
     utcnow := λ _, clock;
     mkdtemp_name := λ w, inr (fresh_suffix w);
     retrieve := λ _, {| written := Some 1024%N; raised := None |};
     move_error := λ _, None;
     rmtree_error := λ _, Some e;
     listdir_error := λ _, None |}.

Definition empty_world : world := {| fs := ∅; heap := ∅; trace := [] |}.

Definition dec_01 : date := Eval cbv in ymd2ord 2024 12 1.
Definition dec_02 : date := Eval cbv in ymd2ord 2024 12 2.
Definition dec_05 : date := Eval cbv in ymd2ord 2024 12 5.

(** A world with one dictionary, at reference 1. *)
Definition world_with_config (cfg : pydict) : world :=
  {| fs := ∅; heap := {[ 1%positive := cfg ]}; trace := [] |}.

(** A configuration of the caller without an area. *)
Definition config_without_area : pydict :=
  list_to_map
    [("variable"%string, PyList [PyStr "temperature"]);
     ("pressure_level"%string, PyList [PyStr "500"]);
     ("time"%string, PyList [PyStr "12:00"])].

(** An output directory that holds the files of two days. *)
Definition two_days_world : world :=
  {| fs := {[ "2024-12-01.nc"%string := File 1024%N; "2024-12-02.nc"%string := File 1024%N ]};
     heap := ∅;
     trace := [] |}.

(** Everything works, but the output directory cannot be listed:
    [os.listdir] raises an [OSError] of the class [class_name]. *)
Definition listdir_raises (class_name : string) : env :=
  {| strftime_ymd := format_ymd;
     strptime_ymd := parse_ymd;
     utcnow := λ _, clock;
     mkdtemp_name := λ w, inr (fresh_suffix w);
     retrieve := λ _, {| written := Some 1024%N; raised := None |};
     move_error := λ _, None;
     rmtree_error := λ _, None;
     listdir_error := λ _, Some class_name |}.


(** A platform on which the temporary directory cannot be removed. *)
Definition stuck_cleanup : env := rmtree_raises (OtherException "PermissionError").

(** An output directory that has been replaced by a regular file. *)
Definition unlistable : env := listdir_raises "NotADirectoryError".

(** A client that cannot reach the service. *)
Definition offline : env := client_raises (OtherException "ConnectionError").

Definition downloader : pipeline := {| redownload := false; debug := false |}.
Definition dry_run : pipeline := {| redownload := false; debug := true |}.

(** Two runs in succession over 2024-12-01 .. 2024-12-02, from an empty
    directory, on a platform [E]. *)
Definition first_run (E : env) : outcome unit * world :=
  process_and_archive_daily_data E downloader (Passed (Some dec_01)) (Some dec_02) None
    empty_world.

Definition second_run (E : env) : outcome unit * world :=
  process_and_archive_daily_data E downloader (Passed (Some dec_01)) (Some dec_02) None
    (first_run E).2.

End Sample.

(** ** Notions used in the statements *)

(** The clock shows an instant of the years 1..9999, late enough for the
    day five days earlier to exist as a [date]. *)
Definition clock_in_range (E : env) (w : world) : Prop :=
  MINORDINAL + 5 <= UNIX_EPOCH_ORDINAL + utcnow E w / MICROSECONDS_PER_DAY <= MAXORDINAL.

(** The current UTC date, the time of day dropped, minus five days. *)
Definition five_days_ago (E : env) (w : world) : date :=
  UNIX_EPOCH_ORDINAL + utcnow E w / MICROSECONDS_PER_DAY - 5.

(** What [_get_start_and_end_dates] returns, as a function of its
    arguments and of the date five days before today. *)
Definition resolution (latest : date) (start_date end_date fixed_date : option date)
  : option (date * date) :=
  match fixed_date with
  | Some fixed => Some (fixed, fixed)
  | None =>
      match start_date, end_date with
      | Some s, Some e => Some (s, e)
      | Some s, None => Some (s, latest)
      | None, Some e => Some (EPOCH_START, e)
      | None, None => None
      end
  end.


(** [obeys T Q m]: whatever the world, running [m] moves it along the
    relation [T], and an exception that escapes from [m] satisfies [Q]. *)
Definition obeys (T : world → world → Prop) (Q : exn → Prop) {A : Type} (m : M A) : Prop :=
  ∀ w, T w (m w).2 ∧ ∀ e, (m w).1 = Raise e → Q e.

(** The trace grows by events that satisfy [P]; the rest of the world is
    free to change. *)
Definition emits_only (P : event → Prop) (w w' : world) : Prop :=
  ∃ evs, trace w' = trace w ++ evs ∧ Forall P evs.

(** The dictionaries are not touched. *)
Definition same_heap (w w' : world) : Prop := heap w' = heap w.

(** An entry of the output directory that exists keeps existing. *)
Definition keeps_entry (name : string) (w w' : world) : Prop :=
  is_Some (fs w !! name) → is_Some (fs w' !! name).

Definition any_world (w w' : world) : Prop := True.
Definition any_exn (e : exn) : Prop := True.
Definition no_exn (e : exn) : Prop := False.

(** [config.get("area", False)] and [config[k]] read off a dictionary. *)
Definition area_of (cfg : pydict) : pyval := default (PyBool false) (cfg !! "area").
Definition item (cfg : pydict) (k : string) : pyval := default PyNone (cfg !! k).

(** The dictionary as [_validate_download_config] leaves it when it gets
    as far as the default for the area. *)
Definition with_default_area (cfg : pydict) : pydict :=
  if truthy (area_of cfg) then cfg else <["area" := GLOBAL_AREA]> cfg.

(** The message of the [ValueError] of [_validate_download_config] on a
    dictionary, [None] when the dictionary passes. *)
Definition validation_error (cfg : pydict) : option string :=
  if negb (forallb (λ k, is_given (cfg !! k)) required_keys) then
    Some "Missing required config keys"%string
  else if not_nonempty_list (item cfg "variable") then
    Some "variable must be a non-empty list"%string
  else if not_nonempty_list (item cfg "pressure_level") then
    Some "pressure_level must be a non-empty list"%string
  else if not_nonempty_list (item cfg "time") then
    Some "time must be a non-empty list"%string
  else
    let area := item (with_default_area cfg) "area" in
    if negb (isinstance_list area) || negb (py_len area =? 4) then
      Some "area must be a list of 4 values [North, West, South, East]"%string
    else None.

(** The words of the specification on configurations. *)
Definition is_nonempty_list (v : pyval) : Prop := ∃ x items, v = PyList (x :: items).
Definition is_four_element_list (v : pyval) : Prop := ∃ n w s e, v = PyList [n; w; s; e].

(** A required field is missing or is not a non-empty list. *)
Definition required_field_bad (cfg : pydict) (k : string) : Prop :=
  ¬ ∃ v, cfg !! k = Some v ∧ is_nonempty_list v.

(** The area is present and truthy, and is not a list of four elements. *)
Definition area_bad (cfg : pydict) : Prop :=
  ∃ v, cfg !! "area" = Some v ∧ truthy v = true ∧ ¬ is_four_element_list v.

Definition config_invalid (cfg : pydict) : Prop :=
  required_field_bad cfg "variable" ∨ required_field_bad cfg "pressure_level" ∨
  required_field_bad cfg "time" ∨ area_bad cfg.

(** The area is absent or falsy. *)
Definition area_absent_or_falsy (cfg : pydict) : Prop :=
  ∀ v, cfg !! "area" = Some v → truthy v = false.

(** Whatever the collaborators raise is an instance of [Exception]: no
    call into [tempfile], the client or [shutil] ends with a
    [KeyboardInterrupt], a [SystemExit] or the like. *)
Definition raises_only_Exception (E : env) : Prop :=
  ∀ w e,
    mkdtemp_name E w = inl e ∨ raised (retrieve E w) = Some e ∨
    move_error E w = Some e ∨ rmtree_error E w = Some e →
    isinstance_Exception e = true.

(** The output directory can be listed: [os.listdir(self.data_dir)]
    returns in the world [w]. *)
Definition listable (E : env) (w : world) : Prop := listdir_error E w = None.

Definition is_Exception (e : exn) : Prop := isinstance_Exception e = true.
Definition not_Exception (e : exn) : Prop := isinstance_Exception e = false.

(** The world once [download_data_for_date] has logged that it starts. *)
Definition started (d : date) (w : world) : world :=
  add_event (EvLog INFO (MsgStartingDownload d)) w.

(** A configuration argument that the caller can pass: nothing, or a
    reference to a dictionary that is alive. *)
Definition config_argument_ok (config : option loc) (w : world) : Prop :=
  match config with
  | None => True
  | Some c => is_Some (heap w !! c)
  end.

(** The messages that an attempt logs after the download has started. *)
Definition attempt_message (m : message) : Prop :=
  match m with
  | MsgAlreadyDownloaded _ | MsgProcessing _ | MsgArchiving _
  | MsgDebugSkip _ | MsgStartingDownload _ | MsgInvalidConfiguration _ => False
  | _ => True
  end.

(** The events of an attempt: such log lines, and calls. *)
Definition attempt_event (ev : event) : Prop :=
  match ev with
  | EvPrint _ => False
  | EvLog _ m => attempt_message m
  | _ => True
  end.

(** The run resolves its arguments to the pair [(s, e)]: both assertions
    pass, and [_get_start_and_end_dates] returns the pair. *)
Definition resolves_to (E : env) (start_date : arg (option date))
    (end_date fixed_date : option date) (w : world) (s e : date) : Prop :=
  let start_date := arg_or_default (Some EPOCH_START) start_date in
  is_given start_date || is_given end_date || is_given fixed_date = true ∧
  negb (is_given end_date && is_given fixed_date) = true ∧
  _get_start_and_end_dates E start_date end_date fixed_date w = (Ret (Some (s, e)), w).

(** Nothing but output happened between two worlds: the directory and
    the dictionaries are the same, and the trace grew by printed and logged
    lines only. *)
Definition only_output (w w' : world) : Prop :=
  fs w' = fs w ∧ heap w' = heap w ∧
  ∃ evs, trace w' = trace w ++ evs ∧ Forall (λ ev, is_external_call ev = false) evs.

(** The date [d] counts as downloaded: the output directory holds a
    regular file whose name, up to its first dot, parses as [d]. *)
Definition downloaded (E : env) (w : world) (d : date) : Prop :=
  ∃ fname size, fs w !! fname = Some (File size) ∧
                strptime_ymd E (split_dot_head fname) = Some d.


(** The client returns from every call, and has then left no file, or an
    empty one, at the destination. *)
Definition client_leaves_nothing (E : env) : Prop :=
  ∀ w, raised (retrieve E w) = None ∧
       (written (retrieve E w) = None ∨ written (retrieve E w) = Some 0%N).


(** The temporary directories that the log lines of a trace say were
    created. *)
Definition created_of (ev : event) : option string :=
  match ev with
  | EvLog DEBUG (MsgCreatedTemp td) => Some td
  | _ => None
  end.

Definition created_temp_dirs (tr : list event) : list string := omap created_of tr.

(** If the event reports a temporary directory, it is [td]. *)
Definition reports_only (td : string) (ev : event) : Prop :=
  ∀ td', created_of ev = Some td' → td' = td.

(** The event is output that reports no temporary directory. *)
Definition quiet_output (ev : event) : Prop :=
  is_external_call ev = false ∧ created_of ev = None.

(** The [try:] block of the download with its [except Exception:]
    clause. *)
Definition handled_download (E : env) (d : date) (c : loc) (td : string) : M (option string) :=
  try_except (download_into E d c td) isinstance_Exception (download_failed d).

(** The world is the same. *)
Definition unchanged (w w' : world) : Prop := w' = w.

(** ** Further notions *)

(** The month and the day of the day number [n] (from 0) of a year, as
    [ord2ymd] finds them from the estimate [(n + 50) >> 5]. *)
Definition month_and_day (leapyear : bool) (n : Z) : Z * Z :=
  let month := Z.shiftr (n + 50) 5 in
  let preceding :=
    days_before_month_table month + (if (2 <? month) && leapyear then 1 else 0) in
  if n <? preceding then
    let month := month - 1 in
    let preceding :=
      preceding - (if (month =? 2) && leapyear then 29 else days_in_month 1 month) in
    (month, n - preceding + 1)
  else (month, n - preceding + 1).

(** The check of one day of a year: the month and the day are in range
    and count back to the day number. *)
Definition month_and_day_ok (leapyear : bool) (n : Z) : bool :=
  let '(m, d) := month_and_day leapyear n in
  (1 <=? m) && (m <=? 12) && (1 <=? d) &&
  (d <=? (if m =? 2 then (if leapyear then 29 else 28) else days_in_month 1 m)) &&
  (days_before_month_table m + (if (2 <? m) && leapyear then 1 else 0) + d =? n + 1).

(** The check of the four digits of a year. *)
Definition four_digits_ok (y : Z) : bool :=
  match fmt_04d y with
  | String a (String b (String c (String d EmptyString))) =>
      match digit_val a, digit_val b, digit_val c, digit_val d with
      | Some va, Some vb, Some vc, Some vd => 1000 * va + 100 * vb + 10 * vc + vd =? y
      | _, _, _, _ => false
      end
  | _ => false
  end.

(** The dates whose year has four digits: from 1000-01-01 on. For them
    [strftime('%Y')] gives the same four characters on every platform. *)
Definition four_digit_year (d : date) : Prop := ymd2ord 1000 1 1 <= d <= MAXORDINAL.

(** The check of the two digits of a month or a day. *)
Definition two_digits_ok (n : Z) : bool :=
  match fmt_02d n with
  | String a (String b EmptyString) =>
      match digit_val a, digit_val b with
      | Some va, Some vb => 10 * va + vb =? n
      | _, _ => false
      end
  | _ => false
  end.

(** The request that [_build_cds_request] makes of a dictionary and a
    date. *)
Definition request_of (cfg : pydict) (target_date : date) : cds_request :=
  let '(y, m, d) := ord2ymd target_date in
  {| req_product_type := "reanalysis";
     req_format := "netcdf";
     req_variable := item cfg "variable";
     req_pressure_level := item cfg "pressure_level";
     req_year := str_int y;
     req_month := fmt_02d m;
     req_day := fmt_02d d;
     req_time := item cfg "time";
     req_area := item cfg "area" |}.

(** The keys that [_build_cds_request] reads, in the order in which it
    reads them, and the first of them that a dictionary lacks. *)
Definition request_keys : list string := ["variable"; "pressure_level"; "time"; "area"]%string.

Definition first_missing (cfg : pydict) : option string :=
  List.find (λ k, negb (is_given (cfg !! k))) request_keys.

Definition is_error_log (ev : event) : bool :=
  match ev with
  | EvLog ERROR _ => true
  | _ => false
  end.

(** The lines that a trace has logged at the level [ERROR]. *)
Definition error_logs (tr : list event) : list event := filter is_error_log tr.

(** What [shutil.move] leaves at the destination [p]: the file, or, when
    [p] was a directory, that directory with the file inside it. *)
Definition stored (p : string) (size : N) (old : option node) : node :=
  match old with
  | Some (Dir entries) => Dir (<[p := size]> entries)
  | _ => File size
  end.

(** A download that has produced no file ends with [None] and an error in
    the log, or with an exception outside [Exception]. *)
Definition ends_without_file (r : outcome (option string)) (evs : list event) : Prop :=
  (r = Ret None ∧ error_logs evs ≠ []) ∨
  (∃ e, r = Raise e ∧ isinstance_Exception e = false).

(** A download that has moved its file to [p] returns [p], unless
    [shutil.rmtree] interrupts the clean-up with an exception outside
    [Exception]; its log has no error. *)
Definition ends_with_file (E : env) (p : string) (r : outcome (option string))
    (evs : list event) : Prop :=
  (r = Ret (Some p) ∨
   ∃ e w, r = Raise e ∧ rmtree_error E w = Some e ∧ isinstance_Exception e = false) ∧
  error_logs evs = [].

(** The output directory [f] after the clean-up of the temporary
    directory [td], where [base] is the directory without it: [base], or,
    when [shutil.rmtree] has failed, [base] with [td] still there. *)
Definition after_cleanup (E : env) (td : string) (base f : gmap string node) : Prop :=
  (f = base ∨ ∃ X, f = <[td := Dir X]> base) ∧
  ((∀ w, rmtree_error E w = None) → f = base).

(** The dictionary that a download works on once the validation has
    passed: the default configuration, or that of the caller with its area
    filled in. *)
Definition effective_config (config : option loc) (w : world) : pydict :=
  match config with
  | None => default_download_config
  | Some c => with_default_area (default ∅ (heap w !! c))
  end.

(** The test of the loop on a date: it is in the list and [redownload] is
    off. *)
Definition skips (self : pipeline) (already_downloaded_dates : list date) (d : date) : bool :=
  bool_decide (d ∈ already_downloaded_dates) && negb (redownload self).

Definition skipped_of (ev : event) : option date :=
  match ev with
  | EvPrint (MsgAlreadyDownloaded d) => Some d
  | _ => None
  end.

(** The dates that a trace reports as skipped, in order. *)
Definition skipped (tr : list event) : list date := omap skipped_of tr.

Definition printed_of (ev : event) : option message :=
  match ev with
  | EvPrint m => Some m
  | _ => None
  end.

(** The lines that a trace has printed, in order. *)
Definition printed (tr : list event) : list message := omap printed_of tr.

(** The lines that the loop prints for one date. *)
Definition visit_output (self : pipeline) (already_downloaded_dates : list date) (d : date)
  : list message :=
  if skips self already_downloaded_dates d then [MsgAlreadyDownloaded d]
  else [MsgProcessing d; MsgArchiving d].

(** What the client was asked for: the dataset, the request and the name
    of the file, call by call. *)
Definition retrieved_of (ev : event) : option (string * cds_request * string) :=
  match ev with
  | EvRetrieve dataset request _ file => Some (dataset, request, file)
  | _ => None
  end.

Definition retrieved (tr : list event) : list (string * cds_request * string) :=
  omap retrieved_of tr.

(** The call of the client for a date in a run: the default
    configuration, and the file named after the date. *)
Definition run_retrieval (E : env) (d : date) : string * cds_request * string :=
  (DATASET, request_of default_download_config d, strftime_ymd E d +:+ ".nc").

(** Every date that counts as downloaded still does. *)
Definition keeps_downloaded (E : env) (w w' : world) : Prop :=
  ∀ d, downloaded E w d → downloaded E w' d.

(** Every dictionary that is alive is still there, with the same
    items. *)
Definition keeps_dicts (w w' : world) : Prop :=
  ∀ l cfg, heap w !! l = Some cfg → heap w' !! l = Some cfg.

(** A platform on which every call works: a date with a four-digit year
    is formatted as the reference does and read back from its name,
    [os.listdir] lists the output directory, [mkdtemp] finds a name, the
    client returns and has written a file that is not empty, and neither
    [shutil.move] nor [shutil.rmtree] fails. *)
Definition dependable (E : env) : Prop :=
  (∀ d, four_digit_year d →
        strftime_ymd E d = format_ymd d ∧ strptime_ymd E (format_ymd d) = Some d) ∧
  ∀ w, (∃ suffix, mkdtemp_name E w = inr suffix) ∧
       (∃ size, size ≠ 0%N ∧ written (retrieve E w) = Some size) ∧
       raised (retrieve E w) = None ∧
       move_error E w = None ∧
       rmtree_error E w = None ∧
       listdir_error E w = None.

(** The output directory holds regular files only, none of them under a
    name that starts like a temporary directory. *)
Definition plain_directory (w : world) : Prop :=
  ∀ name n, fs w !! name = Some n →
            (∃ size, n = File size) ∧ ∀ suffix, name ≠ TEMP_PREFIX +:+ suffix.
(** * Properties *)

(** ** Checks of the calendar and string helpers *)

Example ymd2ord_epoch : ymd2ord 1970 1 1 = UNIX_EPOCH_ORDINAL.
Proof. reflexivity. Qed.

Example ymd2ord_max : ymd2ord 9999 12 31 = MAXORDINAL.
Proof. reflexivity. Qed.

Example ord2ymd_2024_12_05 : ord2ymd (ymd2ord 2024 12 5) = (2024, 12, 5).
Proof. reflexivity. Qed.

Example ord2ymd_leap_day : ord2ymd (ymd2ord 2024 2 29) = (2024, 2, 29).
Proof. reflexivity. Qed.

Example ord2ymd_year_end : ord2ymd (ymd2ord 2023 12 31) = (2023, 12, 31).
Proof. reflexivity. Qed.

Example split_dot_head_nc : split_dot_head "2024-12-01.nc" = "2024-12-01"%string.
Proof. reflexivity. Qed.

Example split_dot_head_two_dots : split_dot_head "2024-12-01.tar.gz" = "2024-12-01"%string.
Proof. reflexivity. Qed.

Example format_ymd_ex : format_ymd (ymd2ord 2024 12 1) = "2024-12-01"%string.
Proof. vm_compute. reflexivity. Qed.

Example parse_ymd_ex : parse_ymd "2024-12-01" = Some (ymd2ord 2024 12 1).
Proof. vm_compute. reflexivity. Qed.

Example parse_ymd_short_fields : parse_ymd "2024-2-9" = Some (ymd2ord 2024 2 9).
Proof. vm_compute. reflexivity. Qed.

Example parse_ymd_notes : parse_ymd (split_dot_head "notes.txt") = None.
Proof. reflexivity. Qed.

Example parse_ymd_feb_30 : parse_ymd "2024-02-30" = None.
Proof. vm_compute. reflexivity. Qed.

Example ord2ymd_first_day : ord2ymd MINORDINAL = (1, 1, 1).
Proof. reflexivity. Qed.

Example ord2ymd_last_day : ord2ymd MAXORDINAL = (9999, 12, 31).
Proof. reflexivity. Qed.

Example ord2ymd_leap_century : ord2ymd (ymd2ord 2000 2 29) = (2000, 2, 29).
Proof. reflexivity. Qed.

Example ord2ymd_common_century : ord2ymd (ymd2ord 1900 2 28 + 1) = (1900, 3, 1).
Proof. reflexivity. Qed.

(** Every day of 2020 .. 2028 goes to its year, month and day and back. *)
Example ord2ymd_ymd2ord_2020s :
  forallb (λ n, let '(y, m, d) := ord2ymd n in
                (ymd2ord y m d =? n) && check_date_fields y m d)
    (date_range (ymd2ord 2020 1 1) (ymd2ord 2028 12 31)) = true.
Proof. vm_compute. reflexivity. Qed.

(** The name of the file of every day of 2024 parses as that day. *)
Example parse_format_2024 :
  forallb (λ n, match parse_ymd (split_dot_head (format_ymd n +:+ ".nc")) with
                | Some n' => n' =? n
                | None => false
                end)
    (date_range (ymd2ord 2024 1 1) (ymd2ord 2024 12 31)) = true.
Proof. vm_compute. reflexivity. Qed.

(** ** Running computations *)

Lemma run_bind {A B : Type} (m : M A) (f : A → M B) (w : world) :
  (m ≫= f) w =
  match m w with
  | (Ret a, w') => f a w'
  | (Raise e, w') => (Raise e, w')
  end.
Proof. reflexivity. Qed.

Lemma run_ret {A : Type} (a : A) (w : world) : (mret a : M A) w = (Ret a, w).
Proof. reflexivity. Qed.

Lemma run_emit_bind {B : Type} (ev : event) (f : unit → M B) (w : world) :
  (emit ev ≫= f) w = f tt (add_event ev w).
Proof. reflexivity. Qed.

Lemma latest_available_date_run E w :
  clock_in_range E w →
  (today ← utc_today E; date_plus_days today (-5)) w = (Ret (five_days_ago E w), w).
Proof.
  unfold clock_in_range, five_days_ago. intros Hclock.
  rewrite run_bind. unfold utc_today, utc_date_of_timestamp.
  rewrite run_bind. cbn [get_world].
  set (o := UNIX_EPOCH_ORDINAL + utcnow E w / MICROSECONDS_PER_DAY) in *.
  replace ((MINORDINAL <=? o) && (o <=? MAXORDINAL)) with true
    by (symmetry; apply andb_true_intro; split; apply Z.leb_le; unfold MINORDINAL in *; lia).
  rewrite run_ret. unfold date_plus_days, add_days.
  replace ((0 <? o + -5) && (o + -5 <=? MAXORDINAL)) with true
    by (symmetry; apply andb_true_intro; split;
        [apply Z.ltb_lt | apply Z.leb_le]; unfold MINORDINAL in *; lia).
  rewrite run_ret. reflexivity.
Qed.

Lemma get_start_and_end_dates_run E w start_date end_date fixed_date :
  clock_in_range E w →
  _get_start_and_end_dates E start_date end_date fixed_date w =
  (Ret (resolution (five_days_ago E w) start_date end_date fixed_date), w).
Proof.
  intros Hclock. unfold _get_start_and_end_dates.
  pose proof (latest_available_date_run E w Hclock) as Hlatest.
  rewrite run_bind in Hlatest. rewrite run_bind.
  destruct (utc_today E w) as [[today|e] w1]; [|done].
  rewrite run_bind, Hlatest.
  destruct fixed_date, start_date, end_date; reflexivity.
Qed.

(** The world is not changed by the resolution, whatever the clock. *)
Lemma get_start_and_end_dates_world E w start_date end_date fixed_date :
  (_get_start_and_end_dates E start_date end_date fixed_date w).2 = w.
Proof.
  unfold _get_start_and_end_dates, utc_today, date_plus_days.
  rewrite !run_bind. cbn [get_world].
  destruct (utc_date_of_timestamp (utcnow E w)) as [today|]; [|done].
  rewrite run_ret, run_bind.
  destruct (add_days today (-5)); [|done].
  rewrite run_ret.
  destruct fixed_date, start_date, end_date; reflexivity.
Qed.

(** C2. Date-range resolution: [fixed_date] alone gives the pair
    (fixed, fixed); [start_date] alone gives (start, current UTC date minus
    five days, the time of day dropped); [end_date] alone gives
    (1940-01-01, end), whether [start_date] is left to its default or passed
    as [None]; both [start_date] and [end_date] give that pair unchanged. *)
Theorem date_range_resolution E w (s e f : date) :
  clock_in_range E w →
  let resolve start_date :=
    _get_start_and_end_dates E (arg_or_default (Some EPOCH_START) start_date) in
  resolve (Passed None) None (Some f) w = (Ret (Some (f, f)), w) ∧
  resolve Omitted None (Some f) w = (Ret (Some (f, f)), w) ∧
  resolve (Passed (Some s)) None None w =
    (Ret (Some (s, UNIX_EPOCH_ORDINAL + utcnow E w / MICROSECONDS_PER_DAY - 5)), w) ∧
  resolve (Passed None) (Some e) None w = (Ret (Some (ymd2ord 1940 1 1, e)), w) ∧
  resolve Omitted (Some e) None w = (Ret (Some (ymd2ord 1940 1 1, e)), w) ∧
  resolve (Passed (Some s)) (Some e) None w = (Ret (Some (s, e)), w).
Proof.
  intros Hclock resolve. unfold resolve.
  repeat split; rewrite get_start_and_end_dates_run by done; reflexivity.
Qed.

Lemma date_range_resolution_witness :
  clock_in_range Sample.working Sample.empty_world ∧
  _get_start_and_end_dates Sample.working (Some Sample.dec_01) None None Sample.empty_world =
    (Ret (Some (Sample.dec_01, ymd2ord 2025 1 10)), Sample.empty_world).
Proof.
  assert (Hclock : clock_in_range Sample.working Sample.empty_world)
    by (vm_compute; split; discriminate).
  split; [exact Hclock|].
  exact (proj1 (proj2 (proj2
    (date_range_resolution Sample.working Sample.empty_world
       Sample.dec_01 Sample.dec_05 Sample.dec_02 Hclock)))).
Defined.

(** ** A small program logic for [M] *)

Section Obeys.

Context (T : world → world → Prop) `{!PreOrder T} (Q : exn → Prop).

Lemma obeys_ret {A : Type} (a : A) : obeys T Q (mret a : M A).
Proof. intros w. split; [reflexivity | discriminate]. Qed.

Lemma obeys_raise {A : Type} (e : exn) : Q e → obeys T Q (raise e : M A).
Proof.
  intros He w. split; [reflexivity|]. cbn. intros e' [= <-]. exact He.
Qed.

Lemma obeys_bind {A B : Type} (m : M A) (f : A → M B) :
  obeys T Q m → (∀ a, obeys T Q (f a)) → obeys T Q (m ≫= f).
Proof.
  intros Hm Hf w. rewrite run_bind.
  destruct (Hm w) as [Ht Hq]. destruct (m w) as [[a|e] w1]; cbn in *.
  - destruct (Hf a w1) as [Ht' Hq']. split; [by etrans | exact Hq'].
  - split; [exact Ht|]. intros e' [= <-]. by apply Hq.
Qed.

Lemma obeys_get_world {B : Type} (f : world → M B) :
  (∀ w0, obeys T Q (f w0)) → obeys T Q (get_world ≫= f).
Proof. intros Hf w. rewrite run_bind. cbn. apply Hf. Qed.

Lemma obeys_modify (f : world → world) :
  (∀ w, T w (f w)) → obeys T Q (modify f).
Proof. intros Hf w. split; [apply Hf | discriminate]. Qed.

Lemma obeys_emit (ev : event) :
  (∀ w, T w (add_event ev w)) → obeys T Q (emit ev).
Proof. apply obeys_modify. Qed.

(** The handler decides what escapes: exceptions of the body that the
    clause does not catch, and those of the handler. *)
Lemma obeys_try_except {A : Type} (Q1 : exn → Prop) (m : M A) (c : exn → bool)
    (h : exn → M A) :
  obeys T Q1 m →
  (∀ e, Q1 e → c e = true → obeys T Q (h e)) →
  (∀ e, Q1 e → c e = false → Q e) →
  obeys T Q (try_except m c h).
Proof.
  intros Hm Hh Hc w. unfold try_except.
  destruct (Hm w) as [Ht Hq]. destruct (m w) as [[a|e] w1]; cbn in *.
  - split; [exact Ht | discriminate].
  - specialize (Hq e eq_refl). destruct (c e) eqn:Hce.
    + destruct (Hh e Hq Hce w1) as [Ht' Hq']. split; [by etrans | exact Hq'].
    + split; [exact Ht|]. cbn. intros e' [= <-]. by apply Hc.
Qed.

Lemma obeys_try_finally {A : Type} (m : M A) (fin : M unit) :
  obeys T Q m → obeys T Q fin → obeys T Q (try_finally m fin).
Proof.
  intros Hm Hfin w. unfold try_finally.
  destruct (Hm w) as [Ht Hq]. destruct (m w) as [r w1]; cbn in *.
  destruct (Hfin w1) as [Ht' Hq']. destruct (fin w1) as [[[]|e] w2]; cbn in *.
  - split; [by etrans | exact Hq].
  - split; [by etrans|]. intros e' [= <-]. by apply Hq'.
Qed.

Lemma obeys_weaken {A : Type} (Q1 : exn → Prop) (m : M A) :
  obeys T Q1 m → (∀ e, Q1 e → Q e) → obeys T Q m.
Proof.
  intros Hm HQ w. destruct (Hm w) as [Ht Hq]. split; [exact Ht|].
  intros e He. apply HQ, Hq, He.
Qed.

End Obeys.

#[global] Instance emits_only_preorder (P : event → Prop) : PreOrder (emits_only P).
Proof.
  split.
  - intros w. exists []. by rewrite app_nil_r.
  - intros w1 w2 w3 (evs1 & H1 & HP1) (evs2 & H2 & HP2).
    exists (evs1 ++ evs2). rewrite H2, H1, app_assoc. split; [done|].
    by apply Forall_app.
Qed.

#[global] Instance same_heap_preorder : PreOrder same_heap.
Proof.
  split.
  - intros w. reflexivity.
  - unfold same_heap. intros w1 w2 w3 H1 H2. congruence.
Qed.

#[global] Instance keeps_entry_preorder (name : string) : PreOrder (keeps_entry name).
Proof.
  split.
  - intros w H. exact H.
  - intros w1 w2 w3 H1 H2 H. apply H2, H1, H.
Qed.

#[global] Instance any_world_preorder : PreOrder any_world.
Proof. split; [intros w | intros w1 w2 w3 _ _]; exact I. Qed.

Lemma emits_only_event (P : event → Prop) (ev : event) (w : world) :
  P ev → emits_only P w (add_event ev w).
Proof. intros HP. exists [ev]. split; [done|]. by apply Forall_singleton. Qed.

Lemma emits_only_set_fs (P : event → Prop) f (w : world) : emits_only P w (set_fs f w).
Proof. exists []. by rewrite app_nil_r. Qed.

Lemma emits_only_set_heap (P : event → Prop) f (w : world) : emits_only P w (set_heap f w).
Proof. exists []. by rewrite app_nil_r. Qed.

(** One step of the verification of a computation against [obeys]: the
    rule for the syntax at the head, or a case split on what a [match]
    looks at. *)
Ltac obeys_step :=
  lazymatch goal with
  | |- ∀ _, _ => intros ?
  | |- obeys ?T ?Q (mret _) => apply (obeys_ret T Q)
  | |- obeys ?T ?Q (get_world ≫= _) => apply (obeys_get_world T Q)
  | |- obeys ?T ?Q (_ ≫= _) => apply (obeys_bind T Q)
  | |- obeys ?T ?Q (try_finally _ _) => apply (obeys_try_finally T Q)
  | |- obeys ?T ?Q (modify _) => apply (obeys_modify T Q)
  | |- obeys ?T ?Q (emit _) => apply (obeys_emit T Q)
  | |- obeys ?T ?Q (print _) => apply (obeys_emit T Q)
  | |- obeys ?T ?Q (log _ _) => apply (obeys_emit T Q)
  | |- obeys ?T ?Q (raise _) => apply (obeys_raise T Q)
  | |- obeys _ _ (match ?x with _ => _ end) => destruct x eqn:?
  end.

(** ** Dictionaries *)

Lemma deref_run c cfg w : heap w !! c = Some cfg → deref c w = (Ret cfg, w).
Proof. intros Hc. unfold deref. rewrite run_bind. cbn. by rewrite Hc. Qed.

Lemma getitem_run c cfg k w :
  heap w !! c = Some cfg →
  getitem c k w = match cfg !! k with
                  | Some v => (Ret v, w)
                  | None => (Raise (KeyError k), w)
                  end.
Proof.
  intros Hc. unfold getitem. rewrite run_bind, (deref_run c cfg w Hc).
  by destruct (cfg !! k).
Qed.

Lemma setitem_run c cfg k v w :
  heap w !! c = Some cfg →
  setitem c k v w = (Ret tt, set_heap (<[c := <[k := v]> cfg]>) w).
Proof.
  intros Hc. unfold setitem. by rewrite run_bind, (deref_run c cfg w Hc).
Qed.

(** ** Validation *)

Lemma not_nonempty_list_spec v : not_nonempty_list v = false ↔ is_nonempty_list v.
Proof.
  unfold not_nonempty_list, is_nonempty_list. split.
  - destruct v as [| | | |items|]; try discriminate.
    destruct items as [|x items]; [discriminate|]. eauto.
  - intros (x & items & ->). reflexivity.
Qed.

Lemma four_element_list_spec v :
  negb (isinstance_list v) || negb (py_len v =? 4) = false ↔ is_four_element_list v.
Proof.
  unfold is_four_element_list. split.
  - destruct v as [| | | |items|]; try discriminate.
    destruct items as [|a [|b [|c [|d [|x items]]]]]; try discriminate; [eauto|].
    cbn. intros H. exfalso. apply negb_false_iff, Z.eqb_eq in H. lia.
  - intros (a & b & c & d & ->). reflexivity.
Qed.

(** The outcome of a validation, read off the dictionary behind the
    reference: the reference itself comes back, and the only write is the
    default for the area. *)
Lemma validate_run c cfg w :
  heap w !! c = Some cfg →
  _validate_download_config c w =
  match validation_error cfg with
  | Some msg => (Raise (ValueError msg), w)
  | None =>
      (Ret c, if truthy (area_of cfg) then w
              else set_heap (<[c := <["area" := GLOBAL_AREA]> cfg]>) w)
  end.
Proof.
  intros Hc. unfold _validate_download_config, validation_error.
  rewrite run_bind, (deref_run c cfg w Hc).
  destruct (negb (forallb _ required_keys)) eqn:Hkeys; [reflexivity|].
  apply negb_false_iff in Hkeys. cbn in Hkeys.
  destruct (cfg !! "variable") as [variable|] eqn:Hvar; [|discriminate].
  destruct (cfg !! "pressure_level") as [pressure_level|] eqn:Hpl; [|discriminate].
  destruct (cfg !! "time") as [time|] eqn:Htime; [|discriminate].
  unfold item. rewrite Hvar, Hpl, Htime. cbn [default from_option id].
  rewrite run_bind, (getitem_run c cfg _ w Hc), Hvar.
  destruct (not_nonempty_list variable); [reflexivity|].
  rewrite run_bind, (getitem_run c cfg _ w Hc), Hpl.
  destruct (not_nonempty_list pressure_level); [reflexivity|].
  rewrite run_bind, (getitem_run c cfg _ w Hc), Htime.
  destruct (not_nonempty_list time); [reflexivity|].
  rewrite run_bind, (deref_run c cfg w Hc), run_bind.
  unfold with_default_area, area_of.
  destruct (truthy (default (PyBool false) (cfg !! "area"))) eqn:Harea; cbn [negb].
  - rewrite run_ret, run_bind, (getitem_run c cfg _ w Hc).
    destruct (cfg !! "area") as [area|]; [|discriminate]. cbn [default from_option id].
    by destruct (negb (isinstance_list area) || negb (py_len area =? 4)).
  - rewrite (setitem_run c cfg _ _ w Hc), run_bind.
    rewrite (getitem_run c (<["area" := GLOBAL_AREA]> cfg)) by apply lookup_insert_eq.
    by rewrite !lookup_insert_eq.
Qed.

Lemma required_field_bad_spec cfg k :
  required_field_bad cfg k ↔ not_nonempty_list (item cfg k) = true ∨ cfg !! k = None.
Proof.
  unfold required_field_bad, item. destruct (cfg !! k) as [v|] eqn:Hk; cbn [default from_option id].
  - rewrite <-not_false_iff_true, not_nonempty_list_spec. split.
    + intros H. left. intros Hv. apply H. eauto.
    + intros [H|?] (v' & [= <-] & Hv); [by apply H | done].
  - split; [auto|]. by intros _ (v & ? & _).
Qed.

(** The validation rejects exactly the configurations that the
    specification calls invalid. *)
Lemma validation_error_spec cfg : validation_error cfg ≠ None ↔ config_invalid cfg.
Proof.
  unfold validation_error, config_invalid. cbn [forallb required_keys].
  rewrite !required_field_bad_spec.
  unfold item at 1 2 3 6 7 8.
  destruct (cfg !! "variable") as [variable|] eqn:Hvar; cbn [is_given andb negb default from_option id];
    [|split; [intros _; auto 7 | done]].
  destruct (cfg !! "pressure_level") as [pl|] eqn:Hpl; cbn [is_given andb negb default from_option id];
    [|split; [intros _; auto 7 | done]].
  destruct (cfg !! "time") as [time|] eqn:Htime; cbn [is_given andb negb default from_option id];
    [|split; [intros _; auto 7 | done]].
  destruct (not_nonempty_list variable); [split; [intros _; auto | done]|].
  destruct (not_nonempty_list pl); [split; [intros _; auto | done]|].
  destruct (not_nonempty_list time); [split; [intros _; auto 6 | done]|].
  unfold with_default_area, area_of, area_bad, item.
  destruct (cfg !! "area") as [area|] eqn:Harea; cbn [default from_option id].
  - destruct (truthy area) eqn:Htruthy.
    + rewrite Harea. cbn [default from_option id].
      destruct (negb (isinstance_list area) || negb (py_len area =? 4)) eqn:H4.
      * split; [|done]. intros _. do 3 right. exists area. repeat split; [done|].
        intros Hfour. apply four_element_list_spec in Hfour. congruence.
      * split; [done|]. intros [[?|?]|[[?|?]|[[?|?]|(v & [= <-] & _ & Hbad)]]]; try done.
        apply four_element_list_spec in H4. done.
    + rewrite lookup_insert_eq. cbn.
      split; [done|]. intros [[?|?]|[[?|?]|[[?|?]|(v & [= <-] & ? & _)]]]; try done.
      congruence.
  - cbn. rewrite lookup_insert_eq. cbn.
    split; [done|]. by intros [[?|?]|[[?|?]|[[?|?]|(v & ? & _)]]].
Qed.

Example default_download_config_valid : validation_error default_download_config = None.
Proof. vm_compute. reflexivity. Qed.

Example default_download_config_area : truthy (area_of default_download_config) = true.
Proof. vm_compute. reflexivity. Qed.

(** ** The download of one date *)

Lemma obeys_any {A : Type} (m : M A) : obeys any_world any_exn m.
Proof. intros w. split; [exact I | intros; exact I]. Qed.

(** Steps through a computation whose exceptions do not matter. *)
Ltac obeys_steps leaf :=
  repeat first
    [ progress cbv zeta
    | obeys_step
    | lazymatch goal with
      | |- obeys ?T ?Q (try_except _ _ _) =>
          apply (obeys_try_except T Q any_exn); [ |intros ? _ _|intros; exact I]
      | |- any_exn _ => exact I
      end
    | solve [leaf] ].

Ltac unfold_download :=
  unfold download_into, download_failed, cleanup, tempfile_mkdtemp, client_retrieve,
    shutil_move, shutil_rmtree, _build_cds_request, getitem, setitem, deref, log, print.

(** The three parts of [download_attempt] decide what it obeys. *)
Lemma download_attempt_obeys E T `{!PreOrder T} (Qm Q : exn → Prop) d c :
  obeys T Qm (tempfile_mkdtemp E TEMP_PREFIX) →
  (∀ e, Qm e →
     obeys T Q (try_finally
                  (try_except (raise e) isinstance_Exception (download_failed d))
                  (cleanup E None))) →
  (∀ td,
     obeys T Q (try_finally
                  (try_except (download_into E d c td) isinstance_Exception
                     (download_failed d))
                  (cleanup E (Some td)))) →
  obeys T Q (download_attempt E d c).
Proof.
  intros Hmk Hraise Hbody w. unfold download_attempt.
  destruct (Hmk w) as [Ht Hq].
  destruct (tempfile_mkdtemp E TEMP_PREFIX w) as [[td|e] w1]; cbn in Ht, Hq.
  - destruct (Hbody td w1) as [Ht' Hq']. split; [by etrans | exact Hq'].
  - destruct (Hraise e (Hq e eq_refl) w1) as [Ht' Hq']. split; [by etrans | exact Hq'].
Qed.

(** The download leaves the dictionaries alone once the configuration is
    validated. *)
Lemma download_attempt_same_heap E d c : obeys same_heap any_exn (download_attempt E d c).
Proof.
  apply (download_attempt_obeys E same_heap any_exn any_exn); [|intros e _|intros td];
    unfold_download; obeys_steps ltac:(reflexivity).
Qed.

(** The download appends to the trace, and only its own events. *)
Lemma download_attempt_emits_only E d c :
  obeys (emits_only attempt_event) any_exn (download_attempt E d c).
Proof.
  apply (download_attempt_obeys E (emits_only attempt_event) any_exn any_exn);
    [|intros e _|intros td];
    unfold_download;
    obeys_steps ltac:(first [ apply emits_only_set_fs
                            | apply emits_only_event; exact I ]).
Qed.

(** The exceptions that escape from an attempt are not instances of
    [Exception]: those are all caught. *)
Lemma download_attempt_escapes E d c : obeys any_world not_Exception (download_attempt E d c).
Proof.
  assert (Hfailed : ∀ e, obeys any_world not_Exception (download_failed d e))
    by (intros e; unfold_download; obeys_steps ltac:(exact I)).
  assert (Hcleanup : ∀ td, obeys any_world not_Exception (cleanup E td)).
  { intros [td|]; unfold cleanup; [|obeys_step].
    obeys_step. obeys_step.
    destruct (_ && _); [|obeys_step].
    apply (obeys_try_except any_world not_Exception any_exn); [apply obeys_any| |done].
    intros e _ _. unfold_download. obeys_steps ltac:(exact I). }
  apply (download_attempt_obeys E any_world any_exn not_Exception);
    [apply obeys_any|intros e _|intros td];
    (apply (obeys_try_finally any_world not_Exception); [|apply Hcleanup]);
    (apply (obeys_try_except any_world not_Exception any_exn);
       [apply obeys_any|intros; apply Hfailed|done]).
Qed.

(** What the parts of an attempt can raise when the collaborators raise
    instances of [Exception] only. *)
Lemma download_failed_returns d e : obeys any_world no_exn (download_failed d e).
Proof. unfold_download. obeys_steps ltac:(exact I). Qed.

Lemma tempfile_mkdtemp_raises_Exception E prefix :
  raises_only_Exception E → obeys any_world is_Exception (tempfile_mkdtemp E prefix).
Proof.
  intros Hwb. unfold_download.
  obeys_steps ltac:(first [exact I | reflexivity | eapply Hwb; eauto]).
Qed.

Lemma download_into_raises_Exception E d c td :
  raises_only_Exception E → obeys any_world is_Exception (download_into E d c td).
Proof.
  intros Hwb. unfold_download.
  obeys_steps ltac:(first [exact I | reflexivity | eapply Hwb; eauto]).
Qed.

Lemma cleanup_returns E td :
  raises_only_Exception E → obeys any_world no_exn (cleanup E td).
Proof.
  intros Hwb. destruct td as [td|]; unfold cleanup; [|obeys_step].
  obeys_step. obeys_step.
  destruct (_ && _); [|obeys_step].
  apply (obeys_try_except any_world no_exn is_Exception).
  - unfold_download. obeys_steps ltac:(first [exact I | eapply Hwb; eauto]).
  - intros e _ _. unfold_download. obeys_steps ltac:(exact I).
  - unfold is_Exception. intros e He1 He2. congruence.
Qed.

(** When the collaborators raise instances of [Exception] only, an
    attempt always returns. *)
Lemma download_attempt_returns E d c :
  raises_only_Exception E → obeys any_world no_exn (download_attempt E d c).
Proof.
  intros Hwb.
  apply (download_attempt_obeys E any_world is_Exception no_exn).
  - by apply tempfile_mkdtemp_raises_Exception.
  - intros e He. apply (obeys_try_finally any_world no_exn); [|by apply cleanup_returns].
    apply (obeys_try_except any_world no_exn is_Exception).
    + by apply (obeys_raise any_world is_Exception).
    + intros; apply download_failed_returns.
    + unfold is_Exception. intros e' He1 He2. congruence.
  - intros td. apply (obeys_try_finally any_world no_exn); [|by apply cleanup_returns].
    apply (obeys_try_except any_world no_exn is_Exception).
    + by apply download_into_raises_Exception.
    + intros; apply download_failed_returns.
    + unfold is_Exception. intros e' He1 He2. congruence.
Qed.

Lemma download_debug_run E self d config w :
  debug self = true →
  download_data_for_date E self d config w =
  (Ret None, add_event (EvLog INFO (MsgDebugSkip d)) w).
Proof. intros Hdebug. unfold download_data_for_date. by rewrite Hdebug. Qed.

(** With a configuration of the caller: the validation decides between
    "no file" and an attempt, which runs on the validated dictionary. *)
Lemma download_config_run E self d c cfg w :
  debug self = false →
  heap w !! c = Some cfg →
  download_data_for_date E self d (Some c) w =
  match validation_error cfg with
  | Some msg =>
      (Ret None,
       add_event (EvLog ERROR (MsgInvalidConfiguration (ValueError msg))) (started d w))
  | None =>
      download_attempt E d c
        (if truthy (area_of cfg) then started d w
         else set_heap (<[c := <["area" := GLOBAL_AREA]> cfg]>) (started d w))
  end.
Proof.
  intros Hdebug Hc. unfold download_data_for_date. rewrite Hdebug.
  unfold log. rewrite run_emit_bind, run_bind, run_ret, run_bind.
  unfold try_except. rewrite run_bind.
  rewrite (validate_run c cfg (add_event _ w)) by exact Hc.
  destruct (validation_error cfg) as [msg|]; reflexivity.
Qed.

(** Without one: a new dictionary with the default configuration, which
    passes the validation as it is. *)
Lemma download_default_run E self d w :
  debug self = false →
  download_data_for_date E self d None w =
  download_attempt E d (fresh (dom (heap w)))
    (set_heap (<[fresh (dom (heap w)) := default_download_config]>) (started d w)).
Proof.
  intros Hdebug. unfold download_data_for_date. rewrite Hdebug.
  unfold log. rewrite run_emit_bind, run_bind.
  unfold _get_default_download_config, new_dict.
  rewrite run_bind. cbn [get_world]. rewrite run_bind. cbn [modify]. rewrite run_ret.
  rewrite run_bind. unfold try_except. rewrite run_bind.
  cbn [add_event heap].
  rewrite (validate_run _ default_download_config) by apply lookup_insert_eq.
  rewrite default_download_config_valid, default_download_config_area.
  reflexivity.
Qed.


(** When the collaborators raise instances of [Exception] only, a
    download always returns. *)
Lemma download_returns E self d config w :
  raises_only_Exception E →
  config_argument_ok config w →
  ∃ r w', download_data_for_date E self d config w = (Ret r, w').
Proof.
  intros Hwb Hconfig.
  destruct (download_data_for_date E self d config w) as [[r|e] w'] eqn:Hrun; [eauto|].
  exfalso. destruct (debug self) eqn:Hdebug.
  { by rewrite download_debug_run in Hrun. }
  destruct config as [c|].
  - destruct Hconfig as [cfg Hc]. rewrite (download_config_run E self d c cfg) in Hrun by done.
    destruct (validation_error cfg); [done|].
    eapply (download_attempt_returns E d c Hwb). by rewrite Hrun.
  - rewrite download_default_run in Hrun by done.
    eapply (download_attempt_returns E d _ Hwb). by rewrite Hrun.
Qed.

Lemma area_absent_or_falsy_spec cfg :
  area_absent_or_falsy cfg ↔ truthy (area_of cfg) = false.
Proof.
  unfold area_absent_or_falsy, area_of. destruct (cfg !! "area") as [v|]; cbn.
  - split; [auto | by intros ? ? [= <-]].
  - split; [done | by intros].
Qed.

(** C8. [_validate_download_config] fails exactly when a required field
    ([variable], [pressure_level], [time]) is missing or is not a non-empty
    list, or when the area is present and truthy and is not a list of four
    elements; it fails with a [ValueError] and has then changed nothing. On
    a configuration that passes, an absent or falsy area has been replaced by
    [[90, -180, -90, 180]]. On a configuration that fails,
    [download_data_for_date] returns [None] and does not raise. *)
Theorem configuration_validation E self d c cfg w :
  heap w !! c = Some cfg →
  ((∃ e w', _validate_download_config c w = (Raise e, w')) ↔ config_invalid cfg) ∧
  (∀ e w', _validate_download_config c w = (Raise e, w') →
           isinstance_ValueError e = true ∧ w' = w) ∧
  (¬ config_invalid cfg → area_absent_or_falsy cfg →
   ∃ w', _validate_download_config c w = (Ret c, w') ∧
         heap w' !! c =
           Some (<["area" := PyList [PyInt 90; PyInt (-180); PyInt (-90); PyInt 180]]> cfg)) ∧
  (config_invalid cfg → (download_data_for_date E self d (Some c) w).1 = Ret None).
Proof.
  intros Hc. pose proof (validate_run c cfg w Hc) as Hrun.
  pose proof (validation_error_spec cfg) as Hspec.
  destruct (validation_error cfg) as [msg|] eqn:Herr.
  - assert (Hinvalid : config_invalid cfg) by (by apply Hspec).
    repeat split.
    + done.
    + eauto.
    + rewrite Hrun in H. by injection H as <- _.
    + rewrite Hrun in H. by injection H as _ <-.
    + done.
    + intros _. destruct (debug self) eqn:Hdebug.
      * by rewrite download_debug_run.
      * by rewrite (download_config_run E self d c cfg), Herr.
  - assert (Hvalid : ¬ config_invalid cfg) by (rewrite <-Hspec; auto).
    repeat split.
    + intros (e & w' & Hraise). congruence.
    + done.
    + congruence.
    + congruence.
    + intros _ Harea. apply area_absent_or_falsy_spec in Harea.
      rewrite Harea in Hrun. eexists. split; [exact Hrun|].
      cbn. apply lookup_insert_eq.
    + done.
Qed.

Lemma configuration_validation_witness :
  heap (Sample.world_with_config ∅) !! 1%positive = Some (∅ : pydict) ∧
  (download_data_for_date Sample.working Sample.downloader Sample.dec_01
     (Some 1%positive) (Sample.world_with_config ∅)).1 = Ret None.
Proof.
  assert (Hc : heap (Sample.world_with_config ∅) !! 1%positive = Some (∅ : pydict))
    by reflexivity.
  split; [exact Hc|].
  apply (configuration_validation Sample.working Sample.downloader Sample.dec_01
           1%positive ∅ (Sample.world_with_config ∅) Hc).
  left. intros (v & Hv & _). discriminate Hv.
Defined.

(** C10. [download_data_for_date] works on the dictionary of the caller
    itself: when that passes the validation and its area is absent or falsy
    (and the pipeline is not in debug mode), the dictionary behind the
    reference of the caller holds the default area [[90, -180, -90, 180]]
    after the call. Whatever the call does, every other key of that
    dictionary keeps its value, and the other dictionaries are untouched. *)
Theorem validation_mutates_caller_config E self d c cfg w :
  heap w !! c = Some cfg →
  let w' := (download_data_for_date E self d (Some c) w).2 in
  (debug self = false → ¬ config_invalid cfg → area_absent_or_falsy cfg →
   heap w' !! c =
     Some (<["area" := PyList [PyInt 90; PyInt (-180); PyInt (-90); PyInt 180]]> cfg)) ∧
  (∃ cfg', heap w' !! c = Some cfg' ∧ ∀ k, k ≠ "area"%string → cfg' !! k = cfg !! k) ∧
  (∀ c', c' ≠ c → heap w' !! c' = heap w !! c').
Proof.
  intros Hc w'. subst w'.
  destruct (debug self) eqn:Hdebug.
  { rewrite download_debug_run by done. cbn. repeat split; [done|eauto]. }
  rewrite (download_config_run E self d c cfg) by done.
  pose proof (validation_error_spec cfg) as Hspec.
  destruct (validation_error cfg) as [msg|] eqn:Herr.
  { cbn. repeat split; [|eauto]. intros _ Hvalid. destruct Hvalid. by apply Hspec. }
  set (w2 := if truthy (area_of cfg) then started d w else _).
  destruct (download_attempt_same_heap E d c w2) as [Hheap _].
  unfold same_heap in Hheap. rewrite Hheap. subst w2.
  destruct (truthy (area_of cfg)) eqn:Harea; cbn.
  - repeat split; [|eauto]. intros _ _ Hfalsy.
    apply area_absent_or_falsy_spec in Hfalsy. congruence.
  - rewrite lookup_insert_eq. repeat split.
    + eexists. split; [done|]. intros k Hk. by rewrite lookup_insert_ne.
    + intros c' Hc'. by rewrite lookup_insert_ne.
Qed.

Lemma validation_mutates_caller_config_witness :
  heap (Sample.world_with_config Sample.config_without_area) !! 1%positive =
    Some Sample.config_without_area ∧
  heap (download_data_for_date Sample.working Sample.downloader Sample.dec_01
          (Some 1%positive) (Sample.world_with_config Sample.config_without_area)).2
    !! 1%positive =
    Some (<["area" := GLOBAL_AREA]> Sample.config_without_area).
Proof.
  assert (Hc : heap (Sample.world_with_config Sample.config_without_area) !! 1%positive =
               Some Sample.config_without_area) by reflexivity.
  split; [exact Hc|].
  apply (validation_mutates_caller_config Sample.working Sample.downloader Sample.dec_01
           1%positive _ _ Hc).
  - reflexivity.
  - rewrite <-validation_error_spec. intros H. by apply H.
  - intros v Hv. discriminate Hv.
Defined.

(** The same on a run of the model: the dictionary of the caller has no
    area before the call and the global one after it. *)
Example caller_config_gains_area :
  Sample.config_without_area !! "area"%string = None ∧
  (heap (download_data_for_date Sample.working Sample.downloader Sample.dec_01
           (Some 1%positive) (Sample.world_with_config Sample.config_without_area)).2
     !! 1%positive) ≫= (λ cfg, cfg !! "area"%string) = Some GLOBAL_AREA.
Proof. split; vm_compute; reflexivity. Qed.

(** ** The loop *)

Lemma add_days_Some d n d' : add_days d n = Some d' → d' = d + n.
Proof.
  unfold add_days. destruct ((0 <? d + n) && (d + n <=? MAXORDINAL)); [|done].
  by intros [= <-].
Qed.

Lemma add_days_valid d : MINORDINAL <= d < MAXORDINAL → add_days d 1 = Some (d + 1).
Proof.
  unfold add_days, MINORDINAL. intros Hd.
  replace ((0 <? d + 1) && (d + 1 <=? MAXORDINAL)) with true; [done|].
  symmetry. apply andb_true_intro. split; [apply Z.ltb_lt | apply Z.leb_le]; lia.
Qed.

Lemma add_days_max : add_days MAXORDINAL 1 = None.
Proof. reflexivity. Qed.

(** One turn of the [while] loop. *)
Lemma daily_loop_turn E self already end_date cur w :
  daily_loop E self already end_date cur w =
  if cur <=? end_date then
    match visit_date E self already cur w with
    | (Raise e, w1) => (Raise e, w1)
    | (Ret _, w1) =>
        match add_days cur 1 with
        | None => (Raise (OverflowError "date value out of range"), w1)
        | Some next => daily_loop E self already end_date next w1
        end
    end
  else (Ret tt, w).
Proof.
  rewrite daily_loop_equation_1.
  destruct (inspect (cur <=? end_date)) as [b Hb].
  set (lhs := daily_loop_unfold_clause_1 _ _ _ _ _ _ _). rewrite Hb. subst lhs.
  destruct b; [|reflexivity].
  cbn. destruct (visit_date E self already cur w) as [[[]|e] w1]; [|reflexivity].
  cbn. destruct (add_days cur 1); reflexivity.
Qed.

Lemma daily_loop_done E self already end_date cur w :
  end_date < cur → daily_loop E self already end_date cur w = (Ret tt, w).
Proof.
  intros Hlt. rewrite daily_loop_turn.
  by replace (cur <=? end_date) with false by (symmetry; apply Z.leb_gt; lia).
Qed.

(** What every visit of the dates from [start] on obeys, the loop obeys;
    the increment of the date adds an [OverflowError] to what can escape. *)
Lemma daily_loop_obeys E self already end_date T `{!PreOrder T} (Q : exn → Prop) start :
  (∀ d, start <= d <= end_date → obeys T Q (visit_date E self already d)) →
  ∀ cur, start <= cur →
    obeys T (λ e, Q e ∨ ∃ msg, e = OverflowError msg)
      (daily_loop E self already end_date cur).
Proof.
  intros Hvisit cur.
  remember (Z.to_nat (end_date + 1 - cur)) as n eqn:Hn.
  revert cur Hn. induction n as [n IH] using lt_wf_ind. intros cur Hn Hcur w.
  rewrite daily_loop_turn. destruct (cur <=? end_date) eqn:Hle.
  - apply Z.leb_le in Hle. destruct (Hvisit cur ltac:(lia) w) as [Ht Hq].
    destruct (visit_date E self already cur w) as [[[]|e] w1]; cbn in Ht, Hq.
    + destruct (add_days cur 1) as [next|] eqn:Hnext.
      * apply add_days_Some in Hnext. subst next.
        destruct (IH (Z.to_nat (end_date + 1 - (cur + 1))) ltac:(lia) (cur + 1)
                    eq_refl ltac:(lia) w1) as [Ht' Hq'].
        split; [by etrans | exact Hq'].
      * split; [exact Ht|]. cbn. intros e [= <-]. right. eauto.
    + split; [exact Ht|]. cbn. intros e' [= <-]. left. by apply Hq.
  - split; [reflexivity | done].
Qed.

(** The loop as a whole, when no visit raises: an invariant indexed by the
    next date to visit goes from the first date to the day after the last,
    and the loop returns unless the last date is [date.max]. *)
Lemma daily_loop_total E self already start end_date (I : date → world → Prop) :
  MINORDINAL <= start → end_date <= MAXORDINAL →
  (∀ d w, start <= d <= end_date → I d w →
          ∃ w1, visit_date E self already d w = (Ret tt, w1) ∧ I (d + 1) w1) →
  ∀ cur w, start <= cur <= end_date + 1 → I cur w →
    ∃ r w', daily_loop E self already end_date cur w = (r, w') ∧
            I (end_date + 1) w' ∧ (end_date < MAXORDINAL → r = Ret tt).
Proof.
  intros Hstart Hend Hvisit cur.
  remember (Z.to_nat (end_date + 1 - cur)) as n eqn:Hn.
  revert cur Hn. induction n as [n IH] using lt_wf_ind. intros cur Hn w Hcur HI.
  rewrite daily_loop_turn. destruct (cur <=? end_date) eqn:Hle.
  - apply Z.leb_le in Hle.
    destruct (Hvisit cur w ltac:(lia) HI) as (w1 & -> & HI1).
    destruct (decide (cur = MAXORDINAL)) as [->|Hmax].
    + rewrite add_days_max. assert (end_date = MAXORDINAL) as -> by lia.
      eexists _, _. split; [done|]. split; [done | lia].
    + rewrite add_days_valid by lia.
      apply (IH (Z.to_nat (end_date + 1 - (cur + 1))) ltac:(lia) (cur + 1) eq_refl);
        [lia | done].
  - apply Z.leb_gt in Hle. assert (cur = end_date + 1) as -> by lia.
    eexists _, _. split; [done|]. split; done.
Qed.

(** ** The run *)

(** The listing: the [OSError] of [os.listdir] goes through, since the
    [try] of the loop catches the [ValueError] of [strptime] only; otherwise
    the dates of the entries are returned, and nothing changes. *)
Lemma get_already_downloaded_dates_run E w :
  _get_already_downloaded_dates E w =
  match listdir_error E w with
  | Some class_name => (Raise (OSError class_name), w)
  | None => (Ret (collect_dates E w (dir_entries w)), w)
  end.
Proof.
  unfold _get_already_downloaded_dates, os_listdir. rewrite !run_bind. cbn [get_world].
  by destruct (listdir_error E w).
Qed.

(** The run, step by step: the two assertions, the resolution, the
    listing of the directory, the loop. *)
Lemma run_unfold E self start_date end_date fixed_date w :
  process_and_archive_daily_data E self start_date end_date fixed_date w =
  let start_date := arg_or_default (Some EPOCH_START) start_date in
  if negb (is_given start_date || is_given end_date || is_given fixed_date) then
    (Raise (AssertionError
              "At least one of start_date, end_date, or fixed_date must be provided."), w)
  else if is_given end_date && is_given fixed_date then
    (Raise (AssertionError "Provide either end_date or fixed_date, not both."), w)
  else
    match _get_start_and_end_dates E start_date end_date fixed_date w with
    | (Ret (Some (s, e)), w1) =>
        match listdir_error E w1 with
        | Some class_name => (Raise (OSError class_name), w1)
        | None => daily_loop E self (collect_dates E w1 (dir_entries w1)) e s w1
        end
    | (Ret None, w1) =>
        (Raise (TypeError "cannot unpack non-iterable NoneType object"), w1)
    | (Raise e, w1) => (Raise e, w1)
    end.
Proof.
  unfold process_and_archive_daily_data. cbv zeta.
  set (sd := arg_or_default (Some EPOCH_START) start_date).
  rewrite run_bind. unfold py_assert.
  destruct (is_given sd || is_given end_date || is_given fixed_date); [|reflexivity].
  rewrite run_ret, run_bind.
  destruct (is_given end_date && is_given fixed_date); [reflexivity|].
  cbn [negb]. rewrite run_ret, run_bind.
  destruct (_get_start_and_end_dates E sd end_date fixed_date w) as [[[[s e]|]|e] w1];
    [|reflexivity..].
  rewrite run_bind, get_already_downloaded_dates_run.
  by destruct (listdir_error E w1).
Qed.

Lemma run_resolved E self start_date end_date fixed_date w s e :
  resolves_to E start_date end_date fixed_date w s e →
  listable E w →
  process_and_archive_daily_data E self start_date end_date fixed_date w =
  daily_loop E self (collect_dates E w (dir_entries w)) e s w.
Proof.
  intros (Hany & Hnot_both & Hres) Hls. rewrite run_unfold. cbv zeta.
  rewrite Hany. apply negb_true_iff in Hnot_both. rewrite Hnot_both. cbn [negb].
  by rewrite Hres, Hls.
Qed.

(** A directory that cannot be listed ends the run before its first date:
    the [OSError] of [os.listdir] is raised outside any [try]. *)
Lemma run_unlistable E self start_date end_date fixed_date w s e class_name :
  resolves_to E start_date end_date fixed_date w s e →
  listdir_error E w = Some class_name →
  process_and_archive_daily_data E self start_date end_date fixed_date w =
  (Raise (OSError class_name), w).
Proof.
  intros (Hany & Hnot_both & Hres) Hls. rewrite run_unfold. cbv zeta.
  rewrite Hany. apply negb_true_iff in Hnot_both. rewrite Hnot_both. cbn [negb].
  by rewrite Hres, Hls.
Qed.

(** ** One visit *)

Lemma visited_app tr1 tr2 : visited (tr1 ++ tr2) = visited tr1 ++ visited tr2.
Proof. apply omap_app. Qed.

Lemma processed_app tr1 tr2 : processed (tr1 ++ tr2) = processed tr1 ++ processed tr2.
Proof. apply omap_app. Qed.

Lemma archived_app tr1 tr2 : archived (tr1 ++ tr2) = archived tr1 ++ archived tr2.
Proof. apply omap_app. Qed.

Lemma external_calls_app tr1 tr2 :
  external_calls (tr1 ++ tr2) = external_calls tr1 ++ external_calls tr2.
Proof. apply filter_app. Qed.

Lemma retrieve_calls_app tr1 tr2 :
  retrieve_calls (tr1 ++ tr2) = retrieve_calls tr1 ++ retrieve_calls tr2.
Proof. apply filter_app. Qed.

Lemma attempt_events_visited evs : Forall attempt_event evs → visited evs = [].
Proof.
  induction 1 as [|ev evs Hev _ IH]; [done|].
  unfold visited in *. cbn. rewrite IH.
  destruct ev as [m|lvl m| | | |]; try done. by destruct lvl, m.
Qed.

Lemma attempt_events_processed evs : Forall attempt_event evs → processed evs = [].
Proof.
  induction 1 as [|ev evs Hev _ IH]; [done|].
  unfold processed in *. cbn. rewrite IH. by destruct ev.
Qed.

Lemma attempt_events_archived evs : Forall attempt_event evs → archived evs = [].
Proof.
  induction 1 as [|ev evs Hev _ IH]; [done|].
  unfold archived in *. cbn. rewrite IH. by destruct ev.
Qed.

(** A date that is already there is skipped with a message. *)
Lemma visit_date_skip E self already d w :
  d ∈ already → redownload self = false →
  visit_date E self already d w = (Ret tt, add_event (EvPrint (MsgAlreadyDownloaded d)) w).
Proof.
  intros Hin Hre. unfold visit_date. by rewrite bool_decide_eq_true_2, Hre.
Qed.

(** In debug mode a date that is not skipped goes to the two placeholders
    after a log line. *)
Lemma visit_date_debug E self already d w :
  debug self = true →
  bool_decide (d ∈ already) && negb (redownload self) = false →
  visit_date E self already d w =
  (Ret tt,
   add_event (EvPrint (MsgArchiving d))
     (add_event (EvPrint (MsgProcessing d))
        (add_event (EvLog INFO (MsgDebugSkip d)) w))).
Proof.
  intros Hdebug Hskip. unfold visit_date. rewrite Hskip.
  by rewrite run_bind, download_debug_run.
Qed.

(** Otherwise the date is downloaded with the default configuration, and
    goes to the two placeholders if the download returns. *)
Lemma visit_date_download E self already d w :
  debug self = false →
  bool_decide (d ∈ already) && negb (redownload self) = false →
  visit_date E self already d w =
  match download_attempt E d (fresh (dom (heap w)))
          (set_heap (<[fresh (dom (heap w)) := default_download_config]>) (started d w)) with
  | (Ret _, w1) =>
      (Ret tt, add_event (EvPrint (MsgArchiving d)) (add_event (EvPrint (MsgProcessing d)) w1))
  | (Raise e, w1) => (Raise e, w1)
  end.
Proof.
  intros Hdebug Hskip. unfold visit_date. rewrite Hskip.
  rewrite run_bind, download_default_run by done.
  by destruct (download_attempt _ _ _ _) as [[r|e] w1].
Qed.

(** Every visit shows in the trace as one visit, of its date. *)
Lemma visit_date_visited E self already d w :
  visited (trace (visit_date E self already d w).2) = visited (trace w) ++ [d].
Proof.
  destruct (bool_decide (d ∈ already) && negb (redownload self)) eqn:Hskip.
  { apply andb_true_iff in Hskip as [Hin Hre].
    apply bool_decide_eq_true in Hin. apply negb_true_iff in Hre.
    rewrite visit_date_skip by done. cbn [snd trace add_event].
    by rewrite visited_app. }
  destruct (debug self) eqn:Hdebug.
  { rewrite visit_date_debug by done. cbn [snd trace add_event].
    rewrite !visited_app. cbn. by rewrite !app_nil_r. }
  rewrite visit_date_download by done.
  set (w2 := set_heap _ (started d w)).
  destruct (download_attempt_emits_only E d (fresh (dom (heap w))) w2)
    as [(evs & Htrace & Hevs) _].
  apply attempt_events_visited in Hevs.
  destruct (download_attempt _ _ _ _) as [[r|e] w1]; cbn [snd trace add_event] in *.
  - rewrite !visited_app, Htrace. subst w2. cbn [trace set_heap started add_event].
    rewrite !visited_app, Hevs. cbn. by rewrite !app_nil_r.
  - rewrite Htrace. subst w2. cbn [trace set_heap started add_event].
    rewrite !visited_app, Hevs. cbn. by rewrite !app_nil_r.
Qed.

(** When the collaborators raise instances of [Exception] only, every
    visit returns. *)
Lemma visit_date_returns E self already d w :
  raises_only_Exception E → ∃ w1, visit_date E self already d w = (Ret tt, w1).
Proof.
  intros Hwb.
  destruct (bool_decide (d ∈ already) && negb (redownload self)) eqn:Hskip.
  { apply andb_true_iff in Hskip as [Hin Hre].
    apply bool_decide_eq_true in Hin. apply negb_true_iff in Hre.
    rewrite visit_date_skip by done. eauto. }
  destruct (debug self) eqn:Hdebug.
  { rewrite visit_date_debug by done. eauto. }
  rewrite visit_date_download by done.
  set (w2 := set_heap _ (started d w)).
  destruct (download_attempt_returns E d (fresh (dom (heap w))) Hwb w2) as [_ Hq].
  destruct (download_attempt _ _ _ _) as [[r|e] w1]; [eauto|].
  destruct (Hq e eq_refl).
Qed.

(** ** C1: the dates visited *)

Lemma date_range_snoc s d : s <= d + 1 → date_range s (d + 1) = date_range s d ++ [d + 1].
Proof.
  intros Hle. unfold date_range.
  replace (d + 1 + 1 - s) with ((d + 1 - s) + 1) by lia.
  rewrite seqZ_app by lia. f_equal.
  replace (s + (d + 1 - s)) with (d + 1) by lia. reflexivity.
Qed.

Lemma date_range_empty s e : e < s → date_range s e = [].
Proof. intros Hlt. unfold date_range. apply seqZ_nil. lia. Qed.

(** The [i]-th date of a range is [i] days after the first; so the range
    ascends by one day at a time and holds each date of the closed interval
    once. *)
Lemma date_range_lookup s e (i : nat) d :
  date_range s e !! i = Some d ↔ d = s + Z.of_nat i ∧ s + Z.of_nat i <= e.
Proof. unfold date_range. rewrite lookup_seqZ. lia. Qed.

Lemma date_range_elem s e d : d ∈ date_range s e ↔ s <= d <= e.
Proof. unfold date_range. rewrite elem_of_seqZ. lia. Qed.

Lemma date_range_NoDup s e : NoDup (date_range s e).
Proof. apply NoDup_seqZ. Qed.

(** The loop as a whole, whatever the visits do: an invariant indexed by
    the next date to visit has moved from the first date to some later date,
    which is the day after the last when the loop returns. *)
Lemma daily_loop_segment E self already start end_date (I : date → world → Prop) :
  (∀ d w, start <= d <= end_date → I d w → I (d + 1) (visit_date E self already d w).2) →
  ∀ cur w, start <= cur <= end_date + 1 → I cur w →
    ∃ k, cur <= k <= end_date + 1 ∧ I k (daily_loop E self already end_date cur w).2 ∧
         ((daily_loop E self already end_date cur w).1 = Ret tt → k = end_date + 1).
Proof.
  intros Hvisit cur.
  remember (Z.to_nat (end_date + 1 - cur)) as n eqn:Hn.
  revert cur Hn. induction n as [n IH] using lt_wf_ind. intros cur Hn w Hcur HI.
  rewrite daily_loop_turn. destruct (cur <=? end_date) eqn:Hle.
  - apply Z.leb_le in Hle.
    pose proof (Hvisit cur w ltac:(lia) HI) as HI1.
    destruct (visit_date E self already cur w) as [[[]|e] w1]; cbn [snd] in HI1.
    + destruct (add_days cur 1) as [next|] eqn:Hnext.
      * apply add_days_Some in Hnext. subst next.
        destruct (IH (Z.to_nat (end_date + 1 - (cur + 1))) ltac:(lia) (cur + 1)
                    eq_refl w1 ltac:(lia) HI1) as (k & Hk & HIk & Hret).
        exists k. split; [lia|]. split; done.
      * exists (cur + 1). split; [lia|]. split; done.
    + exists (cur + 1). split; [lia|]. split; done.
  - apply Z.leb_gt in Hle. exists cur. split; [lia|]. split; [done|]. lia.
Qed.

(** The visits of the loop: always an initial segment of the dates from
    the first one on. *)
Lemma daily_loop_visits_segment E self already s e w :
  ∃ k, k <= e ∧
       visited (trace (daily_loop E self already e s w).2) =
       visited (trace w) ++ date_range s k.
Proof.
  set (I := λ (d : date) (w' : world),
              visited (trace w') = visited (trace w) ++ date_range s (d - 1)).
  destruct (decide (s <= e + 1)) as [Hse|Hse].
  - destruct (daily_loop_segment E self already s e I) with (cur := s) (w := w)
      as (k & Hk & HIk & _).
    + unfold I. intros d w' Hd HI. rewrite visit_date_visited, HI.
      replace (d + 1 - 1) with (d - 1 + 1) by lia.
      rewrite date_range_snoc by lia. rewrite <-app_assoc. do 3 f_equal. lia.
    + lia.
    + unfold I. rewrite date_range_empty by lia. by rewrite app_nil_r.
    + exists (k - 1). split; [lia | exact HIk].
  - rewrite daily_loop_done by lia. exists e. split; [lia|].
    rewrite date_range_empty by lia. by rewrite app_nil_r.
Qed.

(** The visits of the loop when no visit is interrupted: all the dates. *)
Lemma daily_loop_visits_all E self already s e w :
  s <= e → valid_date s → valid_date e → raises_only_Exception E →
  visited (trace (daily_loop E self already e s w).2) = visited (trace w) ++ date_range s e.
Proof.
  intros Hse [Hs _] [_ He] Hwb.
  set (I := λ (d : date) (w' : world),
              visited (trace w') = visited (trace w) ++ date_range s (d - 1)).
  destruct (daily_loop_total E self already s e I Hs He) with (cur := s) (w := w)
    as (r & w' & Hloop & HIe & _).
  - unfold I. intros d w' Hd HI.
    destruct (visit_date_returns E self already d w' Hwb) as [w1 Hw1].
    exists w1. split; [done|].
    pose proof (visit_date_visited E self already d w') as Hv. rewrite Hw1 in Hv.
    cbn [snd] in Hv. rewrite Hv, HI.
    replace (d + 1 - 1) with (d - 1 + 1) by lia.
    rewrite date_range_snoc by lia. rewrite <-app_assoc. do 3 f_equal. lia.
  - lia.
  - unfold I. rewrite date_range_empty by lia. by rewrite app_nil_r.
  - rewrite Hloop. unfold I in HIe. cbn [snd].
    by replace (e + 1 - 1) with e in HIe by lia.
Qed.

(** C1. For a resolved pair (start, end): whatever happens, the dates
    visited by the run are an initial segment of start, start+1, ..., in
    that order; when the output directory can be listed, start <= end (two
    dates of the calendar) and no call into a collaborator is interrupted by
    an exception outside [Exception], they are exactly the dates of the
    closed interval from start to end, in ascending order, one per day, none
    missing and none twice; when start > end the run, once it has listed the
    directory, returns at once and visits no date. *)
Theorem run_visits_closed_interval E self start_date end_date fixed_date w s e :
  resolves_to E start_date end_date fixed_date w s e →
  let run := process_and_archive_daily_data E self start_date end_date fixed_date w in
  (∃ k, k <= e ∧ visited (trace run.2) = visited (trace w) ++ date_range s k) ∧
  (listable E w → s <= e → valid_date s → valid_date e → raises_only_Exception E →
   visited (trace run.2) = visited (trace w) ++ date_range s e) ∧
  (listable E w → e < s → run = (Ret tt, w)) ∧
  (∀ (i : nat) d, date_range s e !! i = Some d ↔ d = s + Z.of_nat i ∧ s + Z.of_nat i <= e).
Proof.
  intros Hres run. subst run.
  destruct (listdir_error E w) as [class_name|] eqn:Hls.
  - rewrite (run_unlistable E self _ _ _ w s e class_name Hres Hls). cbn [snd].
    unfold listable. rewrite Hls. split; [|split; [|split]]; try done.
    + exists (Z.min e (s - 1)). split; [lia|].
      rewrite date_range_empty by lia. by rewrite app_nil_r.
    + intros i d. apply date_range_lookup.
  - rewrite (run_resolved E self _ _ _ w s e Hres Hls).
    split; [|split; [|split]].
    + apply daily_loop_visits_segment.
    + intros _. apply daily_loop_visits_all.
    + intros _ Hlt. by apply daily_loop_done.
    + intros i d. apply date_range_lookup.
Qed.

Lemma raises_only_Exception_working : raises_only_Exception Sample.working.
Proof. intros w e [H|[H|[H|H]]]; discriminate H. Qed.

Lemma run_visits_closed_interval_witness :
  resolves_to Sample.working (Passed (Some Sample.dec_01)) (Some Sample.dec_05) None
    Sample.empty_world Sample.dec_01 Sample.dec_05 ∧
  visited (trace (process_and_archive_daily_data Sample.working Sample.downloader
                    (Passed (Some Sample.dec_01)) (Some Sample.dec_05) None
                    Sample.empty_world).2) =
  [ymd2ord 2024 12 1; ymd2ord 2024 12 2; ymd2ord 2024 12 3; ymd2ord 2024 12 4;
   ymd2ord 2024 12 5].
Proof.
  assert (Hres : resolves_to Sample.working (Passed (Some Sample.dec_01))
                   (Some Sample.dec_05) None Sample.empty_world Sample.dec_01 Sample.dec_05)
    by (repeat split; vm_compute; reflexivity).
  split; [exact Hres|].
  apply (run_visits_closed_interval Sample.working Sample.downloader _ _ _ _ _ _ Hres).
  - reflexivity.
  - vm_compute. discriminate.
  - vm_compute. split; discriminate.
  - vm_compute. split; discriminate.
  - exact raises_only_Exception_working.
Defined.

(** ** C9: [fixed_date] and [start_date] together *)

(** C9. When both [start_date] and [fixed_date] are supplied, the run is
    the run of [fixed_date] alone, whatever [start_date] is: the assertions
    pass, the resolved pair is (fixed, fixed), whose range is the one date
    [fixed], and [start_date] has no influence on anything the run does. *)
Theorem fixed_date_takes_precedence E self (s f : date) w :
  clock_in_range E w →
  resolves_to E (Passed (Some s)) None (Some f) w f f ∧
  date_range f f = [f] ∧
  process_and_archive_daily_data E self (Passed (Some s)) None (Some f) w =
    process_and_archive_daily_data E self (Passed None) None (Some f) w ∧
  process_and_archive_daily_data E self (Passed (Some s)) None (Some f) w =
    process_and_archive_daily_data E self Omitted None (Some f) w.
Proof.
  intros Hclock. split; [|split; [|split]].
  - repeat split. by rewrite get_start_and_end_dates_run.
  - unfold date_range. replace (f + 1 - f) with 1 by lia. reflexivity.
  - reflexivity.
  - reflexivity.
Qed.

Lemma fixed_date_takes_precedence_witness :
  clock_in_range Sample.working Sample.empty_world ∧
  resolves_to Sample.working (Passed (Some Sample.dec_01)) None (Some Sample.dec_05)
    Sample.empty_world Sample.dec_05 Sample.dec_05.
Proof.
  assert (Hclock : clock_in_range Sample.working Sample.empty_world)
    by (vm_compute; split; discriminate).
  split; [exact Hclock|].
  exact (proj1 (fixed_date_takes_precedence Sample.working Sample.downloader
                  Sample.dec_01 Sample.dec_05 Sample.empty_world Hclock)).
Defined.

(** ** C6: the assertions on the arguments *)

(** With [None] for all three dates the first assertion fails, before
    anything else is done. *)
Lemma run_rejects_three_nones E self w :
  process_and_archive_daily_data E self (Passed None) None None w =
  (Raise (AssertionError
            "At least one of start_date, end_date, or fixed_date must be provided."), w).
Proof. reflexivity. Qed.

(** With both [end_date] and [fixed_date] the second assertion fails,
    before anything else is done. *)
Lemma run_rejects_end_and_fixed E self start_date (e f : date) w :
  process_and_archive_daily_data E self start_date (Some e) (Some f) w =
  (Raise (AssertionError "Provide either end_date or fixed_date, not both."), w).
Proof. rewrite run_unfold. cbv zeta. cbn. by rewrite !orb_true_r. Qed.

(** No instance of [Exception] escapes from a visit. *)
Lemma visit_date_escapes E self already d :
  obeys any_world not_Exception (visit_date E self already d).
Proof.
  intros w. split; [exact I|]. intros e.
  destruct (bool_decide (d ∈ already) && negb (redownload self)) eqn:Hskip.
  { apply andb_true_iff in Hskip as [Hin Hre].
    apply bool_decide_eq_true in Hin. apply negb_true_iff in Hre.
    by rewrite visit_date_skip. }
  destruct (debug self) eqn:Hdebug.
  { by rewrite visit_date_debug. }
  rewrite visit_date_download by done.
  set (w2 := set_heap _ (started d w)).
  destruct (download_attempt_escapes E d (fresh (dom (heap w))) w2) as [_ Hq].
  destruct (download_attempt _ _ _ _) as [[r|e'] w1]; [done|].
  cbn. intros [= <-]. by apply Hq.
Qed.

(** An [AssertionError] comes out of a run from its own two assertions
    only. *)
Lemma run_assertion_error E self start_date end_date fixed_date w msg w' :
  process_and_archive_daily_data E self start_date end_date fixed_date w =
    (Raise (AssertionError msg), w') →
  let start_date := arg_or_default (Some EPOCH_START) start_date in
  is_given start_date || is_given end_date || is_given fixed_date = false ∨
  is_given end_date && is_given fixed_date = true.
Proof.
  rewrite run_unfold. cbv zeta.
  destruct (is_given _ || is_given end_date || is_given fixed_date); [|by left].
  destruct (is_given end_date && is_given fixed_date); [by right|]. cbn [negb].
  unfold _get_start_and_end_dates, utc_today, date_plus_days.
  rewrite !run_bind. cbn [get_world].
  destruct (utc_date_of_timestamp (utcnow E w)) as [today|]; [|done].
  rewrite run_ret, run_bind.
  destruct (add_days today (-5)) as [latest|]; [|done].
  rewrite run_ret.
  assert (Hloop : ∀ s e, daily_loop E self (collect_dates E w (dir_entries w)) e s w ≠
                         (Raise (AssertionError msg), w')).
  { intros s e Hrun.
    destruct (daily_loop_obeys E self (collect_dates E w (dir_entries w)) e any_world
                not_Exception s (λ d _, visit_date_escapes E self _ d) s ltac:(lia) w)
      as [_ Hq].
    rewrite Hrun in Hq. by destruct (Hq _ eq_refl) as [?|[? ?]]. }
  destruct fixed_date as [f|];
    [|destruct (arg_or_default _ start_date) as [s|], end_date as [e|]];
    cbn; try done; (destruct (listdir_error E w); [done|]);
    intros Hrun; by apply Hloop in Hrun.
Qed.

(** C6, at the call that the claim gets wrong. A call without arguments
    is not rejected: [start_date] takes its default, 1940-01-01, the first
    assertion finds it, and the run is that of [start_date] = 1940-01-01
    alone, which goes on to resolve the range 1940-01-01 .. (today minus five
    days) and never ends with an [AssertionError]. *)
Theorem run_without_arguments_is_accepted E self w :
  process_and_archive_daily_data E self Omitted None None w =
    process_and_archive_daily_data E self (Passed (Some (ymd2ord 1940 1 1))) None None w ∧
  (∀ msg w', process_and_archive_daily_data E self Omitted None None w ≠
             (Raise (AssertionError msg), w')) ∧
  (clock_in_range E w →
   resolves_to E Omitted None None w (ymd2ord 1940 1 1)
     (UNIX_EPOCH_ORDINAL + utcnow E w / MICROSECONDS_PER_DAY - 5)).
Proof.
  split; [reflexivity|]. split.
  - intros msg w' Hrun. by destruct (run_assertion_error _ _ _ _ _ _ _ _ Hrun).
  - intros Hclock. repeat split. by rewrite get_start_and_end_dates_run.
Qed.

Lemma run_without_arguments_is_accepted_witness :
  clock_in_range Sample.working Sample.empty_world ∧
  resolves_to Sample.working Omitted None None Sample.empty_world
    (ymd2ord 1940 1 1) (ymd2ord 2025 1 10).
Proof.
  assert (Hclock : clock_in_range Sample.working Sample.empty_world)
    by (vm_compute; split; discriminate).
  split; [exact Hclock|].
  exact (proj2 (proj2 (run_without_arguments_is_accepted Sample.working Sample.downloader
                         Sample.empty_world)) Hclock).
Defined.

(** The call without arguments on a sample platform: every day from
    1940-01-01 to 2025-01-10 is visited. *)
Example run_without_arguments_sample :
  visited (trace (process_and_archive_daily_data Sample.working Sample.downloader
                    Omitted None None Sample.empty_world).2) =
  date_range (ymd2ord 1940 1 1) (ymd2ord 2025 1 10).
Proof.
  rewrite (run_resolved Sample.working Sample.downloader Omitted None None
             Sample.empty_world (ymd2ord 1940 1 1) (ymd2ord 2025 1 10))
    by (repeat split; vm_compute; reflexivity).
  apply (daily_loop_visits_all Sample.working).
  - vm_compute. discriminate.
  - vm_compute. split; discriminate.
  - vm_compute. split; discriminate.
  - exact raises_only_Exception_working.
Qed.

(** ** Runs that only produce output *)

#[global] Instance only_output_preorder : PreOrder only_output.
Proof.
  split.
  - intros w. repeat split. exists []. by rewrite app_nil_r.
  - intros w1 w2 w3 (Hfs1 & Hheap1 & evs1 & Htr1 & Hev1) (Hfs2 & Hheap2 & evs2 & Htr2 & Hev2).
    split; [congruence|]. split; [congruence|].
    exists (evs1 ++ evs2). rewrite Htr2, Htr1, app_assoc. split; [done|].
    by apply Forall_app.
Qed.

Lemma only_output_event ev w : is_external_call ev = false → only_output w (add_event ev w).
Proof.
  intros Hev. repeat split. exists [ev]. split; [done|]. by apply Forall_singleton.
Qed.

Lemma only_output_calls w w' :
  only_output w w' →
  external_calls (trace w') = external_calls (trace w) ∧
  retrieve_calls (trace w') = retrieve_calls (trace w).
Proof.
  intros (_ & _ & evs & -> & Hevs).
  rewrite external_calls_app, retrieve_calls_app.
  assert (external_calls evs = [] ∧ retrieve_calls evs = []) as [-> ->].
  { induction Hevs as [|ev evs Hev _ [IH1 IH2]]; [done|].
    unfold external_calls, retrieve_calls in *. rewrite !filter_cons.
    destruct ev; try discriminate Hev; cbn; by rewrite ?IH1, ?IH2. }
  by rewrite !app_nil_r.
Qed.

(** ** C5: the directory that holds the whole range *)

Lemma elem_of_dir_entries w fname : fname ∈ dir_entries w ↔ is_Some (fs w !! fname).
Proof.
  unfold dir_entries. rewrite list_elem_of_fmap. split.
  - intros ([name n] & -> & Hin). apply elem_of_map_to_list in Hin. eauto.
  - intros [n Hn]. exists (fname, n). split; [done|]. by apply elem_of_map_to_list.
Qed.

Lemma elem_of_collect_dates E w names d :
  d ∈ collect_dates E w names ↔
  ∃ fname, fname ∈ names ∧ os_path_isfile w fname = true ∧
           strptime_ymd E (split_dot_head fname) = Some d.
Proof.
  induction names as [|fname names IH]; cbn.
  - split; [by intros ?%elem_of_nil | by intros (? & ?%elem_of_nil & _)].
  - destruct (os_path_isfile w fname) eqn:Hfile; cbn.
    + destruct (strptime_ymd E (split_dot_head fname)) as [d'|] eqn:Hparse.
      * rewrite elem_of_cons, IH. split.
        -- intros [->|(f & Hin & Hf & Hp)];
             [exists fname | exists f]; rewrite elem_of_cons; eauto.
        -- intros (f & [->|Hin]%elem_of_cons & Hf & Hp); [left; congruence | right; eauto].
      * rewrite IH. split.
        -- intros (f & Hin & Hf & Hp). exists f. rewrite elem_of_cons. eauto.
        -- intros (f & [->|Hin]%elem_of_cons & Hf & Hp); [congruence | eauto].
    + rewrite IH. split.
      * intros (f & Hin & Hf & Hp). exists f. rewrite elem_of_cons. eauto.
      * intros (f & [->|Hin]%elem_of_cons & Hf & Hp); [congruence | eauto].
Qed.

(** The dates that [_get_already_downloaded_dates] returns are those of
    the regular files whose names parse. *)
Lemma already_downloaded_spec E w d :
  d ∈ collect_dates E w (dir_entries w) ↔ downloaded E w d.
Proof.
  rewrite elem_of_collect_dates. unfold downloaded, os_path_isfile. split.
  - intros (fname & _ & Hfile & Hparse). exists fname.
    destruct (fs w !! fname) as [[size|entries]|]; try discriminate Hfile. eauto.
  - intros (fname & size & Hfile & Hparse). exists fname.
    rewrite elem_of_dir_entries, Hfile. eauto.
Qed.

(** The loop over dates that are all there, without [redownload]. *)
Lemma daily_loop_all_skipped E self already s e w :
  redownload self = false →
  (∀ d, s <= d <= e → d ∈ already) →
  only_output w (daily_loop E self already e s w).2.
Proof.
  intros Hre Hall.
  apply (daily_loop_obeys E self already e only_output any_exn s); [|lia].
  intros d Hd w'. rewrite visit_date_skip by auto.
  split; [by apply only_output_event | done].
Qed.

(** C5, as far as it holds. With [redownload] disabled, a run over a
    range of which every date is already present in the output directory as
    a regular file with a parseable date prefix makes no call at all (none to
    the client, none to [tempfile] or [shutil]) and leaves the directory and
    the dictionaries as they are. The directory may be the one that a first
    run has left: the second run of two in succession is such a run when the
    first has left a file for every date of the range. *)
Theorem rerun_over_complete_directory_is_noop E self start_date end_date fixed_date s e :
  redownload self = false →
  (∀ w,
     resolves_to E start_date end_date fixed_date w s e →
     (∀ d, s <= d <= e → downloaded E w d) →
     let run := process_and_archive_daily_data E self start_date end_date fixed_date w in
     fs run.2 = fs w ∧ heap run.2 = heap w ∧
     retrieve_calls (trace run.2) = retrieve_calls (trace w) ∧
     external_calls (trace run.2) = external_calls (trace w)) ∧
  (∀ w0,
     let first := process_and_archive_daily_data E self start_date end_date fixed_date w0 in
     let second :=
       process_and_archive_daily_data E self start_date end_date fixed_date first.2 in
     resolves_to E start_date end_date fixed_date first.2 s e →
     (∀ d, s <= d <= e → downloaded E first.2 d) →
     fs second.2 = fs first.2 ∧
     retrieve_calls (trace second.2) = retrieve_calls (trace first.2)).
Proof.
  intros Hre.
  assert (Hnoop : ∀ w,
    resolves_to E start_date end_date fixed_date w s e →
    (∀ d, s <= d <= e → downloaded E w d) →
    only_output w (process_and_archive_daily_data E self start_date end_date fixed_date w).2).
  { intros w Hres Hall. destruct (listdir_error E w) as [class_name|] eqn:Hls.
    { rewrite (run_unlistable E self _ _ _ w s e class_name Hres Hls). cbn [snd].
      reflexivity. }
    rewrite (run_resolved E self _ _ _ w s e Hres Hls).
    apply daily_loop_all_skipped; [done|].
    intros d Hd. apply already_downloaded_spec. auto. }
  split.
  - intros w Hres Hall run. subst run.
    pose proof (Hnoop w Hres Hall) as Hout.
    destruct (only_output_calls _ _ Hout) as [Hext Hretr].
    destruct Hout as (Hfs & Hheap & _). done.
  - intros w0 first second Hres Hall. subst second.
    pose proof (Hnoop first.2 Hres Hall) as Hout.
    destruct (only_output_calls _ _ Hout) as [_ Hretr].
    destruct Hout as (Hfs & _). done.
Qed.

Lemma rerun_over_complete_directory_is_noop_witness :
  redownload Sample.downloader = false ∧
  fs (process_and_archive_daily_data Sample.working Sample.downloader
        (Passed (Some Sample.dec_01)) (Some Sample.dec_02) None Sample.two_days_world).2 =
  fs Sample.two_days_world.
Proof.
  split; [reflexivity|].
  apply (proj1 (rerun_over_complete_directory_is_noop Sample.working Sample.downloader
                  (Passed (Some Sample.dec_01)) (Some Sample.dec_02) None
                  Sample.dec_01 Sample.dec_02 eq_refl)).
  - repeat split; vm_compute; reflexivity.
  - intros d Hd.
    assert (d = Sample.dec_01 ∨ d = Sample.dec_02) as [->| ->]
      by (unfold Sample.dec_01, Sample.dec_02 in *; lia).
    + exists "2024-12-01.nc"%string, 1024%N. split; vm_compute; reflexivity.
    + exists "2024-12-02.nc"%string, 1024%N. split; vm_compute; reflexivity.
Defined.

(** C5 as stated fails: when the client cannot reach the service, the
    first run leaves no file, and the second run of the same range calls the
    client again, once for each date. *)
Lemma second_run_retries_failed_downloads :
  redownload Sample.downloader = false ∧
  (Sample.first_run Sample.offline).1 = Ret tt ∧
  (Sample.second_run Sample.offline).1 = Ret tt ∧
  length (retrieve_calls (trace (Sample.first_run Sample.offline).2)) = 2%nat ∧
  length (retrieve_calls (trace (Sample.second_run Sample.offline).2)) = 4%nat ∧
  retrieve_calls (trace (Sample.second_run Sample.offline).2) ≠
    retrieve_calls (trace (Sample.first_run Sample.offline).2).
Proof.
  assert (H1 : length (retrieve_calls (trace (Sample.first_run Sample.offline).2)) = 2%nat)
    by (vm_compute; reflexivity).
  assert (H2 : length (retrieve_calls (trace (Sample.second_run Sample.offline).2)) = 4%nat)
    by (vm_compute; reflexivity).
  split; [reflexivity|]. split; [vm_compute; reflexivity|].
  split; [vm_compute; reflexivity|]. split; [exact H1|]. split; [exact H2|].
  intros Heq. rewrite Heq, H1 in H2. discriminate H2.
Qed.

(** Two runs in succession on a platform on which everything works: the
    first downloads both days, the second makes no call and leaves the
    directory as it is. *)
Example second_run_after_successful_first :
  map_to_list (fs (Sample.first_run Sample.working).2) =
    [("2024-12-01.nc"%string, File 1024%N); ("2024-12-02.nc"%string, File 1024%N)] ∧
  fs (Sample.second_run Sample.working).2 = fs (Sample.first_run Sample.working).2 ∧
  external_calls (trace (Sample.second_run Sample.working).2) =
    external_calls (trace (Sample.first_run Sample.working).2) ∧
  length (retrieve_calls (trace (Sample.second_run Sample.working).2)) = 2%nat.
Proof. repeat split; vm_compute; reflexivity. Qed.

(** ** C7: debug mode *)

(** The loop in debug mode over a directory without downloaded dates:
    every date goes to both placeholders, and nothing but output happens. *)
Lemma daily_loop_debug E self s e w :
  debug self = true → s <= e → valid_date s → valid_date e →
  let w' := (daily_loop E self [] e s w).2 in
  processed (trace w') = processed (trace w) ++ date_range s e ∧
  archived (trace w') = archived (trace w) ++ date_range s e ∧
  only_output w w'.
Proof.
  intros Hdebug Hse [Hs _] [_ He] w'. subst w'.
  set (I := λ (d : date) (w' : world),
              processed (trace w') = processed (trace w) ++ date_range s (d - 1) ∧
              archived (trace w') = archived (trace w) ++ date_range s (d - 1) ∧
              only_output w w').
  destruct (daily_loop_total E self [] s e I Hs He) with (cur := s) (w := w)
    as (r & w' & Hloop & HIe & _).
  - unfold I. intros d w' Hd (Hproc & Harch & Hout).
    rewrite visit_date_debug by done. eexists. split; [done|].
    cbn [trace add_event].
    replace (d + 1 - 1) with (d - 1 + 1) by lia.
    rewrite date_range_snoc by lia.
    replace (d - 1 + 1) with d by lia.
    rewrite !processed_app, !archived_app, Hproc, Harch. cbn.
    rewrite !app_nil_r.
    split; [by rewrite <-app_assoc|]. split; [by rewrite <-app_assoc|].
    etrans; [exact Hout|].
    etrans; [by apply (only_output_event (EvLog INFO (MsgDebugSkip d)))|].
    etrans; [by apply (only_output_event (EvPrint (MsgProcessing d)))|].
    by apply (only_output_event (EvPrint (MsgArchiving d))).
  - lia.
  - unfold I. rewrite date_range_empty by lia. rewrite !app_nil_r.
    split; [done|]. split; [done|]. reflexivity.
  - rewrite Hloop. unfold I in HIe. cbn [snd].
    by replace (e + 1 - 1) with e in HIe by lia.
Qed.

Lemma collect_dates_empty E w : fs w = ∅ → collect_dates E w (dir_entries w) = [].
Proof. intros Hfs. unfold dir_entries. by rewrite Hfs, map_to_list_empty. Qed.

(** C7. With the debug flag set, [download_data_for_date] returns [None]
    at once for any date: its only effect is a log line, so the client is not
    called, and neither the output directory nor any dictionary changes. A
    run in debug mode over a range start <= end, from an empty output
    directory (one that [os.listdir] can list), hands every date of the
    range, once and in order, to the process placeholder and to the archive
    placeholder, calls nothing, and leaves the directory empty. *)
Theorem debug_mode_downloads_nothing E self :
  debug self = true →
  (∀ d config w,
     download_data_for_date E self d config w =
       (Ret None, add_event (EvLog INFO (MsgDebugSkip d)) w) ∧
     fs (download_data_for_date E self d config w).2 = fs w ∧
     retrieve_calls (trace (download_data_for_date E self d config w).2) =
       retrieve_calls (trace w) ∧
     external_calls (trace (download_data_for_date E self d config w).2) =
       external_calls (trace w)) ∧
  (∀ start_date end_date fixed_date w s e,
     resolves_to E start_date end_date fixed_date w s e →
     listable E w → fs w = ∅ → s <= e → valid_date s → valid_date e →
     let run := process_and_archive_daily_data E self start_date end_date fixed_date w in
     processed (trace run.2) = processed (trace w) ++ date_range s e ∧
     archived (trace run.2) = archived (trace w) ++ date_range s e ∧
     fs run.2 = ∅ ∧
     retrieve_calls (trace run.2) = retrieve_calls (trace w) ∧
     external_calls (trace run.2) = external_calls (trace w)).
Proof.
  intros Hdebug. split.
  - intros d config w. rewrite download_debug_run by done.
    cbn [snd fs trace add_event].
    rewrite retrieve_calls_app, external_calls_app. cbn. by rewrite !app_nil_r.
  - intros start_date end_date fixed_date w s e Hres Hls Hfs Hse Hs He run. subst run.
    rewrite (run_resolved E self _ _ _ w s e Hres Hls), collect_dates_empty by done.
    destruct (daily_loop_debug E self s e w Hdebug Hse Hs He) as (Hproc & Harch & Hout).
    destruct (only_output_calls _ _ Hout) as [Hext Hretr].
    destruct Hout as (Hfs' & _). rewrite Hfs in Hfs'. done.
Qed.

Lemma debug_mode_downloads_nothing_witness :
  debug Sample.dry_run = true ∧
  resolves_to Sample.working (Passed (Some Sample.dec_01)) (Some Sample.dec_05) None
    Sample.empty_world Sample.dec_01 Sample.dec_05 ∧
  download_data_for_date Sample.working Sample.dry_run Sample.dec_01 None
    Sample.empty_world =
  (Ret None, add_event (EvLog INFO (MsgDebugSkip Sample.dec_01)) Sample.empty_world) ∧
  processed (trace (process_and_archive_daily_data Sample.working Sample.dry_run
                      (Passed (Some Sample.dec_01)) (Some Sample.dec_05) None
                      Sample.empty_world).2) =
  [] ++ date_range Sample.dec_01 Sample.dec_05.
Proof.
  assert (Hres : resolves_to Sample.working (Passed (Some Sample.dec_01))
                   (Some Sample.dec_05) None Sample.empty_world Sample.dec_01 Sample.dec_05)
    by (repeat split; vm_compute; reflexivity).
  split; [reflexivity|]. split; [exact Hres|]. split.
  - apply (proj1 (debug_mode_downloads_nothing Sample.working Sample.dry_run eq_refl)).
  - apply (proj2 (debug_mode_downloads_nothing Sample.working Sample.dry_run eq_refl)
             (Passed (Some Sample.dec_01)) (Some Sample.dec_05) None Sample.empty_world
             Sample.dec_01 Sample.dec_05 Hres eq_refl eq_refl).
    + vm_compute. discriminate.
    + vm_compute. split; discriminate.
    + vm_compute. split; discriminate.
Defined.

(** The scenario of the specification: 2024-12-01 .. 2024-12-05, empty
    output directory, debug mode. *)
Example debug_run_scenario :
  let run := process_and_archive_daily_data Sample.working Sample.dry_run
               (Passed (Some (ymd2ord 2024 12 1))) (Some (ymd2ord 2024 12 5)) None
               Sample.empty_world in
  run.1 = Ret tt ∧
  processed (trace run.2) = date_range (ymd2ord 2024 12 1) (ymd2ord 2024 12 5) ∧
  archived (trace run.2) = date_range (ymd2ord 2024 12 1) (ymd2ord 2024 12 5) ∧
  length (processed (trace run.2)) = 5%nat ∧
  fs run.2 = ∅ ∧
  external_calls (trace run.2) = [].
Proof. cbv zeta. repeat split; vm_compute; reflexivity. Qed.

(** ** C3: what a failure of the client does *)










Lemma raises_only_Exception_offline : raises_only_Exception Sample.offline.
Proof.
  intros w e [H|[H|[H|H]]]; try discriminate H. by injection H as <-.
Qed.



(** ** C4: failed post-conditions, and the temporary directory *)

Lemma tempfile_mkdtemp_run E prefix w :
  tempfile_mkdtemp E prefix w =
  let w1 := add_event (EvMkdtemp prefix) w in
  match mkdtemp_name E w1 with
  | inl e => (Raise e, w1)
  | inr suffix =>
      if os_path_exists w1 (prefix +:+ suffix)
      then (Raise (FileExistsError (prefix +:+ suffix)), w1)
      else (Ret (prefix +:+ suffix), set_fs (<[prefix +:+ suffix := Dir ∅]>) w1)
  end.
Proof.
  unfold tempfile_mkdtemp. rewrite run_emit_bind, run_bind. cbn [get_world]. cbv zeta.
  destruct (mkdtemp_name E _) as [e|suffix]; [done|].
  by destruct (os_path_exists _ _).
Qed.

Lemma tempfile_mkdtemp_created E w td w1 :
  tempfile_mkdtemp E TEMP_PREFIX w = (Ret td, w1) →
  String.eqb td EmptyString = false ∧ fs w !! td = None ∧
  w1 = set_fs (<[td := Dir ∅]>) (add_event (EvMkdtemp TEMP_PREFIX) w).
Proof.
  rewrite tempfile_mkdtemp_run. cbv zeta.
  destruct (mkdtemp_name E _) as [e|suffix]; [done|].
  destruct (os_path_exists _ _) eqn:Hexists; [done|].
  intros [= <- <-]. split; [reflexivity|]. split; [|done].
  unfold os_path_exists in Hexists. cbn [fs add_event] in Hexists.
  by destruct (fs w !! _).
Qed.

Lemma tempfile_mkdtemp_failed E w e w1 :
  tempfile_mkdtemp E TEMP_PREFIX w = (Raise e, w1) →
  w1 = add_event (EvMkdtemp TEMP_PREFIX) w.
Proof.
  rewrite tempfile_mkdtemp_run. cbv zeta.
  destruct (mkdtemp_name E _) as [e'|suffix]; [by intros [= _ <-]|].
  destruct (os_path_exists _ _); [by intros [= _ <-] | done].
Qed.

(** The [finally:] clause on a temporary directory that exists. *)
Lemma cleanup_run E td w :
  String.eqb td EmptyString = false → is_Some (fs w !! td) →
  cleanup E (Some td) w =
  let wr := add_event (EvRmtree td) w in
  match rmtree_error E wr with
  | None => (Ret tt, add_event (EvLog DEBUG (MsgCleanedUp td)) (set_fs (delete td) wr))
  | Some e =>
      if isinstance_Exception e
      then (Ret tt, add_event (EvLog WARNING (MsgCleanupFailed td e)) wr)
      else (Raise e, wr)
  end.
Proof.
  intros Hne [n Hn]. unfold cleanup. rewrite run_bind. cbn [get_world].
  unfold os_path_exists. rewrite Hne, Hn. cbn [negb is_given andb].
  unfold try_except, shutil_rmtree, log.
  rewrite run_bind, run_emit_bind, run_bind. cbn [get_world]. cbv zeta.
  destruct (rmtree_error E _) as [e|]; [|reflexivity].
  cbn. by destruct (isinstance_Exception e).
Qed.

Lemma write_in_dir_keeps name td file size (f : gmap string node) :
  is_Some (f !! name) → is_Some (write_in_dir td file size f !! name).
Proof.
  intros Hname. unfold write_in_dir.
  destruct (f !! td) as [[n|entries]|] eqn:Htd; try done.
  rewrite lookup_insert_is_Some. destruct (decide (td = name)); auto.
Qed.

Lemma remove_from_dir_keeps name td file (f : gmap string node) :
  is_Some (f !! name) → is_Some (remove_from_dir td file f !! name).
Proof.
  intros Hname. unfold remove_from_dir.
  destruct (f !! td) as [[n|entries]|] eqn:Htd; try done.
  rewrite lookup_insert_is_Some. destruct (decide (td = name)); auto.
Qed.

(** The handled [try:] block removes no entry of the output directory. *)
Lemma handled_download_keeps_entry E d c td name :
  obeys (keeps_entry name) any_exn (handled_download E d c td).
Proof.
  unfold handled_download. unfold_download.
  obeys_steps ltac:(first
    [ exact I
    | unfold keeps_entry; cbn [fs set_fs add_event]; intros Hsome;
      first [ exact Hsome
            | by apply write_in_dir_keeps
            | rewrite lookup_insert_is_Some;
              match goal with
              | |- ?a = ?b ∨ _ => destruct (decide (a = b)); [by left | right]
              end;
              split; [done | by apply remove_from_dir_keeps] ] ]).
Qed.

(** Its log lines report no temporary directory but [td]. *)
Lemma handled_download_emits E d c td :
  obeys (emits_only (reports_only td)) any_exn (handled_download E d c td).
Proof.
  unfold handled_download. unfold_download.
  obeys_steps ltac:(first
    [ exact I
    | apply emits_only_set_fs
    | apply emits_only_event; intros td'; cbn; congruence ]).
Qed.

Lemma try_except_emit {A : Type} ev (k : unit → M A) c h w :
  try_except (emit ev ≫= k) c h w = try_except (k tt) c h (add_event ev w).
Proof. reflexivity. Qed.

(** Its first event is the log line that reports [td]. *)
Lemma handled_download_first_event E d c td w :
  ∃ evs, trace (handled_download E d c td w).2 =
         trace w ++ EvLog DEBUG (MsgCreatedTemp td) :: evs.
Proof.
  unfold handled_download, download_into, log. rewrite try_except_emit.
  match goal with
  | |- context [try_except ?m ?c ?h ?w0] =>
      assert (Hobeys : obeys (emits_only (λ _, True)) any_exn (try_except m c h))
        by (unfold_download;
            obeys_steps ltac:(first [ exact I
                                    | apply emits_only_set_fs
                                    | apply emits_only_event; exact I ]));
      destruct (Hobeys w0) as [(evs & Htrace & _) _]
  end.
  exists evs. rewrite Htrace. cbn [trace add_event]. by rewrite <-app_assoc.
Qed.

Lemma reports_only_created td evs td' :
  Forall (reports_only td) evs → td' ∈ created_temp_dirs evs → td' = td.
Proof.
  unfold created_temp_dirs. intros Hevs Hin.
  apply list_elem_of_omap in Hin as (ev & Hev & Hcreated).
  rewrite Forall_forall in Hevs. by apply (Hevs ev Hev).
Qed.

Lemma quiet_output_created evs : Forall quiet_output evs → created_temp_dirs evs = [].
Proof.
  induction 1 as [|ev evs [_ Hev] _ IH]; [done|].
  unfold created_temp_dirs in *. cbn. by rewrite Hev, IH.
Qed.

Lemma quiet_output_calls evs : Forall quiet_output evs → external_calls evs = [].
Proof.
  induction 1 as [|ev evs [Hev _] _ IH]; [done|].
  unfold external_calls in *. rewrite filter_cons, IH.
  destruct (decide (is_external_call ev)) as [Hcall|]; [|done].
  rewrite Hev in Hcall. done.
Qed.

(** The shape of an attempt. Either [mkdtemp] raised: then no directory
    was created, and the output directory is as before. Or it returned a new
    directory [td]: then the handled [try:] block ran, the [finally:] clause
    called [shutil.rmtree] on [td], which was still there, and after that
    came a log line at most; [td] is gone unless that call failed. *)
Lemma download_attempt_shape E d c w :
  (∃ evs, trace (download_attempt E d c w).2 = trace w ++ EvMkdtemp TEMP_PREFIX :: evs ∧
          Forall quiet_output evs ∧ fs (download_attempt E d c w).2 = fs w) ∨
  (∃ td evs wr tail,
     fs w !! td = None ∧ td ∈ created_temp_dirs evs ∧ Forall (reports_only td) evs ∧
     trace wr = trace w ++ EvMkdtemp TEMP_PREFIX :: evs ++ [EvRmtree td] ∧
     is_Some (fs wr !! td) ∧
     trace (download_attempt E d c w).2 = trace wr ++ tail ∧ Forall quiet_output tail ∧
     (rmtree_error E wr = None → fs (download_attempt E d c w).2 !! td = None) ∧
     (∀ e, rmtree_error E wr = Some e →
           fs (download_attempt E d c w).2 !! td = fs wr !! td ∧
           (isinstance_Exception e = true →
            tail = [EvLog WARNING (MsgCleanupFailed td e)]))).
Proof.
  unfold download_attempt.
  destruct (tempfile_mkdtemp E TEMP_PREFIX w) as [[td|e] w1] eqn:Hmk.
  - right. apply tempfile_mkdtemp_created in Hmk as (Hne & Hfresh & ->).
    set (w1 := set_fs _ _).
    unfold try_finally. fold (handled_download E d c td).
    destruct (handled_download_keeps_entry E d c td td w1) as [Hkeep _].
    destruct (handled_download_emits E d c td w1) as [(evs & Htrace & Hevs) _].
    destruct (handled_download_first_event E d c td w1) as (evs' & Hfirst).
    destruct (handled_download E d c td w1) as [r wb]; cbn [snd] in *.
    assert (Hthere : is_Some (fs wb !! td)).
    { apply Hkeep. subst w1. cbn. rewrite lookup_insert_eq. eauto. }
    rewrite (cleanup_run E td wb Hne Hthere). cbv zeta.
    set (wr := add_event (EvRmtree td) wb).
    assert (Hcreated : td ∈ created_temp_dirs evs).
    { rewrite Htrace in Hfirst. apply app_inv_head in Hfirst. subst evs.
      unfold created_temp_dirs. cbn. apply elem_of_cons. by left. }
    assert (Hwr : trace wr = trace w ++ EvMkdtemp TEMP_PREFIX :: evs ++ [EvRmtree td]).
    { subst wr w1. cbn [trace add_event set_fs] in *. rewrite Htrace.
      by rewrite <-!app_assoc. }
    destruct (rmtree_error E wr) as [e|] eqn:Hrm.
    + destruct (isinstance_Exception e) eqn:Hexc.
      * exists td, evs, wr, [EvLog WARNING (MsgCleanupFailed td e)].
        split; [exact Hfresh|]. split; [exact Hcreated|]. split; [exact Hevs|].
        split; [exact Hwr|]. split; [exact Hthere|]. split; [reflexivity|].
        split; [by apply Forall_singleton|]. split; [intros Hnone; congruence|].
        intros e' He'. rewrite Hrm in He'. injection He' as <-.
        split; [reflexivity | done].
      * exists td, evs, wr, [].
        split; [exact Hfresh|]. split; [exact Hcreated|]. split; [exact Hevs|].
        split; [exact Hwr|]. split; [exact Hthere|].
        split; [by rewrite app_nil_r|]. split; [by apply Forall_nil|].
        split; [intros Hnone; congruence|].
        intros e' He'. rewrite Hrm in He'. injection He' as <-.
        split; [reflexivity | congruence].
    + exists td, evs, wr, [EvLog DEBUG (MsgCleanedUp td)].
      split; [exact Hfresh|]. split; [exact Hcreated|]. split; [exact Hevs|].
      split; [exact Hwr|]. split; [exact Hthere|]. split; [reflexivity|].
      split; [by apply Forall_singleton|]. split; [|intros e' He'; congruence].
      intros _. cbn. apply lookup_delete_eq.
  - left. apply tempfile_mkdtemp_failed in Hmk as ->.
    unfold try_finally, try_except, download_failed, log. cbn [raise cleanup].
    destruct (isinstance_Exception e).
    + rewrite run_emit_bind, !run_ret. cbn.
      exists [EvLog ERROR (MsgDownloadFailed d e)].
      rewrite <-app_assoc. split; [done|]. split; [by apply Forall_singleton | done].
    + rewrite run_ret. cbn. exists []. split; [done|]. split; [by apply Forall_nil | done].
Qed.

#[global] Instance unchanged_preorder : PreOrder unchanged.
Proof.
  split.
  - intros w. reflexivity.
  - unfold unchanged. intros w1 w2 w3 H1 H2. congruence.
Qed.

Lemma build_cds_request_unchanged d c : obeys unchanged any_exn (_build_cds_request d c).
Proof. unfold_download. obeys_steps ltac:(exact I). Qed.

(** When the client returns without a file, or with an empty one, in a
    temporary directory that was empty, the [try:] block returns [None] or
    raises, after one call of the client at most. *)
Lemma download_into_leaves_nothing E d c td w :
  client_leaves_nothing E → fs w !! td = Some (Dir ∅) →
  ∃ r w' evs, download_into E d c td w = (r, w') ∧ trace w' = trace w ++ evs ∧
              (length (retrieve_calls evs) <= 1)%nat ∧
              (r = Ret None ∨ ∃ e, r = Raise e).
Proof.
  intros Hclient Hfs. unfold download_into, log.
  rewrite run_emit_bind, run_bind.
  set (w1 := add_event _ w).
  destruct (build_cds_request_unchanged d c w1) as [Hsame _].
  destruct (_build_cds_request d c w1) as [[request|e] w1']; cbn [snd] in Hsame;
    unfold unchanged in Hsame; subst w1'.
  2: { eexists _, _, [_]. split; [reflexivity|]. split; [reflexivity|].
       split; [vm_compute; lia | eauto]. }
  rewrite run_emit_bind, run_bind. unfold client_retrieve.
  rewrite run_emit_bind, run_bind. cbn [get_world]. cbv zeta. rewrite run_bind.
  set (file := strftime_ymd E d +:+ ".nc").
  set (w3 := add_event (EvRetrieve _ _ _ _) _).
  destruct (Hclient w3) as [Hraised Hwritten]. rewrite Hraised.
  destruct Hwritten as [Hwritten|Hwritten]; rewrite Hwritten.
  - rewrite !run_ret, run_bind. cbn [get_world].
    unfold file_in_dir. cbn [fs add_event w3 w1]. rewrite Hfs, lookup_empty.
    rewrite run_emit_bind, run_ret.
    eexists _, _, [_; _; _; _]. split; [reflexivity|].
    split; [cbn; by rewrite <-!app_assoc|]. split; [vm_compute; lia | eauto].
  - cbn [modify]. rewrite run_ret, run_bind. cbn [get_world].
    unfold file_in_dir, write_in_dir. cbn [fs set_fs add_event w3 w1].
    rewrite Hfs, !lookup_insert_eq. cbn [N.eqb].
    rewrite run_emit_bind, run_ret.
    eexists _, _, [_; _; _; _]. split; [reflexivity|].
    split; [cbn; by rewrite <-!app_assoc|]. split; [vm_compute; lia | eauto].
Qed.

Lemma cleanup_emits E td :
  obeys (emits_only (λ ev, is_retrieve ev = false)) any_exn (cleanup E td).
Proof.
  destruct td as [td|]; unfold_download;
    obeys_steps ltac:(first [ exact I
                            | apply emits_only_set_fs
                            | apply emits_only_event; reflexivity ]).
Qed.

Lemma no_retrieve_calls evs :
  Forall (λ ev, is_retrieve ev = false) evs → retrieve_calls evs = [].
Proof.
  induction 1 as [|ev evs Hev _ IH]; [done|].
  unfold retrieve_calls in *. rewrite filter_cons, IH.
  destruct (decide (is_retrieve ev)) as [Hcall|]; [|done].
  rewrite Hev in Hcall. done.
Qed.

(** The same for the whole attempt, when the collaborators raise
    instances of [Exception] only: it returns [None]. *)
Lemma download_attempt_leaves_nothing E d c w :
  raises_only_Exception E → client_leaves_nothing E →
  ∃ w' evs, download_attempt E d c w = (Ret None, w') ∧ trace w' = trace w ++ evs ∧
            (length (retrieve_calls evs) <= 1)%nat.
Proof.
  intros Hwb Hclient. unfold download_attempt.
  destruct (tempfile_mkdtemp_raises_Exception E TEMP_PREFIX Hwb w) as [_ Hmkexc].
  destruct (tempfile_mkdtemp E TEMP_PREFIX w) as [[td|e] w1] eqn:Hmk.
  - apply tempfile_mkdtemp_created in Hmk as (_ & _ & ->).
    set (w1 := set_fs _ _).
    destruct (download_into_leaves_nothing E d c td w1 Hclient)
      as (r & wb & evs & Hinto & Htrace & Hlen & Hr).
    { subst w1. cbn. apply lookup_insert_eq. }
    destruct (download_into_raises_Exception E d c td Hwb w1) as [_ Hexc].
    unfold try_finally, try_except. rewrite Hinto in Hexc |- *.
    assert (Hhandled : ∃ wh evs', (match r with
                                   | Ret a => (Ret a, wb)
                                   | Raise e =>
                                       if isinstance_Exception e
                                       then download_failed d e wb
                                       else (Raise e, wb)
                                   end) = (Ret None, wh) ∧
                                  trace wh = trace wb ++ evs' ∧ retrieve_calls evs' = []).
    { destruct Hr as [->|[e ->]].
      - exists wb, []. by rewrite app_nil_r.
      - rewrite (Hexc e eq_refl). unfold download_failed, log.
        rewrite run_emit_bind, run_ret. by eexists _, [_]. }
    destruct Hhandled as (wh & evs' & -> & Htrace' & Hcalls').
    destruct (cleanup_returns E (Some td) Hwb wh) as [_ Hcl].
    destruct (cleanup_emits E (Some td) wh) as [(evs2 & Htrace2 & Hevs2) _].
    apply no_retrieve_calls in Hevs2.
    destruct (cleanup E (Some td) wh) as [[[]|e] w2]; [|destruct (Hcl e eq_refl)].
    cbn [snd] in Htrace2.
    exists w2, ([EvMkdtemp TEMP_PREFIX] ++ evs ++ evs' ++ evs2).
    split; [done|]. split.
    + rewrite Htrace2, Htrace', Htrace. subst w1. cbn [trace set_fs add_event].
      by rewrite <-!app_assoc.
    + rewrite !retrieve_calls_app, Hcalls', Hevs2, !app_nil_r. cbn.
      rewrite length_app. cbn. exact Hlen.
  - apply tempfile_mkdtemp_failed in Hmk as ->.
    unfold try_finally, try_except, download_failed, log. cbn [raise cleanup].
    rewrite (Hmkexc e eq_refl), run_emit_bind, !run_ret.
    eexists _, [_; _]. split; [done|]. split; [cbn; by rewrite <-app_assoc|].
    vm_compute. lia.
Qed.

Lemma created_temp_dirs_app tr1 tr2 :
  created_temp_dirs (tr1 ++ tr2) = created_temp_dirs tr1 ++ created_temp_dirs tr2.
Proof. apply omap_app. Qed.

(** A download is over after a line or two of the log (debug mode, or a
    configuration that fails the validation), or else is an attempt that
    starts from the same output directory. *)
Lemma download_cases E self d config w :
  config_argument_ok config w →
  (∃ w' evs, download_data_for_date E self d config w = (Ret None, w') ∧
             trace w' = trace w ++ evs ∧ Forall quiet_output evs ∧ fs w' = fs w) ∨
  (∃ c w2, download_data_for_date E self d config w = download_attempt E d c w2 ∧
           fs w2 = fs w ∧ trace w2 = trace w ++ [EvLog INFO (MsgStartingDownload d)]).
Proof.
  intros Hconfig. destruct (debug self) eqn:Hdebug.
  { left. rewrite download_debug_run by exact Hdebug.
    exists (add_event (EvLog INFO (MsgDebugSkip d)) w), [EvLog INFO (MsgDebugSkip d)].
    split; [reflexivity|]. split; [reflexivity|]. split; [|reflexivity].
    apply Forall_singleton. split; reflexivity. }
  destruct config as [c|].
  - destruct Hconfig as [cfg Hc].
    rewrite (download_config_run E self d c cfg w Hdebug Hc).
    destruct (validation_error cfg) as [msg|].
    + left.
      exists (add_event (EvLog ERROR (MsgInvalidConfiguration (ValueError msg))) (started d w)),
        [EvLog INFO (MsgStartingDownload d);
         EvLog ERROR (MsgInvalidConfiguration (ValueError msg))].
      split; [reflexivity|]. split.
      { cbn [trace add_event started]. by rewrite <-app_assoc. }
      split; [|reflexivity].
      apply Forall_cons. split; [split; reflexivity|].
      apply Forall_singleton. split; reflexivity.
    + right.
      exists c, (if truthy (area_of cfg) then started d w
                 else set_heap (<[c := <["area" := GLOBAL_AREA]> cfg]>) (started d w)).
      split; [reflexivity|]. destruct (truthy (area_of cfg)); split; reflexivity.
  - right. rewrite (download_default_run E self d w Hdebug).
    exists (fresh (dom (heap w))),
      (set_heap (<[fresh (dom (heap w)) := default_download_config]>) (started d w)).
    split; [reflexivity|]. split; reflexivity.
Qed.

(** C4, as far as it holds. When the client returns but has left no
    file, or an empty one, [download_data_for_date] returns [None] after one
    call of the client at most (collaborators raising instances of
    [Exception] only). Whatever happens in a download: if it has created a
    temporary directory, that directory is new, the call of [shutil.rmtree]
    on it is the last call that the download makes, and the directory is
    gone afterwards provided that [shutil.rmtree] does not fail, while a
    failure of that call with an instance of [Exception] leaves the directory
    in place and ends the download with a warning in the log; if it has
    created none (debug mode, invalid configuration, failure of [mkdtemp]),
    the output directory is as it was. *)
Theorem temporary_directory_is_cleaned_up E self d config w :
  config_argument_ok config w →
  let r := download_data_for_date E self d config w in
  (raises_only_Exception E → client_leaves_nothing E →
   r.1 = Ret None ∧
   ∃ evs, trace r.2 = trace w ++ evs ∧ (length (retrieve_calls evs) <= 1)%nat) ∧
  (∃ evs, trace r.2 = trace w ++ evs ∧
          (created_temp_dirs evs = [] → fs r.2 = fs w) ∧
          ∀ td, td ∈ created_temp_dirs evs →
                fs w !! td = None ∧
                last (external_calls evs) = Some (EvRmtree td) ∧
                ((∀ w', rmtree_error E w' = None) → fs r.2 !! td = None) ∧
                (∀ e, (∀ w', rmtree_error E w' = Some e) → isinstance_Exception e = true →
                      is_Some (fs r.2 !! td) ∧
                      last (trace r.2) = Some (EvLog WARNING (MsgCleanupFailed td e)))).
Proof.
  intros Hconfig r. subst r.
  destruct (download_cases E self d config w Hconfig)
    as [(w' & evs & Hrun & Htrace & Hquiet & Hfs)|(c & w2 & Hrun & Hfs2 & Htrace2)];
    rewrite Hrun.
  - split.
    + intros _ _. split; [done|]. exists evs. split; [done|].
      replace (retrieve_calls evs) with (@nil event); [cbn; lia|].
      symmetry. apply no_retrieve_calls.
      eapply Forall_impl; [exact Hquiet|]. intros ev [Hev _]. by destruct ev.
    + exists evs. split; [done|]. split; [done|].
      intros td Htd. rewrite (quiet_output_created evs Hquiet) in Htd.
      by apply elem_of_nil in Htd.
  - split.
    + intros Hwb Hclient.
      destruct (download_attempt_leaves_nothing E d c w2 Hwb Hclient)
        as (w' & evs & -> & Htrace & Hlen).
      split; [done|]. exists ([EvLog INFO (MsgStartingDownload d)] ++ evs).
      split; [cbn [snd]; by rewrite Htrace, Htrace2, <-app_assoc|].
      rewrite retrieve_calls_app. exact Hlen.
    + destruct (download_attempt_shape E d c w2)
        as [(evs & Htrace & Hquiet & Hfs)|
            (td & evs & wr & tail & Hfresh & Hcreated & Hevs & Hwr & Hthere & Htrace &
             Hquiet & Hgone & Hstays)].
      * exists (EvLog INFO (MsgStartingDownload d) :: EvMkdtemp TEMP_PREFIX :: evs).
        split; [by rewrite Htrace, Htrace2, <-app_assoc|].
        split; [intros _; congruence|].
        intros td Htd. unfold created_temp_dirs in Htd. cbn in Htd.
        fold (created_temp_dirs evs) in Htd.
        rewrite (quiet_output_created evs Hquiet) in Htd. by apply elem_of_nil in Htd.
      * exists (EvLog INFO (MsgStartingDownload d) :: EvMkdtemp TEMP_PREFIX ::
                  evs ++ [EvRmtree td] ++ tail).
        assert (Hdirs : created_temp_dirs
                          (EvLog INFO (MsgStartingDownload d) :: EvMkdtemp TEMP_PREFIX ::
                             evs ++ [EvRmtree td] ++ tail) = created_temp_dirs evs).
        { change (created_temp_dirs
                    ([EvLog INFO (MsgStartingDownload d); EvMkdtemp TEMP_PREFIX] ++
                       evs ++ [EvRmtree td] ++ tail) = created_temp_dirs evs).
          rewrite !created_temp_dirs_app, (quiet_output_created tail Hquiet).
          cbn. by rewrite app_nil_r. }
        rewrite Hdirs.
        split; [rewrite Htrace, Hwr, Htrace2; by repeat (rewrite <-?app_assoc; cbn [app])|].
        split; [intros Hnone; rewrite Hnone in Hcreated; by apply elem_of_nil in Hcreated|].
        intros td' Htd'. apply (reports_only_created td evs td' Hevs) in Htd'. subst td'.
        split; [by rewrite <-Hfs2|]. split; [|split; [auto|]].
        -- change (last (external_calls
                           ([EvLog INFO (MsgStartingDownload d); EvMkdtemp TEMP_PREFIX] ++
                              evs ++ [EvRmtree td] ++ tail)) = Some (EvRmtree td)).
           rewrite !external_calls_app, (quiet_output_calls tail Hquiet), app_nil_r.
           rewrite app_assoc. apply last_snoc.
        -- intros e Hfails Hexc. destruct (Hstays e (Hfails wr)) as [Hfs Htail].
           rewrite Hfs, Htrace, (Htail Hexc). split; [exact Hthere | apply last_snoc].
Qed.

Lemma raises_only_Exception_client_writes out :
  raises_only_Exception (Sample.client_writes out).
Proof. intros w e [H|[H|[H|H]]]; discriminate H. Qed.

Lemma temporary_directory_is_cleaned_up_witness :
  config_argument_ok None Sample.empty_world ∧
  raises_only_Exception (Sample.client_writes None) ∧
  client_leaves_nothing (Sample.client_writes None) ∧
  (download_data_for_date (Sample.client_writes None) Sample.downloader Sample.dec_01 None
     Sample.empty_world).1 = Ret None ∧
  fs (download_data_for_date (Sample.client_writes None) Sample.downloader Sample.dec_01 None
        Sample.empty_world).2 !! "era5_download_2"%string = None.
Proof.
  assert (Hclient : client_leaves_nothing (Sample.client_writes None))
    by (intros w; split; [reflexivity | left; reflexivity]).
  split; [exact I|]. split; [exact (raises_only_Exception_client_writes None)|].
  split; [exact Hclient|].
  destruct (temporary_directory_is_cleaned_up (Sample.client_writes None)
              Sample.downloader Sample.dec_01 None Sample.empty_world I)
    as [Hnone (evs & Htrace & _ & Hdirs)].
  split.
  - exact (proj1 (Hnone (raises_only_Exception_client_writes None) Hclient)).
  - cbn [trace Sample.empty_world app] in Htrace.
    apply (Hdirs "era5_download_2"%string).
    + rewrite <-Htrace. vm_compute. apply elem_of_cons. left. reflexivity.
    + intros w'. reflexivity.
Defined.

(** C4 as stated fails: when [shutil.rmtree] raises (here a
    [PermissionError]), the download still returns the path of the file, the
    failure is logged as a warning, and the temporary directory, which did
    not exist before the download, is still in the output directory. *)
Lemma temporary_directory_survives_failed_rmtree :
  fs Sample.empty_world !! "era5_download_2"%string = None ∧
  (download_data_for_date Sample.stuck_cleanup Sample.downloader Sample.dec_01 None
     Sample.empty_world).1 = Ret (Some "2024-12-01.nc"%string) ∧
  fs (download_data_for_date Sample.stuck_cleanup Sample.downloader Sample.dec_01 None
        Sample.empty_world).2 !! "era5_download_2"%string = Some (Dir ∅) ∧
  last (trace (download_data_for_date Sample.stuck_cleanup Sample.downloader Sample.dec_01
                 None Sample.empty_world).2) =
    Some (EvLog WARNING
            (MsgCleanupFailed "era5_download_2" (OtherException "PermissionError"))).
Proof. repeat split; vm_compute; reflexivity. Qed.

(** A download whose client reports success and leaves an empty file:
    [None] comes back after one call of the client, and the temporary
    directory is removed last. *)
Example empty_file_is_no_file :
  let r := download_data_for_date (Sample.client_writes (Some 0%N)) Sample.downloader
             Sample.dec_01 None Sample.empty_world in
  r.1 = Ret None ∧
  fs r.2 = ∅ ∧
  length (retrieve_calls (trace r.2)) = 1%nat ∧
  last (external_calls (trace r.2)) = Some (EvRmtree "era5_download_2") ∧
  created_temp_dirs (trace r.2) = ["era5_download_2"%string].
Proof. cbv zeta. repeat split; vm_compute; reflexivity. Qed.

(** The same when the client leaves no file at all. *)
Example missing_file_is_no_file :
  let r := download_data_for_date (Sample.client_writes None) Sample.downloader
             Sample.dec_01 None Sample.empty_world in
  r.1 = Ret None ∧
  fs r.2 = ∅ ∧
  length (retrieve_calls (trace r.2)) = 1%nat ∧
  last (external_calls (trace r.2)) = Some (EvRmtree "era5_download_2").
Proof. cbv zeta. repeat split; vm_compute; reflexivity. Qed.

(** A download that works: the file is in the output directory under the
    name of its date, and the temporary directory is gone. *)
Example successful_download :
  let r := download_data_for_date Sample.working Sample.downloader Sample.dec_01 None
             Sample.empty_world in
  r.1 = Ret (Some "2024-12-01.nc"%string) ∧
  map_to_list (fs r.2) = [("2024-12-01.nc"%string, File 1024%N)] ∧
  last (external_calls (trace r.2)) = Some (EvRmtree "era5_download_2").
Proof. cbv zeta. repeat split; vm_compute; reflexivity. Qed.

(** ** Further properties *)

Lemma ord2ymd_month_and_day n :
  ord2ymd n =
  let n0 := n - 1 in
  let n400 := n0 / 146097 in let r400 := n0 mod 146097 in
  let n100 := r400 / 36524 in let r100 := r400 mod 36524 in
  let n4 := r100 / 1461 in let r4 := r100 mod 1461 in
  let n1 := r4 / 365 in let r := r4 mod 365 in
  let year := n400 * 400 + 1 + n100 * 100 + n4 * 4 + n1 in
  if (n1 =? 4) || (n100 =? 4) then (year - 1, 12, 31)
  else
    let '(m, d) := month_and_day ((n1 =? 3) && (negb (n4 =? 24) || (n100 =? 3))) r in
    (year, m, d).
Proof.
  unfold ord2ymd, month_and_day. cbv zeta.
  destruct ((_ =? 4) || (_ =? 4)); [reflexivity|].
  destruct (_ <? _); reflexivity.
Qed.

Lemma month_and_day_checked leapyear n :
  0 <= n < 365 → month_and_day_ok leapyear n = true.
Proof.
  intros Hn.
  assert (Hall : forallb (λ n, month_and_day_ok true n && month_and_day_ok false n)
                   (seqZ 0 365) = true) by (vm_compute; reflexivity).
  rewrite forallb_forall in Hall.
  specialize (Hall n). rewrite <-list_elem_of_In, elem_of_seqZ in Hall.
  specialize (Hall ltac:(lia)). apply andb_true_iff in Hall as [Ht Hf].
  by destruct leapyear.
Qed.

Lemma is_leap_decompose a b c e :
  0 <= a → 0 <= b <= 3 → 0 <= c <= 24 → 0 <= e <= 3 →
  is_leap (a * 400 + 1 + b * 100 + c * 4 + e) =
  (e =? 3) && (negb (c =? 24) || (b =? 3)).
Proof.
  intros Ha Hb Hc He. unfold is_leap.
  set (y := a * 400 + 1 + b * 100 + c * 4 + e).
  destruct (Z.eqb_spec e 3) as [He3|He3], (Z.eqb_spec c 24) as [Hc24|Hc24],
    (Z.eqb_spec b 3) as [Hb3|Hb3],
    (Z.eqb_spec (y mod 4) 0) as [H4|H4], (Z.eqb_spec (y mod 100) 0) as [H100|H100],
    (Z.eqb_spec (y mod 400) 0) as [H400|H400];
    cbn; try reflexivity; exfalso; subst y;
    revert H4 H100 H400; Z.div_mod_to_equations; lia.
Qed.

Lemma days_before_year_decompose a b c e :
  0 <= a → 0 <= b <= 3 → 0 <= c <= 24 → 0 <= e <= 3 →
  days_before_year (a * 400 + 1 + b * 100 + c * 4 + e) =
  146097 * a + 36524 * b + 1461 * c + 365 * e.
Proof.
  intros Ha Hb Hc He. unfold days_before_year. cbv zeta.
  Z.div_mod_to_equations. lia.
Qed.

Lemma days_in_month_leap y m :
  days_in_month y m =
  if m =? 2 then (if is_leap y then 29 else 28) else days_in_month 1 m.
Proof. unfold days_in_month. by destruct (m =? 2). Qed.

(** Every ordinal of a calendar date splits into a year, a month and a
    day that pass the check of the [date] constructor and count back to the
    ordinal. *)
Lemma ord2ymd_valid n :
  valid_date n →
  ∃ y m d, ord2ymd n = (y, m, d) ∧ check_date_fields y m d = true ∧ ymd2ord y m d = n.
Proof.
  unfold valid_date, MINORDINAL, MAXORDINAL. intros Hn.
  rewrite ord2ymd_month_and_day. cbv zeta.
  set (n0 := n - 1).
  pose proof (Z.div_mod n0 146097 ltac:(lia)) as E400.
  pose proof (Z.mod_pos_bound n0 146097 ltac:(lia)) as B400.
  set (a := n0 / 146097) in *. set (r400 := n0 mod 146097) in *.
  pose proof (Z.div_mod r400 36524 ltac:(lia)) as E100.
  pose proof (Z.mod_pos_bound r400 36524 ltac:(lia)) as B100.
  set (b := r400 / 36524) in *. set (r100 := r400 mod 36524) in *.
  pose proof (Z.div_mod r100 1461 ltac:(lia)) as E4.
  pose proof (Z.mod_pos_bound r100 1461 ltac:(lia)) as B4.
  set (c := r100 / 1461) in *. set (r4 := r100 mod 1461) in *.
  pose proof (Z.div_mod r4 365 ltac:(lia)) as E1.
  pose proof (Z.mod_pos_bound r4 365 ltac:(lia)) as B1.
  set (e := r4 / 365) in *. set (r := r4 mod 365) in *.
  assert (Ha : 0 <= a <= 24) by (subst n0; lia).
  assert (Hb : 0 <= b <= 4) by lia.
  assert (Hc : 0 <= c <= 24) by lia.
  assert (He : 0 <= e <= 4) by lia.
  destruct (Z.eqb_spec e 4) as [He4|He4]; [|destruct (Z.eqb_spec b 4) as [Hb4|Hb4]];
    cbn [orb].
  - (* the last day of a leap year that ends a cycle of four years *)
    assert (Hc23 : c <= 23) by lia.
    assert (Hb3 : b <= 3) by lia.
    exists (a * 400 + 1 + b * 100 + c * 4 + e - 1), 12, 31.
    split; [reflexivity|].
    replace (a * 400 + 1 + b * 100 + c * 4 + e - 1)
      with (a * 400 + 1 + b * 100 + c * 4 + 3) by lia.
    assert (Hleap : is_leap (a * 400 + 1 + b * 100 + c * 4 + 3) = true).
    { rewrite is_leap_decompose by lia.
      destruct (Z.eqb_spec c 24); [lia | reflexivity]. }
    split.
    + unfold check_date_fields. rewrite days_in_month_leap, Hleap. cbn.
      repeat (apply andb_true_intro; split); try reflexivity; apply Z.leb_le; lia.
    + unfold ymd2ord, days_before_month. rewrite days_before_year_decompose, Hleap by lia.
      change (days_before_month_table 12) with 334. cbn. subst n0. lia.
  - (* the last day of a cycle of four hundred years *)
    exists (a * 400 + 1 + b * 100 + c * 4 + e - 1), 12, 31.
    split; [reflexivity|].
    replace (a * 400 + 1 + b * 100 + c * 4 + e - 1)
      with (a * 400 + 1 + 3 * 100 + 24 * 4 + 3) by lia.
    assert (Hleap : is_leap (a * 400 + 1 + 3 * 100 + 24 * 4 + 3) = true)
      by (by rewrite is_leap_decompose by lia).
    assert (Ha23 : a <= 23) by (subst n0; lia).
    split.
    + unfold check_date_fields. rewrite days_in_month_leap, Hleap. cbn.
      repeat (apply andb_true_intro; split); try reflexivity; apply Z.leb_le; lia.
    + unfold ymd2ord, days_before_month. rewrite days_before_year_decompose, Hleap by lia.
      change (days_before_month_table 12) with 334. cbn. subst n0. lia.
  - (* any other day *)
    assert (Hb3 : b <= 3) by lia. assert (He3 : e <= 3) by lia.
    pose proof (month_and_day_checked
                  ((e =? 3) && (negb (c =? 24) || (b =? 3))) r ltac:(lia)) as Hok.
    unfold month_and_day_ok in Hok.
    rewrite <-(is_leap_decompose a b c e) in Hok |- * by lia.
    set (year := a * 400 + 1 + b * 100 + c * 4 + e) in *.
    destruct (month_and_day (is_leap year) r) as [m d].
    exists year, m, d. split; [reflexivity|].
    repeat (apply andb_true_iff in Hok as [Hok ?]).
    split.
    + unfold check_date_fields. rewrite days_in_month_leap.
      assert (1 <= year <= 9999) by (subst year n0; lia).
      repeat (apply andb_true_intro; split); try done; apply Z.leb_le; lia.
    + unfold ymd2ord, days_before_month. subst year.
      rewrite days_before_year_decompose by lia.
      apply Z.eqb_eq in H. subst n0. lia.
Qed.

Lemma forallb_seqZ (f : Z → bool) lo len n :
  forallb f (seqZ lo len) = true → lo <= n < lo + len → f n = true.
Proof.
  rewrite forallb_forall. intros Hall Hn. apply Hall.
  rewrite <-list_elem_of_In, elem_of_seqZ. lia.
Qed.

Lemma four_digits_checked : forallb four_digits_ok (seqZ 1 9999) = true.
Proof. vm_compute. reflexivity. Qed.

Lemma two_digits_checked : forallb two_digits_ok (seqZ 0 100) = true.
Proof. vm_compute. reflexivity. Qed.

Lemma parse_month_checked :
  forallb (λ m, bool_decide (parse_month (fmt_02d m) = Some m)) (seqZ 1 12) = true.
Proof. vm_compute. reflexivity. Qed.

Lemma parse_day_checked :
  forallb (λ d, bool_decide (parse_day (fmt_02d d) = Some d)) (seqZ 1 31) = true.
Proof. vm_compute. reflexivity. Qed.

Lemma fmt_04d_digits y :
  1 <= y <= 9999 →
  ∃ a b c d va vb vc vd,
    fmt_04d y = String a (String b (String c (String d EmptyString))) ∧
    digit_val a = Some va ∧ digit_val b = Some vb ∧
    digit_val c = Some vc ∧ digit_val d = Some vd ∧
    1000 * va + 100 * vb + 10 * vc + vd = y.
Proof.
  intros Hy.
  pose proof (forallb_seqZ four_digits_ok 1 9999 y four_digits_checked ltac:(lia)) as Hok.
  unfold four_digits_ok in Hok.
  destruct (fmt_04d y) as [|a [|b [|c [|d [|? ?]]]]]; try discriminate Hok.
  destruct (digit_val a) as [va|] eqn:Ha; [|discriminate Hok].
  destruct (digit_val b) as [vb|] eqn:Hb; [|discriminate Hok].
  destruct (digit_val c) as [vc|] eqn:Hc; [|discriminate Hok].
  destruct (digit_val d) as [vd|] eqn:Hd; [|discriminate Hok].
  apply Z.eqb_eq in Hok. by exists a, b, c, d, va, vb, vc, vd.
Qed.

Lemma fmt_02d_digits n :
  0 <= n <= 99 →
  ∃ a b va vb,
    fmt_02d n = String a (String b EmptyString) ∧
    digit_val a = Some va ∧ digit_val b = Some vb ∧ 10 * va + vb = n.
Proof.
  intros Hn.
  pose proof (forallb_seqZ two_digits_ok 0 100 n two_digits_checked ltac:(lia)) as Hok.
  unfold two_digits_ok in Hok.
  destruct (fmt_02d n) as [|a [|b [|? ?]]]; try discriminate Hok.
  destruct (digit_val a) as [va|] eqn:Ha; [|discriminate Hok].
  destruct (digit_val b) as [vb|] eqn:Hb; [|discriminate Hok].
  apply Z.eqb_eq in Hok. by exists a, b, va, vb.
Qed.

Lemma parse_month_fmt_02d m : 1 <= m <= 12 → parse_month (fmt_02d m) = Some m.
Proof.
  intros Hm.
  pose proof (forallb_seqZ _ 1 12 m parse_month_checked ltac:(lia)) as Hok.
  by apply bool_decide_eq_true in Hok.
Qed.

Lemma parse_day_fmt_02d d : 1 <= d <= 31 → parse_day (fmt_02d d) = Some d.
Proof.
  intros Hd.
  pose proof (forallb_seqZ _ 1 31 d parse_day_checked ltac:(lia)) as Hok.
  by apply bool_decide_eq_true in Hok.
Qed.

(** A digit is neither the dash nor the dot. *)
Lemma digit_not_separator c v :
  digit_val c = Some v → Ascii.eqb c "-" = false ∧ Ascii.eqb c "." = false.
Proof.
  destruct c as [[] [] [] [] [] [] [] []]; vm_compute; intros H; try discriminate H;
    split; reflexivity.
Qed.

Lemma days_in_month_bound y m : days_in_month y m <= 31.
Proof.
  unfold days_in_month.
  destruct (m =? 2); [destruct (is_leap y); lia|].
  destruct ((m =? 4) || (m =? 6) || (m =? 9) || (m =? 11)); lia.
Qed.

Lemma check_date_fields_bounds y m d :
  check_date_fields y m d = true → 1 <= y <= 9999 ∧ 1 <= m <= 12 ∧ 1 <= d <= 31.
Proof.
  unfold check_date_fields. rewrite !andb_true_iff, !Z.leb_le.
  pose proof (days_in_month_bound y m). lia.
Qed.

Lemma format_ymd_fields n y m d :
  ord2ymd n = (y, m, d) →
  format_ymd n = fmt_04d y +:+ "-" +:+ fmt_02d m +:+ "-" +:+ fmt_02d d.
Proof. unfold format_ymd. by intros ->. Qed.

(** The ten characters of the name of a calendar date. *)
Lemma format_ymd_shape n :
  valid_date n →
  ∃ y m d y1 y2 y3 y4 m1 m2 d1 d2,
    ord2ymd n = (y, m, d) ∧ check_date_fields y m d = true ∧ ymd2ord y m d = n ∧
    fmt_04d y = String y1 (String y2 (String y3 (String y4 EmptyString))) ∧
    fmt_02d m = String m1 (String m2 EmptyString) ∧
    fmt_02d d = String d1 (String d2 EmptyString) ∧
    format_ymd n =
      String y1 (String y2 (String y3 (String y4 (String "-"
        (String m1 (String m2 (String "-" (String d1 (String d2 EmptyString))))))))) ∧
    Forall (λ c, is_Some (digit_val c)) [y1; y2; y3; y4; m1; m2; d1; d2] ∧
    (∃ a b c e, digit_val y1 = Some a ∧ digit_val y2 = Some b ∧ digit_val y3 = Some c ∧
                digit_val y4 = Some e ∧ 1000 * a + 100 * b + 10 * c + e = y).
Proof.
  intros Hn. destruct (ord2ymd_valid n Hn) as (y & m & d & Hord & Hcheck & Hback).
  destruct (check_date_fields_bounds y m d Hcheck) as (Hy & Hm & Hd).
  destruct (fmt_04d_digits y Hy) as (y1 & y2 & y3 & y4 & a & b & c & e & Hfy & ? & ? & ? & ? & ?).
  destruct (fmt_02d_digits m ltac:(lia)) as (m1 & m2 & vm1 & vm2 & Hfm & ? & ? & ?).
  destruct (fmt_02d_digits d ltac:(lia)) as (d1 & d2 & vd1 & vd2 & Hfd & ? & ? & ?).
  exists y, m, d, y1, y2, y3, y4, m1, m2, d1, d2.
  split; [done|]. split; [done|]. split; [done|]. split; [done|]. split; [done|].
  split; [done|]. split.
  { rewrite (format_ymd_fields n y m d Hord), Hfy, Hfm, Hfd. reflexivity. }
  split; [|by exists a, b, c, e].
  repeat (apply Forall_cons; split; [by eexists|]). done.
Qed.

(** The name of a calendar date, followed by a dot and anything, is cut
    back to the name, which the reference parser reads as the date. *)
Lemma format_ymd_round_trip n ext :
  valid_date n →
  split_dot_head (format_ymd n +:+ String "." ext) = format_ymd n ∧
  parse_ymd (format_ymd n) = Some n ∧
  String.length (format_ymd n) = 10%nat.
Proof.
  intros Hn.
  destruct (format_ymd_shape n Hn)
    as (y & m & d & y1 & y2 & y3 & y4 & m1 & m2 & d1 & d2 & Hord & Hcheck & Hback &
        Hfy & Hfm & Hfd & Hshape & Hdigits & a & b & c & e & Ha & Hb & Hc & He & Hy).
  destruct (check_date_fields_bounds y m d Hcheck) as (_ & Hm & Hd).
  rewrite !Forall_cons in Hdigits.
  destruct Hdigits as ([? H1] & [? H2] & [? H3] & [? H4] & [? H5] & [? H6] & [? H7] & [? H8] & _).
  apply digit_not_separator in H1 as [_ H1], H2 as [_ H2], H3 as [_ H3], H4 as [_ H4].
  apply digit_not_separator in H5 as [H5' H5], H6 as [H6' H6], H7 as [_ H7], H8 as [_ H8].
  rewrite Hshape. split; [|split; [|reflexivity]].
  - cbv beta iota fix delta [String.append]. cbn [split_dot_head].
    rewrite H1, H2, H3, H4, H5, H6, H7, H8. reflexivity.
  - cbn [parse_ymd]. rewrite Ha, Hb, Hc, He.
    change (Ascii.eqb "-" "-") with true. cbn [cut_dash].
    rewrite H5', H6'. change (Ascii.eqb "-" "-") with true. cbn iota.
    rewrite <-Hfm, <-Hfd, parse_month_fmt_02d, parse_day_fmt_02d by lia.
    rewrite Hy, Hcheck, Hback. reflexivity.
Qed.

Lemma four_digit_year_valid n : four_digit_year n → valid_date n.
Proof. unfold four_digit_year, valid_date, MINORDINAL. vm_compute (ymd2ord 1000 1 1). lia. Qed.

(** X2. For a calendar date with a four-digit year, the name that the
    download gives its file, the ten characters of ["%Y-%m-%d"] followed by
    [".nc"], is cut back to those ten characters by [split('.')[0]], as is
    the name with any other extension or with none, and the reference
    [strptime] reads them back as the date. *)
Theorem file_name_round_trip n ext :
  four_digit_year n →
  split_dot_head (format_ymd n +:+ ".nc") = format_ymd n ∧
  split_dot_head (format_ymd n +:+ "." +:+ ext) = format_ymd n ∧
  split_dot_head (format_ymd n) = format_ymd n ∧
  parse_ymd (format_ymd n) = Some n ∧
  String.length (format_ymd n) = 10%nat.
Proof.
  intros Hn%four_digit_year_valid.
  destruct (format_ymd_round_trip n "nc" Hn) as (Hnc & Hparse & Hlen).
  destruct (format_ymd_round_trip n ext Hn) as (Hext & _ & _).
  split; [exact Hnc|]. split; [exact Hext|]. split; [|done].
  destruct (format_ymd_shape n Hn)
    as (y & m & d & y1 & y2 & y3 & y4 & m1 & m2 & d1 & d2 & _ & _ & _ & _ & _ & _ &
        -> & Hdigits & _).
  rewrite !Forall_cons in Hdigits.
  destruct Hdigits as ([? H1] & [? H2] & [? H3] & [? H4] & [? H5] & [? H6] & [? H7] & [? H8] & _).
  apply digit_not_separator in H1 as [_ H1], H2 as [_ H2], H3 as [_ H3], H4 as [_ H4].
  apply digit_not_separator in H5 as [_ H5], H6 as [_ H6], H7 as [_ H7], H8 as [_ H8].
  cbn [split_dot_head]. rewrite H1, H2, H3, H4, H5, H6, H7, H8. reflexivity.
Qed.

Lemma file_name_round_trip_witness :
  four_digit_year Sample.dec_01 ∧
  split_dot_head (format_ymd Sample.dec_01 +:+ "." +:+ "grib") = "2024-12-01"%string ∧
  parse_ymd (format_ymd Sample.dec_01) = Some Sample.dec_01.
Proof.
  assert (Hd : four_digit_year Sample.dec_01) by (vm_compute; split; discriminate).
  split; [exact Hd|].
  destruct (file_name_round_trip Sample.dec_01 "grib" Hd) as (_ & Hext & _ & Hparse & _).
  split; [exact Hext | exact Hparse].
Defined.

Lemma build_cds_request_run d c cfg w :
  heap w !! c = Some cfg →
  _build_cds_request d c w =
  match first_missing cfg with
  | Some k => (Raise (KeyError k), w)
  | None => (Ret (request_of cfg d), w)
  end.
Proof.
  intros Hc. unfold _build_cds_request, request_of, first_missing, item.
  destruct (ord2ymd d) as [[y m] dd]. cbn [List.find request_keys].
  rewrite run_bind, (getitem_run c cfg _ w Hc).
  destruct (cfg !! "variable") as [variable|]; [|reflexivity]. cbn [is_given negb].
  rewrite run_bind, (getitem_run c cfg _ w Hc).
  destruct (cfg !! "pressure_level") as [pressure_level|]; [|reflexivity]. cbn [is_given negb].
  rewrite run_bind, (getitem_run c cfg _ w Hc).
  destruct (cfg !! "time") as [time|]; [|reflexivity]. cbn [is_given negb].
  rewrite run_bind, (getitem_run c cfg _ w Hc).
  destruct (cfg !! "area") as [area|]; reflexivity.
Qed.

Lemma build_cds_request_dangling d c w :
  heap w !! c = None → _build_cds_request d c w = (Raise (TypeError "not a dict"), w).
Proof.
  intros Hc. unfold _build_cds_request. destruct (ord2ymd d) as [[y m] dd].
  unfold getitem, deref. rewrite !run_bind. cbn [get_world]. by rewrite Hc.
Qed.

(** The [try:] block, step by step, on a dictionary that has the four
    keys. *)
Lemma download_into_run E d c cfg td w :
  heap w !! c = Some cfg → first_missing cfg = None →
  download_into E d c td w =
  let file := strftime_ymd E d +:+ ".nc" in
  let w3 := add_event (EvRetrieve DATASET (request_of cfg d) td file)
              (add_event (EvLog DEBUG (MsgDownloadingTo td file))
                 (add_event (EvLog DEBUG (MsgCreatedTemp td)) w)) in
  let w4 := match written (retrieve E w3) with
            | Some size => set_fs (write_in_dir td file size) w3
            | None => w3
            end in
  match raised (retrieve E w3) with
  | Some e => (Raise e, w4)
  | None =>
      match file_in_dir w4 td file with
      | None => (Ret None, add_event (EvLog ERROR (MsgFileNotFound td file)) w4)
      | Some size =>
          if (size =? 0)%N then (Ret None, add_event (EvLog ERROR (MsgFileEmpty td file)) w4)
          else
            let w6 := add_event (EvMove td file file)
                        (add_event (EvLog INFO (MsgDownloaded size d)) w4) in
            match move_error E w6 with
            | Some e => (Raise e, w6)
            | None =>
                match fs w6 !! file with
                | Some (Dir entries) =>
                    match entries !! file with
                    | Some _ => (Raise (ShutilError "Destination path already exists"), w6)
                    | None =>
                        (Ret (Some file),
                         add_event (EvLog DEBUG (MsgMoved file))
                           (set_fs (λ f, <[file := Dir (<[file := size]> entries)]>
                                           (remove_from_dir td file f)) w6))
                    end
                | _ =>
                    (Ret (Some file),
                     add_event (EvLog DEBUG (MsgMoved file))
                       (set_fs (λ f, <[file := File size]> (remove_from_dir td file f)) w6))
                end
            end
      end
  end.
Proof.
  intros Hc Hkeys. unfold download_into, log. cbv zeta.
  rewrite run_emit_bind, run_bind.
  rewrite (build_cds_request_run d c cfg) by exact Hc. rewrite Hkeys.
  rewrite run_emit_bind, run_bind. unfold client_retrieve.
  rewrite run_emit_bind, run_bind. cbn [get_world]. cbv zeta. rewrite run_bind.
  set (file := strftime_ymd E d +:+ ".nc").
  set (w3 := add_event (EvRetrieve _ _ _ _) _).
  set (w4 := match written (retrieve E w3) with
             | Some size => set_fs (write_in_dir td file size) w3
             | None => w3
             end).
  assert (Hwritten : match written (retrieve E w3) with
                     | Some size => modify (set_fs (write_in_dir td file size))
                     | None => mret tt
                     end w3 = (Ret tt, w4)).
  { subst w4. by destruct (written (retrieve E w3)). }
  rewrite Hwritten.
  destruct (raised (retrieve E w3)) as [e|]; [reflexivity|].
  rewrite run_ret, run_bind. cbn [get_world].
  destruct (file_in_dir w4 td file) as [size|] eqn:Hfile; [|reflexivity].
  destruct (size =? 0)%N; [reflexivity|].
  rewrite run_emit_bind, run_bind. unfold shutil_move.
  rewrite run_emit_bind, run_bind. cbn [get_world].
  set (w6 := add_event (EvMove _ _ _) _).
  assert (Hfile6 : file_in_dir w6 td file = Some size) by exact Hfile.
  destruct (move_error E w6) as [e|]; [reflexivity|].
  rewrite Hfile6.
  destruct (fs w6 !! file) as [[n|entries]|]; try reflexivity.
  destruct (entries !! file); reflexivity.
Qed.

Lemma error_logs_app tr1 tr2 : error_logs (tr1 ++ tr2) = error_logs tr1 ++ error_logs tr2.
Proof. apply filter_app. Qed.

(** The [try:] block with its [except Exception:] clause, in a temporary
    directory that is new: it fails and leaves the output directory as it
    was outside the temporary directory, or it has moved a file that is not
    empty to the path of the date. *)
Lemma handled_download_outcomes E d c cfg td w :
  heap w !! c = Some cfg → first_missing cfg = None → fs w !! td = Some (Dir ∅) →
  let file := strftime_ymd E d +:+ ".nc" in
  let h := handled_download E d c td w in
  ∃ mid,
    trace h.2 = trace w ++
      [EvLog DEBUG (MsgCreatedTemp td); EvLog DEBUG (MsgDownloadingTo td file);
       EvRetrieve DATASET (request_of cfg d) td file] ++ mid ∧
    heap h.2 = heap w ∧
    ((ends_without_file h.1 mid ∧
      (external_calls mid = [] ∨ external_calls mid = [EvMove td file file]) ∧
      ∃ X, fs h.2 = <[td := Dir X]> (fs w)) ∨
     (h.1 = Ret (Some file) ∧ error_logs mid = [] ∧
      external_calls mid = [EvMove td file file] ∧ file ≠ td ∧
      ∃ size, size ≠ 0%N ∧ fs h.2 = <[file := stored file size (fs w !! file)]> (fs w))).
Proof.
  intros Hc Hkeys Htd file h. subst h.
  unfold handled_download, try_except.
  rewrite (download_into_run E d c cfg td w Hc Hkeys). cbv zeta. fold file.
  set (w3 := add_event (EvRetrieve _ _ _ _) _).
  set (w4 := match written (retrieve E w3) with
             | Some size => set_fs (write_in_dir td file size) w3
             | None => w3
             end).
  assert (Htrace4 : trace w4 = trace w ++
            [EvLog DEBUG (MsgCreatedTemp td); EvLog DEBUG (MsgDownloadingTo td file);
             EvRetrieve DATASET (request_of cfg d) td file]).
  { subst w4 w3. destruct (written _); cbn [trace set_fs add_event];
      by rewrite <-!app_assoc. }
  assert (Hheap4 : heap w4 = heap w) by (subst w4 w3; by destruct (written _)).
  assert (Hfs4 : (fs w4 = fs w ∧ file_in_dir w4 td file = None) ∨
                 ∃ size, fs w4 = <[td := Dir {[file := size]}]> (fs w) ∧
                         file_in_dir w4 td file = Some size).
  { subst w4 w3. destruct (written _) as [size|].
    - right. exists size. unfold file_in_dir, write_in_dir. cbn [fs set_fs add_event].
      rewrite Htd, lookup_insert_eq, insert_empty, lookup_singleton_eq. done.
    - left. unfold file_in_dir. cbn [fs add_event]. by rewrite Htd, lookup_empty. }
  assert (Hleft : ∃ X, fs w4 = <[td := Dir X]> (fs w)).
  { destruct Hfs4 as [[-> _]|(size & -> & _)]; [|eauto].
    exists ∅. by rewrite insert_id. }
  assert (Hfailed : ∀ e evs w',
    fs w' = fs w4 → heap w' = heap w4 → trace w' = trace w4 ++ evs →
    error_logs evs = [] →
    (external_calls evs = [] ∨ external_calls evs = [EvMove td file file]) →
    let h := if isinstance_Exception e then download_failed d e w'
             else (Raise e, w') in
    ∃ mid,
      trace h.2 = trace w ++
        [EvLog DEBUG (MsgCreatedTemp td); EvLog DEBUG (MsgDownloadingTo td file);
         EvRetrieve DATASET (request_of cfg d) td file] ++ mid ∧
      heap h.2 = heap w ∧
      ((ends_without_file h.1 mid ∧
        (external_calls mid = [] ∨ external_calls mid = [EvMove td file file]) ∧
        ∃ X, fs h.2 = <[td := Dir X]> (fs w)) ∨
       (h.1 = Ret (Some file) ∧ error_logs mid = [] ∧
        external_calls mid = [EvMove td file file] ∧ file ≠ td ∧
        ∃ size, size ≠ 0%N ∧ fs h.2 = <[file := stored file size (fs w !! file)]> (fs w)))).
  { intros e evs w' Hfs Hheap Htrace Herr Hcalls. cbv zeta.
    destruct (isinstance_Exception e) eqn:Hexc.
    - unfold download_failed, log. rewrite run_emit_bind, run_ret.
      exists (evs ++ [EvLog ERROR (MsgDownloadFailed d e)]).
      cbn [fst snd trace heap fs add_event].
      split; [by rewrite Htrace, Htrace4, <-!app_assoc|].
      split; [congruence|]. left. split; [|split].
      + left. split; [done|]. rewrite error_logs_app, Herr. done.
      + rewrite external_calls_app. cbn. by rewrite app_nil_r.
      + by rewrite Hfs.
    - exists evs. cbn [fst snd].
      split; [by rewrite Htrace, Htrace4, <-!app_assoc|].
      split; [congruence|]. left. split; [|split].
      + right. eauto.
      + done.
      + by rewrite Hfs. }
  destruct (raised (retrieve E w3)) as [e|].
  { apply (Hfailed e [] w4); try done. by rewrite app_nil_r. by left. }
  destruct Hfs4 as [[Hfs4 Hnone]|(size & Hfs4 & Hsome)].
  { rewrite Hnone. exists [EvLog ERROR (MsgFileNotFound td file)].
    cbn [fst snd trace heap fs add_event].
    split; [by rewrite Htrace4, <-!app_assoc|]. split; [done|].
    left. split; [left; done|]. split; [by left | done]. }
  rewrite Hsome. destruct (N.eqb_spec size 0) as [Hzero|Hsize].
  { exists [EvLog ERROR (MsgFileEmpty td file)].
    cbn [fst snd trace heap fs add_event].
    split; [by rewrite Htrace4, <-!app_assoc|]. split; [done|].
    left. split; [left; done|]. split; [by left | done]. }
  set (w6 := add_event (EvMove td file file) _).
  assert (Htrace6 : trace w6 = trace w4 ++
                      [EvLog INFO (MsgDownloaded size d); EvMove td file file])
    by (subst w6; cbn [trace add_event]; by rewrite <-app_assoc).
  destruct (move_error E w6) as [e|].
  { apply (Hfailed e [EvLog INFO (MsgDownloaded size d); EvMove td file file] w6);
      try done. by right. }
  assert (Hfs6 : fs w6 = <[td := Dir {[file := size]}]> (fs w)) by exact Hfs4.
  assert (Hremoved : remove_from_dir td file (fs w6) = fs w).
  { unfold remove_from_dir. rewrite Hfs6, lookup_insert_eq, insert_insert_eq.
    rewrite delete_singleton_eq. by apply insert_id. }
  destruct (decide (file = td)) as [Heq|Hne].
  { assert (Hdest : fs w6 !! file = Some (Dir {[file := size]}))
      by (rewrite Hfs6, Heq; apply lookup_insert_eq).
    rewrite Hdest, lookup_singleton_eq.
    apply (Hfailed (ShutilError "Destination path already exists")
             [EvLog INFO (MsgDownloaded size d); EvMove td file file] w6); try done.
    by right. }
  assert (Hold : fs w6 !! file = fs w !! file) by (by rewrite Hfs6, lookup_insert_ne).
  rewrite Hold.
  destruct (fs w !! file) as [[n|entries]|] eqn:Hdest.
  - exists [EvLog INFO (MsgDownloaded size d); EvMove td file file;
            EvLog DEBUG (MsgMoved file)].
    cbn [fst snd trace heap fs add_event set_fs].
    split; [by rewrite Htrace6, Htrace4, <-!app_assoc|]. split; [done|].
    right. split; [done|]. split; [done|]. split; [done|]. split; [done|].
    exists size. split; [done|]. by rewrite Hremoved.
  - destruct (entries !! file) as [size'|] eqn:Hentry.
    + apply (Hfailed (ShutilError "Destination path already exists")
               [EvLog INFO (MsgDownloaded size d); EvMove td file file] w6); try done.
      by right.
    + exists [EvLog INFO (MsgDownloaded size d); EvMove td file file;
              EvLog DEBUG (MsgMoved file)].
      cbn [fst snd trace heap fs add_event set_fs].
      split; [by rewrite Htrace6, Htrace4, <-!app_assoc|]. split; [done|].
      right. split; [done|]. split; [done|]. split; [done|]. split; [done|].
      exists size. split; [done|]. by rewrite Hremoved.
  - exists [EvLog INFO (MsgDownloaded size d); EvMove td file file;
            EvLog DEBUG (MsgMoved file)].
    cbn [fst snd trace heap fs add_event set_fs].
    split; [by rewrite Htrace6, Htrace4, <-!app_assoc|]. split; [done|].
    right. split; [done|]. split; [done|]. split; [done|]. split; [done|].
    exists size. split; [done|]. by rewrite Hremoved.
Qed.

(** An attempt on a dictionary that has the four keys: [mkdtemp] fails;
    or the attempt fails later, in a new temporary directory; or it moves a
    file that is not empty to the path of the date. The calls are those of
    the protocol, in its order. *)
Lemma download_attempt_outcomes E d c cfg w :
  heap w !! c = Some cfg → first_missing cfg = None →
  let file := strftime_ymd E d +:+ ".nc" in
  let r := download_attempt E d c w in
  ∃ evs,
    trace r.2 = trace w ++ evs ∧ heap r.2 = heap w ∧
    ((external_calls evs = [EvMkdtemp TEMP_PREFIX] ∧ ends_without_file r.1 evs ∧
      fs r.2 = fs w) ∨
     ∃ td, fs w !! td = None ∧
       ((ends_without_file r.1 evs ∧
         (external_calls evs =
            [EvMkdtemp TEMP_PREFIX; EvRetrieve DATASET (request_of cfg d) td file;
             EvRmtree td] ∨
          external_calls evs =
            [EvMkdtemp TEMP_PREFIX; EvRetrieve DATASET (request_of cfg d) td file;
             EvMove td file file; EvRmtree td]) ∧
         after_cleanup E td (fs w) (fs r.2)) ∨
        (ends_with_file E file r.1 evs ∧
         external_calls evs =
           [EvMkdtemp TEMP_PREFIX; EvRetrieve DATASET (request_of cfg d) td file;
            EvMove td file file; EvRmtree td] ∧
         file ≠ td ∧
         ∃ size, size ≠ 0%N ∧
           after_cleanup E td (<[file := stored file size (fs w !! file)]> (fs w)) (fs r.2)))).
Proof.
  intros Hc Hkeys file r. subst r. unfold download_attempt.
  destruct (tempfile_mkdtemp E TEMP_PREFIX w) as [[td|e] w1] eqn:Hmk.
  2: { apply tempfile_mkdtemp_failed in Hmk as ->.
       unfold try_finally, try_except, download_failed, log. cbn [raise cleanup].
       destruct (isinstance_Exception e) eqn:Hexc.
       - rewrite run_emit_bind, !run_ret. cbn [fst snd trace heap fs add_event].
         exists [EvMkdtemp TEMP_PREFIX; EvLog ERROR (MsgDownloadFailed d e)].
         split; [by rewrite <-app_assoc|]. split; [done|]. left.
         split; [done|]. split; [by left | done].
       - rewrite run_ret. cbn [fst snd trace heap fs add_event].
         exists [EvMkdtemp TEMP_PREFIX]. split; [done|]. split; [done|]. left.
         split; [done|]. split; [right; eauto | done]. }
  apply tempfile_mkdtemp_created in Hmk as (Hne & Hfresh & ->).
  set (w1 := set_fs _ _).
  assert (Htd1 : fs w1 !! td = Some (Dir ∅)) by apply lookup_insert_eq.
  unfold try_finally. fold (handled_download E d c td).
  destruct (handled_download_outcomes E d c cfg td w1 Hc Hkeys Htd1)
    as (mid & Htrace & Hheap & Hcases).
  fold file in Htrace, Hcases.
  destruct (handled_download E d c td w1) as [h wb]; cbn [fst snd] in *.
  assert (Hthere : is_Some (fs wb !! td)).
  { destruct Hcases as [(_ & _ & X & ->)|(_ & _ & _ & Hfile & size & _ & ->)].
    - rewrite lookup_insert_eq. eauto.
    - rewrite lookup_insert_ne by done. rewrite Htd1. eauto. }
  rewrite (cleanup_run E td wb Hne Hthere). cbv zeta.
  set (wr := add_event (EvRmtree td) wb).
  set (pre := [EvMkdtemp TEMP_PREFIX; EvLog DEBUG (MsgCreatedTemp td);
               EvLog DEBUG (MsgDownloadingTo td file);
               EvRetrieve DATASET (request_of cfg d) td file]).
  assert (Htracer : trace wr = trace w ++ pre ++ mid ++ [EvRmtree td]).
  { subst wr w1 pre. cbn [trace add_event set_fs] in *. rewrite Htrace.
    by rewrite <-!app_assoc. }
  (* what the clean-up leaves, for any directory that still holds [td] *)
  assert (Hbase : ∀ base X,
    fs wb = <[td := Dir X]> base → base !! td = None →
    let end_ := match rmtree_error E wr with
                | None => (Ret tt, add_event (EvLog DEBUG (MsgCleanedUp td))
                                     (set_fs (delete td) wr))
                | Some e =>
                    if isinstance_Exception e
                    then (Ret tt, add_event (EvLog WARNING (MsgCleanupFailed td e)) wr)
                    else (Raise e, wr)
                end in
    ∃ tail,
      trace end_.2 = trace wr ++ tail ∧ heap end_.2 = heap wb ∧
      external_calls tail = [] ∧ error_logs tail = [] ∧
      after_cleanup E td base (fs end_.2) ∧
      (end_.1 = Ret tt ∨
       ∃ e, end_.1 = Raise e ∧ rmtree_error E wr = Some e ∧ isinstance_Exception e = false)).
  { intros base X Hfs Hnone. cbv zeta.
    destruct (rmtree_error E wr) as [e|] eqn:Hrm; [destruct (isinstance_Exception e) eqn:Hexc|].
    - exists [EvLog WARNING (MsgCleanupFailed td e)]. cbn [fst snd trace heap fs add_event].
      split; [done|]. split; [done|]. split; [done|]. split; [done|].
      split; [|by left]. split; [right; eauto|].
      intros Hnever. rewrite Hnever in Hrm. discriminate Hrm.
    - exists []. cbn [fst snd trace heap fs add_event].
      split; [by rewrite app_nil_r|]. split; [done|]. split; [done|]. split; [done|].
      split; [|right; exists e; auto]. split; [right; eauto|].
      intros Hnever. rewrite Hnever in Hrm. discriminate Hrm.
    - exists [EvLog DEBUG (MsgCleanedUp td)]. cbn [fst snd trace heap fs add_event set_fs].
      split; [done|]. split; [done|]. split; [done|]. split; [done|].
      change (fs wr) with (fs wb).
      assert (delete td (fs wb) = base) as -> by (rewrite Hfs; by apply delete_insert_id).
      split; [|by left]. split; [by left | done]. }
  assert (Hcalls_tail : ∀ calls tail, external_calls mid = calls → external_calls tail = [] →
            external_calls (pre ++ mid ++ [EvRmtree td] ++ tail) =
            [EvMkdtemp TEMP_PREFIX; EvRetrieve DATASET (request_of cfg d) td file] ++
              calls ++ [EvRmtree td]).
  { intros calls tail Hm Ht. rewrite !external_calls_app, Hm, Ht, app_nil_r. reflexivity. }
  destruct Hcases as [(Hend & Hcalls & X & Hfs)|(Hend & Herr & Hcalls & Hfile & size & Hsize & Hfs)].
  - destruct (Hbase (fs w) X) as (tail & Htr & Hhp & Hcl & Her & Hafter & Hres).
    { rewrite Hfs. subst w1. cbn [fs set_fs add_event]. by rewrite insert_insert_eq. }
    { exact Hfresh. }
    exists (pre ++ mid ++ [EvRmtree td] ++ tail).
    destruct (match rmtree_error E wr with None => _ | Some e => _ end) as [res wf];
      cbn [fst snd] in *.
    assert (Hends : ends_without_file
                      (match res with Ret _ => h | Raise e => Raise e end)
                      (pre ++ mid ++ [EvRmtree td] ++ tail)).
    { destruct Hres as [->|(e & -> & _ & Hexc)]; [|right; eauto].
      destruct Hend as [[-> Herrs]|(e & -> & Hexc)]; [left|right; eauto].
      split; [done|]. rewrite !error_logs_app. intros Hnil.
      apply app_eq_nil in Hnil as [_ Hnil]. apply app_eq_nil in Hnil as [Hnil _]. done. }
    assert (Hw : (match res with
                  | Ret _ => (h, wf)
                  | Raise e => (Raise e, wf)
                  end) = (match res with Ret _ => h | Raise e => Raise e end, wf))
      by (by destruct res).
    rewrite Hw. cbn [fst snd].
    split; [rewrite Htr, Htracer; by rewrite <-!app_assoc|].
    split; [subst w1; cbn [heap set_fs add_event] in *; congruence|].
    right. exists td. split; [exact Hfresh|]. left.
    split; [exact Hends|]. split; [|exact Hafter].
    destruct Hcalls as [Hcalls|Hcalls]; rewrite (Hcalls_tail _ tail Hcalls Hcl);
      [left | right]; reflexivity.
  - assert (Hold : fs w1 !! file = fs w !! file).
    { subst w1. cbn [fs set_fs add_event]. by rewrite lookup_insert_ne. }
    rewrite Hold in Hfs.
    destruct (Hbase (<[file := stored file size (fs w !! file)]> (fs w)) ∅)
      as (tail & Htr & Hhp & Hcl & Her & Hafter & Hres).
    { rewrite Hfs. subst w1. cbn [fs set_fs add_event]. by apply insert_insert_ne. }
    { by rewrite lookup_insert_ne. }
    exists (pre ++ mid ++ [EvRmtree td] ++ tail).
    destruct (match rmtree_error E wr with None => _ | Some e => _ end) as [res wf];
      cbn [fst snd] in *.
    assert (Hends : ends_with_file E file
                      (match res with Ret _ => h | Raise e => Raise e end)
                      (pre ++ mid ++ [EvRmtree td] ++ tail)).
    { split.
      - destruct Hres as [->|(e & -> & Hrm & Hexc)]; [left; by subst h | right; eauto].
      - rewrite !error_logs_app, Herr, Her. reflexivity. }
    assert (Hw : (match res with
                  | Ret _ => (h, wf)
                  | Raise e => (Raise e, wf)
                  end) = (match res with Ret _ => h | Raise e => Raise e end, wf))
      by (by destruct res).
    rewrite Hw. cbn [fst snd].
    split; [rewrite Htr, Htracer; by rewrite <-!app_assoc|].
    split; [subst w1; cbn [heap set_fs add_event] in *; congruence|].
    right. exists td. split; [exact Hfresh|]. right.
    split; [exact Hends|]. split; [|split; [exact Hfile|eauto]].
    by rewrite (Hcalls_tail _ tail Hcalls Hcl).
Qed.

Lemma first_missing_default : first_missing default_download_config = None.
Proof. vm_compute. reflexivity. Qed.

(** A dictionary that passes the validation has the four keys once its
    area is filled in. *)
Lemma first_missing_validated cfg :
  validation_error cfg = None → first_missing (with_default_area cfg) = None.
Proof.
  unfold validation_error, first_missing. cbn [forallb required_keys List.find request_keys].
  assert (Hsame : ∀ k, k ≠ "area"%string → with_default_area cfg !! k = cfg !! k).
  { intros k Hk. unfold with_default_area. destruct (truthy (area_of cfg)); [done|].
    by rewrite lookup_insert_ne. }
  rewrite !Hsame by done.
  destruct (cfg !! "variable"); [|done].
  destruct (cfg !! "pressure_level"); [|done].
  destruct (cfg !! "time"); [|done]. cbn [is_given negb andb].
  intros _. unfold with_default_area, area_of.
  destruct (cfg !! "area") as [area|] eqn:Harea; cbn [default from_option id].
  - destruct (truthy area); [by rewrite Harea | by rewrite lookup_insert_eq].
  - cbn [truthy]. by rewrite lookup_insert_eq.
Qed.

(** A download: over after a line or two of the log and without any
    call, or an attempt on the effective configuration. *)
Lemma download_outcomes E self d config w :
  config_argument_ok config w →
  let file := strftime_ymd E d +:+ ".nc" in
  let cfg := effective_config config w in
  let r := download_data_for_date E self d config w in
  ∃ evs,
    trace r.2 = trace w ++ evs ∧
    ((external_calls evs = [] ∧ r.1 = Ret None ∧ fs r.2 = fs w ∧
      (debug self = false → error_logs evs ≠ [])) ∨
     (debug self = false ∧
      ((external_calls evs = [EvMkdtemp TEMP_PREFIX] ∧ ends_without_file r.1 evs ∧
        fs r.2 = fs w) ∨
       ∃ td, fs w !! td = None ∧
         ((ends_without_file r.1 evs ∧
           (external_calls evs =
              [EvMkdtemp TEMP_PREFIX; EvRetrieve DATASET (request_of cfg d) td file;
               EvRmtree td] ∨
            external_calls evs =
              [EvMkdtemp TEMP_PREFIX; EvRetrieve DATASET (request_of cfg d) td file;
               EvMove td file file; EvRmtree td]) ∧
           after_cleanup E td (fs w) (fs r.2)) ∨
          (ends_with_file E file r.1 evs ∧
           external_calls evs =
             [EvMkdtemp TEMP_PREFIX; EvRetrieve DATASET (request_of cfg d) td file;
              EvMove td file file; EvRmtree td] ∧
           file ≠ td ∧
           ∃ size, size ≠ 0%N ∧
             after_cleanup E td (<[file := stored file size (fs w !! file)]> (fs w))
               (fs r.2)))))).
Proof.
  intros Hconfig file cfg r. subst r.
  destruct (debug self) eqn:Hdebug.
  { rewrite download_debug_run by exact Hdebug.
    exists [EvLog INFO (MsgDebugSkip d)]. split; [done|]. left.
    split; [done|]. split; [done|]. split; [done|]. discriminate. }
  assert (Hattempt : ∀ c w2,
    download_data_for_date E self d config w = download_attempt E d c w2 →
    heap w2 !! c = Some cfg → fs w2 = fs w →
    trace w2 = trace w ++ [EvLog INFO (MsgStartingDownload d)] →
    first_missing cfg = None →
    ∃ evs,
      trace (download_data_for_date E self d config w).2 = trace w ++ evs ∧
      ((external_calls evs = [] ∧ (download_data_for_date E self d config w).1 = Ret None ∧
        fs (download_data_for_date E self d config w).2 = fs w ∧
        (false = false → error_logs evs ≠ [])) ∨
       (false = false ∧
        ((external_calls evs = [EvMkdtemp TEMP_PREFIX] ∧
          ends_without_file (download_data_for_date E self d config w).1 evs ∧
          fs (download_data_for_date E self d config w).2 = fs w) ∨
         ∃ td, fs w !! td = None ∧
           ((ends_without_file (download_data_for_date E self d config w).1 evs ∧
             (external_calls evs =
                [EvMkdtemp TEMP_PREFIX; EvRetrieve DATASET (request_of cfg d) td file;
                 EvRmtree td] ∨
              external_calls evs =
                [EvMkdtemp TEMP_PREFIX; EvRetrieve DATASET (request_of cfg d) td file;
                 EvMove td file file; EvRmtree td]) ∧
             after_cleanup E td (fs w) (fs (download_data_for_date E self d config w).2)) ∨
            (ends_with_file E file (download_data_for_date E self d config w).1 evs ∧
             external_calls evs =
               [EvMkdtemp TEMP_PREFIX; EvRetrieve DATASET (request_of cfg d) td file;
                EvMove td file file; EvRmtree td] ∧
             file ≠ td ∧
             ∃ size, size ≠ 0%N ∧
               after_cleanup E td (<[file := stored file size (fs w !! file)]> (fs w))
                 (fs (download_data_for_date E self d config w).2))))))).
  { intros c w2 -> Hc Hfs2 Htrace2 Hkeys.
    destruct (download_attempt_outcomes E d c cfg w2 Hc Hkeys) as (evs & Htrace & _ & Hcases).
    fold file in Hcases. rewrite Hfs2 in Hcases.
    set (r := download_attempt E d c w2) in *.
    exists (EvLog INFO (MsgStartingDownload d) :: evs).
    split; [rewrite Htrace, Htrace2; by rewrite <-app_assoc|].
    right. split; [done|].
    assert (Hcalls : external_calls (EvLog INFO (MsgStartingDownload d) :: evs) =
                     external_calls evs) by reflexivity.
    assert (Herrs : error_logs (EvLog INFO (MsgStartingDownload d) :: evs) = error_logs evs)
      by reflexivity.
    assert (Hwithout : ends_without_file r.1 evs →
                       ends_without_file r.1 (EvLog INFO (MsgStartingDownload d) :: evs)).
    { intros [[? ?]|?]; [left | by right]. by rewrite Herrs. }
    rewrite Hcalls.
    destruct Hcases as [(? & ? & ?)|(td & Hfresh & [(? & ? & ?)|([? ?] & ? & ? & ?)])].
    - left. auto.
    - right. exists td. split; [done|]. left. auto.
    - right. exists td. split; [done|]. right. split; [|auto].
      split; [done|]. by rewrite Herrs. }
  destruct config as [c|].
  - destruct Hconfig as [cfg0 Hc].
    assert (Hcfg : cfg = with_default_area cfg0).
    { subst cfg. unfold effective_config. by rewrite Hc. }
    pose proof (download_config_run E self d c cfg0 w Hdebug Hc) as Hrun.
    destruct (validation_error cfg0) as [msg|] eqn:Herr.
    + rewrite Hrun.
      exists [EvLog INFO (MsgStartingDownload d);
              EvLog ERROR (MsgInvalidConfiguration (ValueError msg))].
      split; [cbn [snd trace add_event started]; by rewrite <-app_assoc|].
      left. split; [done|]. split; [done|]. split; [done|]. done.
    + apply (Hattempt c _ Hrun).
      * rewrite Hcfg. unfold with_default_area.
        destruct (truthy (area_of cfg0)); [exact Hc | apply lookup_insert_eq].
      * by destruct (truthy (area_of cfg0)).
      * by destruct (truthy (area_of cfg0)).
      * rewrite Hcfg. by apply first_missing_validated.
  - apply (Hattempt _ _ (download_default_run E self d w Hdebug)).
    + apply lookup_insert_eq.
    + reflexivity.
    + reflexivity.
    + exact first_missing_default.
Qed.

(** What a download does to the output directory: nothing, or the file of
    its date is put in place; in both cases a temporary directory may be
    left when [shutil.rmtree] fails. *)
Lemma download_directory E self d config w :
  config_argument_ok config w →
  let file := strftime_ymd E d +:+ ".nc" in
  let r := download_data_for_date E self d config w in
  ((∀ p, r.1 ≠ Ret (Some p)) ∧
   (fs r.2 = fs w ∨ ∃ td X, fs w !! td = None ∧ fs r.2 = <[td := Dir X]> (fs w)) ∧
   ((∀ w', rmtree_error E w' = None) → fs r.2 = fs w)) ∨
  (∃ size base,
     size ≠ 0%N ∧ base = <[file := stored file size (fs w !! file)]> (fs w) ∧
     r.1 ≠ Ret None ∧ (∀ p, r.1 = Ret (Some p) → p = file) ∧
     (fs r.2 = base ∨
      ∃ td X, fs w !! td = None ∧ td ≠ file ∧ fs r.2 = <[td := Dir X]> base) ∧
     ((∀ w', rmtree_error E w' = None) → fs r.2 = base ∧ r.1 = Ret (Some file))).
Proof.
  intros Hconfig file r.
  destruct (download_outcomes E self d config w Hconfig) as (evs & _ & Hcases).
  fold file r in Hcases.
  assert (Hnone : ∀ evs, ends_without_file r.1 evs → ∀ p, r.1 ≠ Ret (Some p)).
  { intros evs' [[-> _]|(e & -> & _)] p; discriminate. }
  destruct Hcases as [(_ & Hr & Hfs & _)|(_ & [(_ & Hend & Hfs)|(td & Hfresh & Hcases)])].
  - left. split; [intros p; rewrite Hr; discriminate|]. split; [by left | done].
  - left. split; [by apply (Hnone evs)|]. split; [by left | done].
  - destruct Hcases as [(Hend & _ & [Hafter Hnever])|
                        (Hend & _ & Hfile & size & Hsize & [Hafter Hnever])].
    + left. split; [by apply (Hnone evs)|]. split; [|done].
      destruct Hafter as [?|[X ?]]; [by left | right; eauto].
    + right. exists size, (<[file := stored file size (fs w !! file)]> (fs w)).
      split; [done|]. split; [done|].
      destruct Hend as [Hr _]. split; [|split; [|split]].
      * destruct Hr as [-> |(e & w' & -> & _)]; discriminate.
      * intros p Hp. destruct Hr as [Hr|(e & w' & Hr & _)]; congruence.
      * destruct Hafter as [?|[X ?]]; [by left | right]. exists td, X. auto.
      * intros Hrm. split; [by apply Hnever|].
        destruct Hr as [Hr|(e & w' & _ & Hfails & _)]; [done|].
        rewrite Hrm in Hfails. discriminate Hfails.
Qed.

Lemma retrieve_calls_external evs : retrieve_calls (external_calls evs) = retrieve_calls evs.
Proof.
  induction evs as [|ev evs IH]; [done|].
  unfold retrieve_calls, external_calls in *.
  destruct ev;
    repeat first [ rewrite filter_cons_True by exact I
                 | rewrite filter_cons_False by (intros []) ];
    by rewrite ?IH.
Qed.

(** X7. The calls that one [download_data_for_date] makes, whatever the
    collaborators do: none at all; or [mkdtemp] alone, when it fails; or
    [mkdtemp], then one call of the client for the dataset
    [reanalysis-era5-pressure-levels], with the request built from the
    effective configuration and the file [<date>.nc] in the new temporary
    directory, then at most one [shutil.move] of that file to [<date>.nc] of
    the output directory, then [shutil.rmtree] of the temporary directory.
    The client is called at most once. *)
Theorem download_follows_protocol E self d config w :
  config_argument_ok config w →
  let file := strftime_ymd E d +:+ ".nc" in
  let request := request_of (effective_config config w) d in
  ∃ evs,
    trace (download_data_for_date E self d config w).2 = trace w ++ evs ∧
    (length (retrieve_calls evs) <= 1)%nat ∧
    (external_calls evs = [] ∨
     external_calls evs = [EvMkdtemp TEMP_PREFIX] ∨
     ∃ td, fs w !! td = None ∧
       (external_calls evs =
          [EvMkdtemp TEMP_PREFIX; EvRetrieve DATASET request td file; EvRmtree td] ∨
        external_calls evs =
          [EvMkdtemp TEMP_PREFIX; EvRetrieve DATASET request td file;
           EvMove td file file; EvRmtree td])).
Proof.
  intros Hconfig file request.
  destruct (download_outcomes E self d config w Hconfig) as (evs & Htrace & Hcases).
  fold file request in Hcases.
  exists evs. split; [exact Htrace|].
  assert (Hcalls :
    external_calls evs = [] ∨
    external_calls evs = [EvMkdtemp TEMP_PREFIX] ∨
    ∃ td, fs w !! td = None ∧
      (external_calls evs =
         [EvMkdtemp TEMP_PREFIX; EvRetrieve DATASET request td file; EvRmtree td] ∨
       external_calls evs =
         [EvMkdtemp TEMP_PREFIX; EvRetrieve DATASET request td file;
          EvMove td file file; EvRmtree td])).
  { destruct Hcases as [(? & _)|(_ & [(? & _)|(td & Hfresh & [(_ & ? & _)|(_ & ? & _)])])];
      eauto 6. }
  split; [|exact Hcalls].
  rewrite <-retrieve_calls_external.
  destruct Hcalls as [-> |[-> |(td & _ & [-> | ->])]];
    [exact (Nat.le_0_l 1) | exact (Nat.le_0_l 1) | exact (le_n 1) | exact (le_n 1)].
Qed.

Lemma download_follows_protocol_witness :
  config_argument_ok None Sample.empty_world ∧
  ∃ evs,
    trace (download_data_for_date Sample.working Sample.downloader Sample.dec_01 None
             Sample.empty_world).2 = trace Sample.empty_world ++ evs ∧
    (length (retrieve_calls evs) <= 1)%nat.
Proof.
  split; [exact I|].
  destruct (download_follows_protocol Sample.working Sample.downloader Sample.dec_01 None
              Sample.empty_world I) as (evs & Htrace & Hlen & _).
  exists evs. split; [exact Htrace | exact Hlen].
Defined.

(** X8. What [download_data_for_date] leaves alone in the output directory,
    whatever the collaborators do: every entry that exists and is not the
    file of the date keeps its content, and a regular file under the name of
    the date is still a regular file afterwards. When [shutil.rmtree] does
    not fail, nothing but the file of the date differs from before, and a
    download that does not return a path leaves the directory exactly as it
    was. *)
Theorem download_touches_only_its_own_file E self d config w :
  config_argument_ok config w →
  let file := strftime_ymd E d +:+ ".nc" in
  let r := download_data_for_date E self d config w in
  (∀ name, is_Some (fs w !! name) → name ≠ file → fs r.2 !! name = fs w !! name) ∧
  (∀ size, fs w !! file = Some (File size) → ∃ size', fs r.2 !! file = Some (File size')) ∧
  ((∀ w', rmtree_error E w' = None) →
   (∀ name, name ≠ file → fs r.2 !! name = fs w !! name) ∧
   ((∀ p, r.1 ≠ Ret (Some p)) → fs r.2 = fs w)).
Proof.
  intros Hconfig file r.
  pose proof (download_directory E self d config w Hconfig) as Hdir.
  cbv zeta in Hdir. fold file in Hdir. fold r in Hdir.
  destruct Hdir
    as [(Hnone & Hfs & Hnever)|(size & base & Hsize & -> & Hsome & Hp & Hfs & Hnever)].
  - split; [|split].
    + intros name Hname _. destruct Hfs as [-> |(td & X & Hfresh & ->)]; [done|].
      apply lookup_insert_ne. intros ->. rewrite Hfresh in Hname. by destruct Hname.
    + intros size Hfile. exists size.
      destruct Hfs as [-> |(td & X & Hfresh & ->)]; [done|].
      rewrite lookup_insert_ne; [done|]. intros ->. congruence.
    + intros Hrm. rewrite (Hnever Hrm). done.
  - split; [|split].
    + intros name Hname Hne.
      destruct Hfs as [-> |(td & X & Hfresh & _ & ->)].
      * by rewrite lookup_insert_ne.
      * rewrite lookup_insert_ne; [by rewrite lookup_insert_ne|].
        intros ->. rewrite Hfresh in Hname. by destruct Hname.
    + intros size0 Hfile. exists size.
      destruct Hfs as [-> |(td & X & Hfresh & Htd & ->)].
      * by rewrite lookup_insert_eq, Hfile.
      * rewrite lookup_insert_ne by done. by rewrite lookup_insert_eq, Hfile.
    + intros Hrm. destruct (Hnever Hrm) as [-> Hr]. split.
      * intros name Hne. by rewrite lookup_insert_ne.
      * intros Hno. by destruct (Hno file).
Qed.

Lemma download_touches_only_its_own_file_witness :
  config_argument_ok None Sample.two_days_world ∧
  is_Some (fs Sample.two_days_world !! "2024-12-02.nc"%string) ∧
  fs (download_data_for_date Sample.working Sample.downloader Sample.dec_01 None
        Sample.two_days_world).2 !! "2024-12-02.nc"%string =
  fs Sample.two_days_world !! "2024-12-02.nc"%string.
Proof.
  assert (Hthere : is_Some (fs Sample.two_days_world !! "2024-12-02.nc"%string))
    by (vm_compute; eauto).
  split; [exact I|]. split; [exact Hthere|].
  apply (proj1 (download_touches_only_its_own_file Sample.working Sample.downloader
                  Sample.dec_01 None Sample.two_days_world I)
           "2024-12-02.nc"%string Hthere).
  vm_compute. discriminate.
Defined.

(** X9. [download_data_for_date] does not fail silently: outside debug mode,
    every call that returns [None] has logged at least one line at the level
    [ERROR]; a call that returns a path has logged none. *)
Theorem download_failure_is_logged E self d config w :
  config_argument_ok config w →
  let r := download_data_for_date E self d config w in
  ∃ evs,
    trace r.2 = trace w ++ evs ∧
    (r.1 = Ret None → debug self = false → error_logs evs ≠ []) ∧
    (∀ p, r.1 = Ret (Some p) → error_logs evs = []).
Proof.
  intros Hconfig r.
  destruct (download_outcomes E self d config w Hconfig) as (evs & Htrace & Hcases).
  fold r in Htrace, Hcases. exists evs. split; [exact Htrace|].
  assert (Hwithout : ends_without_file r.1 evs →
            (r.1 = Ret None → debug self = false → error_logs evs ≠ []) ∧
            (∀ p, r.1 = Ret (Some p) → error_logs evs = [])).
  { intros [[Hr Herr]|(e & Hr & _)]; rewrite Hr; split; try done; discriminate. }
  destruct Hcases as [(_ & Hr & _ & Herr)|(_ & [(_ & Hend & _)|(td & _ & Hcases)])].
  - rewrite Hr. split; [auto | discriminate].
  - by apply Hwithout.
  - destruct Hcases as [(Hend & _)|([Hr Herr] & _)]; [by apply Hwithout|].
    split; [|done]. intros Hnone.
    destruct Hr as [Hr|(e & w' & Hr & _)]; congruence.
Qed.

Lemma download_failure_is_logged_witness :
  config_argument_ok None Sample.empty_world ∧
  (download_data_for_date Sample.offline Sample.downloader Sample.dec_01 None
     Sample.empty_world).1 = Ret None ∧
  debug Sample.downloader = false ∧
  ∃ evs,
    trace (download_data_for_date Sample.offline Sample.downloader Sample.dec_01 None
             Sample.empty_world).2 = trace Sample.empty_world ++ evs ∧
    error_logs evs ≠ [].
Proof.
  assert (Hnone : (download_data_for_date Sample.offline Sample.downloader Sample.dec_01 None
                     Sample.empty_world).1 = Ret None) by (vm_compute; reflexivity).
  split; [exact I|]. split; [exact Hnone|]. split; [reflexivity|].
  destruct (download_failure_is_logged Sample.offline Sample.downloader Sample.dec_01 None
              Sample.empty_world I) as (evs & Htrace & Hlogged & _).
  exists evs. split; [exact Htrace|]. exact (Hlogged Hnone eq_refl).
Defined.

Lemma length_collect_dates E w names :
  (length (collect_dates E w names) <= length names)%nat.
Proof.
  induction names as [|fname names IH]; cbn; [lia|].
  destruct (negb (os_path_isfile w fname)); [lia|].
  destruct (strptime_ymd E (split_dot_head fname)); cbn; lia.
Qed.

(** X1. [_get_already_downloaded_dates] changes nothing. It raises exactly
    when [os.listdir] fails on the output directory, and then the [OSError]
    of [os.listdir] itself, which nothing catches. When the directory can be
    listed, the list that it returns holds exactly the dates [d] for which
    the output directory has a regular file whose name, cut at its first
    dot, [strptime] reads as [d]: subdirectories and names that do not parse
    are passed over. The list has at most one element per entry of the
    directory, and none for an empty directory. *)
Theorem listing_is_the_dated_regular_files E w :
  (_get_already_downloaded_dates E w).2 = w ∧
  (∀ e, (_get_already_downloaded_dates E w).1 = Raise e ↔
        ∃ class_name, listdir_error E w = Some class_name ∧ e = OSError class_name) ∧
  (listable E w →
   ∃ dates,
     _get_already_downloaded_dates E w = (Ret dates, w) ∧
     (∀ d, d ∈ dates ↔
           ∃ fname size, fs w !! fname = Some (File size) ∧
                         strptime_ymd E (split_dot_head fname) = Some d) ∧
     (length dates <= size (fs w))%nat ∧
     (fs w = ∅ → dates = [])).
Proof.
  rewrite get_already_downloaded_dates_run. unfold listable.
  destruct (listdir_error E w) as [class_name|] eqn:Hls; cbn [fst snd].
  - split; [done|]. split; [|done]. intros e. split.
    + intros [= <-]. by exists class_name.
    + by intros (c & [= <-] & ->).
  - split; [done|]. split.
    { intros e. split; [done|]. by intros (c & Hc & _). }
    intros _. exists (collect_dates E w (dir_entries w)).
    split; [done|]. split; [intros d; apply already_downloaded_spec|]. split.
    + rewrite <-length_map_to_list, <-(length_fmap fst (map_to_list (fs w))).
      apply length_collect_dates.
    + apply collect_dates_empty.
Qed.

Lemma listing_is_the_dated_regular_files_witness :
  listable Sample.working Sample.two_days_world ∧
  (∃ dates,
     _get_already_downloaded_dates Sample.working Sample.two_days_world =
       (Ret dates, Sample.two_days_world) ∧
     (length dates <= 2)%nat) ∧
  (_get_already_downloaded_dates Sample.unlistable Sample.two_days_world).1 =
    Raise (OSError "NotADirectoryError").
Proof.
  split; [reflexivity|]. split.
  - destruct (proj2 (proj2 (listing_is_the_dated_regular_files Sample.working
                              Sample.two_days_world)) eq_refl)
      as (dates & Hrun & _ & Hlen & _).
    exists dates. split; [exact Hrun|]. exact Hlen.
  - apply (proj1 (proj2 (listing_is_the_dated_regular_files Sample.unlistable
                           Sample.two_days_world))).
    exists "NotADirectoryError"%string. split; reflexivity.
Defined.

(** X10. A path that [download_data_for_date] returns is [<date>.nc] of the
    output directory (never in debug mode), and that path exists afterwards.
    If it was not a directory before, it is then a regular file that is not
    empty, which [_get_already_downloaded_dates] lists under the date as
    soon as [strptime] reads the name back and [os.listdir] lists the
    directory; if it was a directory, [shutil.move] has put the file inside
    it, and the path is still a directory. *)
Theorem returned_path_is_the_file_of_the_date E self d config w p :
  config_argument_ok config w →
  (download_data_for_date E self d config w).1 = Ret (Some p) →
  let w' := (download_data_for_date E self d config w).2 in
  p = strftime_ymd E d +:+ ".nc" ∧ debug self = false ∧ is_Some (fs w' !! p) ∧
  ((∀ entries, fs w !! p ≠ Some (Dir entries)) →
   (∃ size, size ≠ 0%N ∧ fs w' !! p = Some (File size)) ∧
   (strptime_ymd E (split_dot_head p) = Some d → listable E w' →
    ∃ dates, _get_already_downloaded_dates E w' = (Ret dates, w') ∧ d ∈ dates)) ∧
  (∀ entries, fs w !! p = Some (Dir entries) →
   ∃ size, size ≠ 0%N ∧ fs w' !! p = Some (Dir (<[p := size]> entries))).
Proof.
  intros Hconfig Hr w'.
  pose proof (download_directory E self d config w Hconfig) as Hdir.
  cbv zeta in Hdir. fold w' in Hdir.
  destruct Hdir as [(Hnone & _)|(size & base & Hsize & -> & _ & Hp & Hfs & _)].
  { by destruct (Hnone p). }
  specialize (Hp p Hr). subst p.
  set (file := strftime_ymd E d +:+ ".nc") in *.
  split; [done|]. split.
  { destruct (debug self) eqn:Hdebug; [|done].
    rewrite download_debug_run in Hr by done. discriminate Hr. }
  split.
  { destruct Hfs as [-> |(td & X & _ & _ & ->)].
    - rewrite lookup_insert_eq. eauto.
    - rewrite lookup_insert_is_Some'. right. rewrite lookup_insert_eq. eauto. }
  assert (Hnew : fs w' !! file = Some (stored file size (fs w !! file))).
  { destruct Hfs as [-> |(td & X & _ & Htd & ->)].
    - by rewrite lookup_insert_eq.
    - rewrite lookup_insert_ne by done. by rewrite lookup_insert_eq. }
  split.
  - intros Hnodir.
    assert (Hfile : fs w' !! file = Some (File size)).
    { rewrite Hnew. unfold stored.
      destruct (fs w !! file) as [[n|entries]|] eqn:Hold; try done.
      by destruct (Hnodir entries). }
    split; [eauto|]. intros Hparse Hls.
    exists (collect_dates E w' (dir_entries w')).
    split; [by rewrite get_already_downloaded_dates_run, Hls|].
    apply already_downloaded_spec. by exists file, size.
  - intros entries Hdir. exists size. split; [done|]. by rewrite Hnew, Hdir.
Qed.

Lemma returned_path_is_the_file_of_the_date_witness :
  config_argument_ok None Sample.empty_world ∧
  (download_data_for_date Sample.working Sample.downloader Sample.dec_01 None
     Sample.empty_world).1 = Ret (Some "2024-12-01.nc"%string) ∧
  (∀ entries, fs Sample.empty_world !! "2024-12-01.nc"%string ≠ Some (Dir entries)) ∧
  strptime_ymd Sample.working (split_dot_head "2024-12-01.nc") = Some Sample.dec_01 ∧
  listable Sample.working
    (download_data_for_date Sample.working Sample.downloader Sample.dec_01 None
       Sample.empty_world).2 ∧
  ∃ dates,
    _get_already_downloaded_dates Sample.working
      (download_data_for_date Sample.working Sample.downloader Sample.dec_01 None
         Sample.empty_world).2 =
    (Ret dates,
     (download_data_for_date Sample.working Sample.downloader Sample.dec_01 None
        Sample.empty_world).2) ∧
    Sample.dec_01 ∈ dates.
Proof.
  assert (Hr : (download_data_for_date Sample.working Sample.downloader Sample.dec_01 None
                  Sample.empty_world).1 = Ret (Some "2024-12-01.nc"%string))
    by (vm_compute; reflexivity).
  assert (Hnodir : ∀ entries,
            fs Sample.empty_world !! "2024-12-01.nc"%string ≠ Some (Dir entries))
    by (intros entries; vm_compute; discriminate).
  assert (Hparse : strptime_ymd Sample.working (split_dot_head "2024-12-01.nc") =
                   Some Sample.dec_01) by (vm_compute; reflexivity).
  split; [exact I|]. split; [exact Hr|]. split; [exact Hnodir|]. split; [exact Hparse|].
  split; [reflexivity|].
  exact (proj2 (proj1 (proj2 (proj2 (proj2
           (returned_path_is_the_file_of_the_date Sample.working Sample.downloader
              Sample.dec_01 None Sample.empty_world "2024-12-01.nc" I Hr)))) Hnodir)
           Hparse eq_refl).
Defined.

Lemma request_of_items cfg d :
  req_variable (request_of cfg d) = item cfg "variable" ∧
  req_pressure_level (request_of cfg d) = item cfg "pressure_level" ∧
  req_time (request_of cfg d) = item cfg "time" ∧
  req_area (request_of cfg d) = item cfg "area" ∧
  req_product_type (request_of cfg d) = "reanalysis"%string ∧
  req_format (request_of cfg d) = "netcdf"%string.
Proof. unfold request_of. by destruct (ord2ymd d) as [[y m] dd]. Qed.

(** What the validation has checked of a dictionary that passes. *)
Lemma validated_items cfg :
  validation_error cfg = None →
  is_nonempty_list (item (with_default_area cfg) "variable") ∧
  is_nonempty_list (item (with_default_area cfg) "pressure_level") ∧
  is_nonempty_list (item (with_default_area cfg) "time") ∧
  is_four_element_list (item (with_default_area cfg) "area").
Proof.
  unfold validation_error.
  assert (Hsame : ∀ k, k ≠ "area"%string →
            item (with_default_area cfg) k = item cfg k).
  { intros k Hk. unfold item, with_default_area.
    destruct (truthy (area_of cfg)); [done|]. by rewrite lookup_insert_ne. }
  rewrite (Hsame "variable"), (Hsame "pressure_level"), (Hsame "time") by done.
  destruct (negb (forallb _ required_keys)); [done|].
  destruct (not_nonempty_list (item cfg "variable")) eqn:Hvar; [done|].
  destruct (not_nonempty_list (item cfg "pressure_level")) eqn:Hpl; [done|].
  destruct (not_nonempty_list (item cfg "time")) eqn:Htime; [done|].
  cbv zeta.
  destruct (negb (isinstance_list _) || negb (py_len _ =? 4)) eqn:Harea; [done|].
  intros _. rewrite <-!not_nonempty_list_spec, <-four_element_list_spec. done.
Qed.

(** X4. On a dictionary that [_validate_download_config] has accepted,
    [_build_cds_request] does not raise and changes nothing: the request has
    the product type [reanalysis] and the format [netcdf], carries the four
    items of the dictionary as they are, and its variables, pressure levels
    and times are non-empty lists and its area a list of four elements. *)
Theorem validated_config_builds_a_request d c c' w w' :
  _validate_download_config c w = (Ret c', w') →
  ∃ cfg,
    c' = c ∧ heap w' !! c = Some cfg ∧
    _build_cds_request d c' w' = (Ret (request_of cfg d), w') ∧
    req_product_type (request_of cfg d) = "reanalysis"%string ∧
    req_format (request_of cfg d) = "netcdf"%string ∧
    cfg !! "variable" = Some (req_variable (request_of cfg d)) ∧
    cfg !! "pressure_level" = Some (req_pressure_level (request_of cfg d)) ∧
    cfg !! "time" = Some (req_time (request_of cfg d)) ∧
    cfg !! "area" = Some (req_area (request_of cfg d)) ∧
    is_nonempty_list (req_variable (request_of cfg d)) ∧
    is_nonempty_list (req_pressure_level (request_of cfg d)) ∧
    is_nonempty_list (req_time (request_of cfg d)) ∧
    is_four_element_list (req_area (request_of cfg d)).
Proof.
  intros Hval.
  destruct (heap w !! c) as [cfg|] eqn:Hc.
  2: { unfold _validate_download_config, deref in Hval. rewrite !run_bind in Hval.
       cbn [get_world] in Hval. rewrite Hc in Hval. discriminate Hval. }
  rewrite (validate_run c cfg w Hc) in Hval.
  destruct (validation_error cfg) as [msg|] eqn:Herr; [discriminate Hval|].
  injection Hval as <- <-.
  exists (with_default_area cfg).
  assert (Hc' : heap (if truthy (area_of cfg) then w
                      else set_heap (<[c := <["area" := GLOBAL_AREA]> cfg]>) w) !! c =
                Some (with_default_area cfg)).
  { unfold with_default_area. destruct (truthy (area_of cfg)); [done|].
    apply lookup_insert_eq. }
  pose proof (first_missing_validated cfg Herr) as Hkeys.
  destruct (validated_items cfg Herr) as (Hvar & Hpl & Htime & Harea).
  destruct (request_of_items (with_default_area cfg) d) as (-> & -> & -> & -> & -> & ->).
  split; [done|]. split; [exact Hc'|]. split.
  { rewrite (build_cds_request_run d c _ _ Hc'), Hkeys. reflexivity. }
  split; [done|]. split; [done|].
  assert (Hitem : ∀ k, is_given (with_default_area cfg !! k) = true →
            with_default_area cfg !! k = Some (item (with_default_area cfg) k)).
  { intros k. unfold item. by destruct (with_default_area cfg !! k). }
  unfold first_missing in Hkeys. cbn [List.find request_keys] in Hkeys.
  destruct (is_given (with_default_area cfg !! "variable")) eqn:H1; [|done].
  destruct (is_given (with_default_area cfg !! "pressure_level")) eqn:H2; [|done].
  destruct (is_given (with_default_area cfg !! "time")) eqn:H3; [|done].
  destruct (is_given (with_default_area cfg !! "area")) eqn:H4; [|done].
  repeat (split; [by apply Hitem|]). done.
Qed.

Lemma validated_config_builds_a_request_witness :
  _validate_download_config 1%positive (Sample.world_with_config Sample.config_without_area) =
    (Ret 1%positive,
     set_heap (<[1%positive := <["area" := GLOBAL_AREA]> Sample.config_without_area]>)
       (Sample.world_with_config Sample.config_without_area)) ∧
  ∃ cfg,
    heap (set_heap (<[1%positive := <["area" := GLOBAL_AREA]> Sample.config_without_area]>)
            (Sample.world_with_config Sample.config_without_area)) !! 1%positive = Some cfg ∧
    is_four_element_list (req_area (request_of cfg Sample.dec_01)).
Proof.
  assert (Hval : _validate_download_config 1%positive
                   (Sample.world_with_config Sample.config_without_area) =
                 (Ret 1%positive,
                  set_heap (<[1%positive := <["area" := GLOBAL_AREA]>
                                              Sample.config_without_area]>)
                    (Sample.world_with_config Sample.config_without_area)))
    by (vm_compute; reflexivity).
  split; [exact Hval|].
  destruct (validated_config_builds_a_request Sample.dec_01 _ _ _ _ Hval)
    as (cfg & _ & Hc & _ & _ & _ & _ & _ & _ & _ & _ & _ & _ & Harea).
  exists cfg. split; [exact Hc | exact Harea].
Defined.

(** X5. [_build_cds_request] on a dictionary that has not been validated: it
    reads the keys [variable], [pressure_level], [time] and [area] in this
    order and raises the [KeyError] of the first one that is missing,
    changing nothing; with all four it returns the request. A dictionary
    without an area, which the validation would accept and complete, makes
    the direct call raise [KeyError('area')]. *)
Theorem build_cds_request_reads_four_keys d c cfg w :
  heap w !! c = Some cfg →
  (∀ k, first_missing cfg = Some k →
        cfg !! k = None ∧ _build_cds_request d c w = (Raise (KeyError k), w)) ∧
  (first_missing cfg = None → _build_cds_request d c w = (Ret (request_of cfg d), w)) ∧
  (validation_error cfg = None → cfg !! "area" = None →
   _build_cds_request d c w = (Raise (KeyError "area"), w)).
Proof.
  intros Hc. rewrite (build_cds_request_run d c cfg w Hc).
  split; [|split].
  - intros k Hk. rewrite Hk. split; [|done].
    unfold first_missing in Hk. apply find_some in Hk as [_ Hk].
    by destruct (cfg !! k).
  - by intros ->.
  - intros Herr Harea.
    assert (first_missing cfg = Some "area"%string) as ->; [|done].
    unfold validation_error in Herr. unfold first_missing.
    cbn [forallb required_keys] in Herr. cbn [List.find request_keys].
    destruct (cfg !! "variable"); [|done].
    destruct (cfg !! "pressure_level"); [|done].
    destruct (cfg !! "time"); [|done]. by rewrite Harea.
Qed.

Lemma build_cds_request_reads_four_keys_witness :
  heap (Sample.world_with_config Sample.config_without_area) !! 1%positive =
    Some Sample.config_without_area ∧
  validation_error Sample.config_without_area = None ∧
  Sample.config_without_area !! "area"%string = None ∧
  _build_cds_request Sample.dec_01 1%positive
    (Sample.world_with_config Sample.config_without_area) =
  (Raise (KeyError "area"), Sample.world_with_config Sample.config_without_area).
Proof.
  assert (Hc : heap (Sample.world_with_config Sample.config_without_area) !! 1%positive =
               Some Sample.config_without_area) by reflexivity.
  assert (Herr : validation_error Sample.config_without_area = None)
    by (vm_compute; reflexivity).
  assert (Harea : Sample.config_without_area !! "area"%string = None)
    by (vm_compute; reflexivity).
  split; [exact Hc|]. split; [exact Herr|]. split; [exact Harea|].
  exact (proj2 (proj2 (build_cds_request_reads_four_keys Sample.dec_01 1%positive _ _ Hc))
           Herr Harea).
Defined.

Lemma fmt_02d_inj m1 m2 :
  0 <= m1 <= 99 → 0 <= m2 <= 99 → fmt_02d m1 = fmt_02d m2 → m1 = m2.
Proof.
  intros H1 H2 Heq.
  destruct (fmt_02d_digits m1 H1) as (a1 & b1 & va1 & vb1 & Hf1 & Ha1 & Hb1 & <-).
  destruct (fmt_02d_digits m2 H2) as (a2 & b2 & va2 & vb2 & Hf2 & Ha2 & Hb2 & <-).
  rewrite Hf1, Hf2 in Heq. injection Heq as <- <-. congruence.
Qed.

Lemma build_cds_request_returns d c w r w' :
  _build_cds_request d c w = (Ret r, w') → ∃ cfg, r = request_of cfg d.
Proof.
  destruct (heap w !! c) as [cfg|] eqn:Hc.
  - rewrite (build_cds_request_run d c cfg w Hc).
    destruct (first_missing cfg); [done|]. intros [= <- _]. eauto.
  - by rewrite (build_cds_request_dangling d c w Hc).
Qed.

Lemma request_of_date cfg d y m dd :
  ord2ymd d = (y, m, dd) →
  req_year (request_of cfg d) = str_int y ∧
  req_month (request_of cfg d) = fmt_02d m ∧
  req_day (request_of cfg d) = fmt_02d dd.
Proof. unfold request_of. by intros ->. Qed.

(** X3. The request that [_build_cds_request] returns for a calendar date
    carries the year as its decimal digits and the month and the day as two
    characters each, of a year, a month and a day that pass the check of the
    [date] constructor and make up the date. Two calendar dates whose
    requests agree on the three fields are the same date, whatever the
    configurations. *)
Theorem request_names_its_date d c w r w' :
  valid_date d →
  _build_cds_request d c w = (Ret r, w') →
  ∃ y m dd,
    check_date_fields y m dd = true ∧ ymd2ord y m dd = d ∧
    req_year r = str_int y ∧ req_month r = fmt_02d m ∧ req_day r = fmt_02d dd ∧
    String.length (req_month r) = 2%nat ∧ String.length (req_day r) = 2%nat ∧
    ∀ d2 c2 w2 r2 w2',
      valid_date d2 → _build_cds_request d2 c2 w2 = (Ret r2, w2') →
      req_year r2 = req_year r → req_month r2 = req_month r → req_day r2 = req_day r →
      d2 = d.
Proof.
  intros Hd Hbuild.
  apply build_cds_request_returns in Hbuild as [cfg ->].
  destruct (ord2ymd_valid d Hd) as (y & m & dd & Hord & Hcheck & Hback).
  destruct (request_of_date cfg d y m dd Hord) as (Hy & Hm & Hdd).
  destruct (check_date_fields_bounds y m dd Hcheck) as (By & Bm & Bd).
  exists y, m, dd. split; [done|]. split; [done|].
  split; [done|]. split; [done|]. split; [done|]. split; [|split].
  - rewrite Hm. destruct (fmt_02d_digits m ltac:(lia)) as (a & b & _ & _ & -> & _). done.
  - rewrite Hdd. destruct (fmt_02d_digits dd ltac:(lia)) as (a & b & _ & _ & -> & _). done.
  - intros d2 c2 w2 r2 w2' Hd2 Hbuild2.
    apply build_cds_request_returns in Hbuild2 as [cfg2 ->].
    destruct (ord2ymd_valid d2 Hd2) as (y2 & m2 & dd2 & Hord2 & Hcheck2 & Hback2).
    destruct (request_of_date cfg2 d2 y2 m2 dd2 Hord2) as (-> & -> & ->).
    destruct (check_date_fields_bounds y2 m2 dd2 Hcheck2) as (By2 & Bm2 & Bd2).
    rewrite Hy, Hm, Hdd. intros Hyy Hmm Hdddd.
    apply (inj pretty) in Hyy. apply fmt_02d_inj in Hmm; [|lia|lia].
    apply fmt_02d_inj in Hdddd; [|lia|lia]. congruence.
Qed.

Lemma request_names_its_date_witness :
  valid_date Sample.dec_05 ∧
  (∃ r w', _build_cds_request Sample.dec_05 1%positive
             (Sample.world_with_config default_download_config) = (Ret r, w') ∧
           req_year r = "2024"%string ∧ req_month r = "12"%string ∧
           req_day r = "05"%string ∧ String.length (req_day r) = 2%nat).
Proof.
  assert (Hd : valid_date Sample.dec_05) by (vm_compute; split; discriminate).
  split; [exact Hd|].
  assert (Hbuild : _build_cds_request Sample.dec_05 1%positive
                     (Sample.world_with_config default_download_config) =
                   (Ret (request_of default_download_config Sample.dec_05),
                    Sample.world_with_config default_download_config))
    by (vm_compute; reflexivity).
  exists (request_of default_download_config Sample.dec_05),
    (Sample.world_with_config default_download_config).
  split; [exact Hbuild|].
  destruct (request_names_its_date Sample.dec_05 1%positive _ _ _ Hd Hbuild)
    as (y & m & dd & _ & _ & _ & _ & _ & _ & Hlen & _).
  split; [vm_compute; reflexivity|]. split; [vm_compute; reflexivity|].
  split; [vm_compute; reflexivity | exact Hlen].
Defined.

Lemma with_default_area_truthy cfg :
  validation_error cfg = None → truthy (area_of (with_default_area cfg)) = true.
Proof.
  intros Herr. destruct (validated_items cfg Herr) as (_ & _ & _ & (n & w & s & e & Harea)).
  unfold area_of. unfold item in Harea.
  assert (Hkeys := first_missing_validated cfg Herr).
  unfold first_missing in Hkeys. cbn [List.find request_keys] in Hkeys.
  destruct (is_given (with_default_area cfg !! "variable")); [|done].
  destruct (is_given (with_default_area cfg !! "pressure_level")); [|done].
  destruct (is_given (with_default_area cfg !! "time")); [|done].
  destruct (with_default_area cfg !! "area") as [area|]; [|done].
  cbn in Harea |- *. by subst area.
Qed.

Lemma with_default_area_valid cfg :
  validation_error cfg = None → validation_error (with_default_area cfg) = None.
Proof.
  intros Herr. pose proof (with_default_area_truthy cfg Herr) as Htruthy.
  destruct (validated_items cfg Herr) as (Hvar & Hpl & Htime & Harea).
  assert (Hkeys := first_missing_validated cfg Herr).
  unfold validation_error.
  assert (Hidem : with_default_area (with_default_area cfg) = with_default_area cfg).
  { unfold with_default_area at 1. by rewrite Htruthy. }
  rewrite Hidem.
  apply not_nonempty_list_spec in Hvar, Hpl, Htime. apply four_element_list_spec in Harea.
  rewrite Hvar, Hpl, Htime, Harea.
  unfold first_missing in Hkeys. cbn [List.find request_keys] in Hkeys.
  cbn [forallb required_keys].
  destruct (is_given (with_default_area cfg !! "variable")); [|done].
  destruct (is_given (with_default_area cfg !! "pressure_level")); [|done].
  destruct (is_given (with_default_area cfg !! "time")); done.
Qed.

(** X6. [_validate_download_config] is idempotent: on the dictionary that a
    first validation has returned, a second validation returns the same
    reference and changes nothing; that dictionary has a truthy area and is
    valid. *)
Theorem validation_is_idempotent c c' w w' :
  _validate_download_config c w = (Ret c', w') →
  _validate_download_config c' w' = (Ret c', w') ∧
  ∃ cfg, heap w' !! c' = Some cfg ∧ truthy (area_of cfg) = true ∧
         ¬ config_invalid cfg.
Proof.
  intros Hval.
  destruct (heap w !! c) as [cfg|] eqn:Hc.
  2: { unfold _validate_download_config, deref in Hval. rewrite !run_bind in Hval.
       cbn [get_world] in Hval. rewrite Hc in Hval. discriminate Hval. }
  rewrite (validate_run c cfg w Hc) in Hval.
  destruct (validation_error cfg) as [msg|] eqn:Herr; [discriminate Hval|].
  injection Hval as <- <-.
  set (w' := if truthy (area_of cfg) then w
             else set_heap (<[c := <["area" := GLOBAL_AREA]> cfg]>) w).
  assert (Hc' : heap w' !! c = Some (with_default_area cfg)).
  { subst w'. unfold with_default_area. destruct (truthy (area_of cfg)); [done|].
    apply lookup_insert_eq. }
  pose proof (with_default_area_truthy cfg Herr) as Htruthy.
  pose proof (with_default_area_valid cfg Herr) as Hvalid.
  split.
  - by rewrite (validate_run c _ w' Hc'), Hvalid, Htruthy.
  - exists (with_default_area cfg). split; [exact Hc'|]. split; [exact Htruthy|].
    rewrite <-validation_error_spec. intros Hbad. by apply Hbad.
Qed.

Lemma validation_is_idempotent_witness :
  _validate_download_config 1%positive (Sample.world_with_config Sample.config_without_area) =
    (Ret 1%positive,
     set_heap (<[1%positive := <["area" := GLOBAL_AREA]> Sample.config_without_area]>)
       (Sample.world_with_config Sample.config_without_area)) ∧
  _validate_download_config 1%positive
    (set_heap (<[1%positive := <["area" := GLOBAL_AREA]> Sample.config_without_area]>)
       (Sample.world_with_config Sample.config_without_area)) =
    (Ret 1%positive,
     set_heap (<[1%positive := <["area" := GLOBAL_AREA]> Sample.config_without_area]>)
       (Sample.world_with_config Sample.config_without_area)).
Proof.
  assert (Hval : _validate_download_config 1%positive
                   (Sample.world_with_config Sample.config_without_area) =
                 (Ret 1%positive,
                  set_heap (<[1%positive := <["area" := GLOBAL_AREA]>
                                              Sample.config_without_area]>)
                    (Sample.world_with_config Sample.config_without_area)))
    by (vm_compute; reflexivity).
  split; [exact Hval|].
  exact (proj1 (validation_is_idempotent _ _ _ _ Hval)).
Defined.

Lemma skipped_app tr1 tr2 : skipped (tr1 ++ tr2) = skipped tr1 ++ skipped tr2.
Proof. apply omap_app. Qed.

Lemma printed_app tr1 tr2 : printed (tr1 ++ tr2) = printed tr1 ++ printed tr2.
Proof. apply omap_app. Qed.

Lemma retrieved_app tr1 tr2 : retrieved (tr1 ++ tr2) = retrieved tr1 ++ retrieved tr2.
Proof. apply omap_app. Qed.

Lemma retrieved_external evs : retrieved (external_calls evs) = retrieved evs.
Proof.
  induction evs as [|ev evs IH]; [done|].
  unfold retrieved, external_calls in *.
  destruct ev;
    repeat first [ rewrite filter_cons_True by exact I
                 | rewrite filter_cons_False by (intros []) ];
    cbn; by rewrite ?IH.
Qed.

(** One turn of the loop body: the date is skipped, or downloaded with
    the default configuration and handed to the two placeholders. *)
Lemma visit_date_run E self already d w :
  visit_date E self already d w =
  if skips self already d then (Ret tt, add_event (EvPrint (MsgAlreadyDownloaded d)) w)
  else match download_data_for_date E self d None w with
       | (Ret _, w1) =>
           (Ret tt,
            add_event (EvPrint (MsgArchiving d)) (add_event (EvPrint (MsgProcessing d)) w1))
       | (Raise e, w1) => (Raise e, w1)
       end.
Proof.
  unfold visit_date, skips. destruct (_ && _); [reflexivity|].
  rewrite run_bind. by destruct (download_data_for_date E self d None w) as [[r|e] w1].
Qed.

(** The events of a download are calls and lines of the log. *)
Lemma download_emits_no_print E self d config w :
  config_argument_ok config w →
  ∃ evs, trace (download_data_for_date E self d config w).2 = trace w ++ evs ∧
         printed evs = [].
Proof.
  intros Hconfig.
  assert (Hattempt : ∀ evs, Forall attempt_event evs → printed evs = []).
  { intros evs Hevs. induction Hevs as [|ev evs Hev _ IH]; [done|].
    unfold printed in *. cbn. rewrite IH. by destruct ev. }
  assert (Hfrom : ∀ c w2,
            trace w2 = trace w ++ [EvLog INFO (MsgStartingDownload d)] →
            ∃ evs, trace (download_attempt E d c w2).2 = trace w ++ evs ∧
                   printed evs = []).
  { intros c w2 Htrace2.
    destruct (download_attempt_emits_only E d c w2) as [(evs & Htrace & Hevs) _].
    exists (EvLog INFO (MsgStartingDownload d) :: evs).
    split; [rewrite Htrace, Htrace2; by rewrite <-app_assoc|].
    pose proof (Hattempt evs Hevs) as H1.
    unfold printed in *. cbn. by rewrite H1. }
  destruct (debug self) eqn:Hdebug.
  { rewrite download_debug_run by done. by exists [EvLog INFO (MsgDebugSkip d)]. }
  destruct config as [c|].
  - destruct Hconfig as [cfg Hc]. rewrite (download_config_run E self d c cfg) by done.
    destruct (validation_error cfg) as [msg|].
    + exists [EvLog INFO (MsgStartingDownload d);
              EvLog ERROR (MsgInvalidConfiguration (ValueError msg))].
      split; [cbn [snd trace add_event started]; by rewrite <-app_assoc | done].
    + apply Hfrom. by destruct (truthy (area_of cfg)).
  - rewrite download_default_run by done. by apply Hfrom.
Qed.

(** The lists of dates read off the printed lines. *)
Lemma printed_dates tr :
  processed tr = omap (λ m, match m with MsgProcessing d => Some d | _ => None end)
                   (printed tr) ∧
  archived tr = omap (λ m, match m with MsgArchiving d => Some d | _ => None end)
                  (printed tr) ∧
  skipped tr = omap (λ m, match m with MsgAlreadyDownloaded d => Some d | _ => None end)
                 (printed tr).
Proof.
  unfold processed, archived, skipped, printed.
  induction tr as [|ev tr (IH1 & IH2 & IH3)]; [done|].
  destruct ev as [m| | | | |]; cbn; rewrite ?IH1, ?IH2, ?IH3; try done.
Qed.

(** What a visit that returns prints. *)
Lemma visit_date_printed E self already d w w1 :
  visit_date E self already d w = (Ret tt, w1) →
  printed (trace w1) = printed (trace w) ++ visit_output self already d.
Proof.
  rewrite visit_date_run. unfold visit_output. destruct (skips self already d).
  { intros [= <-]. cbn [trace add_event]. rewrite printed_app. reflexivity. }
  destruct (download_emits_no_print E self d None w I) as (evs & Htrace & H1).
  destruct (download_data_for_date E self d None w) as [[r|e] w'];
    cbn [snd] in Htrace; [|done].
  intros [= <-]. cbn [trace add_event]. rewrite Htrace.
  rewrite !printed_app, H1, app_nil_r, <-app_assoc. reflexivity.
Qed.

(** The calls of the client in a visit: none, or the one for the date. *)
Lemma visit_date_retrieved E self already d w :
  ∃ evs, trace (visit_date E self already d w).2 = trace w ++ evs ∧
         (retrieved evs = [] ∨
          (skips self already d = false ∧ debug self = false ∧
           retrieved evs = [run_retrieval E d])).
Proof.
  rewrite visit_date_run. destruct (skips self already d).
  { exists [EvPrint (MsgAlreadyDownloaded d)]. split; [done | by left]. }
  destruct (download_outcomes E self d None w I) as (evs & Htrace & Hcases).
  assert (Hretr : retrieved evs = [] ∨
                  (debug self = false ∧ retrieved evs = [run_retrieval E d])).
  { rewrite <-retrieved_external.
    destruct Hcases as [(-> & _)|(Hdebug & [(-> & _)|(td & _ & Hcases)])];
      [by left | by left |].
    right. split; [done|].
    destruct Hcases as [(_ & [-> | ->] & _)|(_ & -> & _)]; reflexivity. }
  destruct (download_data_for_date E self d None w) as [[r|e] w']; cbn [snd] in *.
  - exists (evs ++ [EvPrint (MsgProcessing d); EvPrint (MsgArchiving d)]).
    split; [cbn [snd trace add_event]; rewrite Htrace; by rewrite <-!app_assoc|].
    rewrite retrieved_app. cbn. rewrite app_nil_r.
    destruct Hretr as [?|[? ?]]; [by left | by right].
  - exists evs. split; [done|]. destruct Hretr as [?|[? ?]]; [by left | by right].
Qed.

Lemma filter_date_range_snoc (P : date → bool) s d :
  s <= d + 1 →
  filter P (date_range s (d + 1)) =
  filter P (date_range s d) ++ (if P (d + 1) then [d + 1] else []).
Proof.
  intros Hle. rewrite date_range_snoc by done. rewrite filter_app. f_equal.
  destruct (P (d + 1)) eqn:HP.
  - rewrite filter_cons_True by (by apply Is_true_true_2). done.
  - rewrite filter_cons_False by (by apply Is_true_false_2). done.
Qed.

(** The loop that has to go beyond [date.max] ends with the
    [OverflowError] of the increment. *)
Lemma daily_loop_overflows E self already cur w :
  raises_only_Exception E → MINORDINAL <= cur <= MAXORDINAL →
  ∃ w', daily_loop E self already MAXORDINAL cur w =
        (Raise (OverflowError "date value out of range"), w').
Proof.
  intros Hwb.
  remember (Z.to_nat (MAXORDINAL - cur)) as n eqn:Hn.
  revert cur w Hn. induction n as [n IH] using lt_wf_ind. intros cur w Hn Hcur.
  rewrite daily_loop_turn.
  replace (cur <=? MAXORDINAL) with true by (symmetry; apply Z.leb_le; lia).
  destruct (visit_date_returns E self already cur w Hwb) as [w1 ->].
  destruct (decide (cur = MAXORDINAL)) as [->|Hmax].
  - rewrite add_days_max. eauto.
  - rewrite add_days_valid by lia.
    apply (IH (Z.to_nat (MAXORDINAL - (cur + 1)))); lia.
Qed.

(** The loop over a range of calendar dates, when no visit is
    interrupted: the dates visited, the lines printed, and how it ends. *)
Lemma daily_loop_printed E self already s e w :
  raises_only_Exception E → MINORDINAL <= s → e <= MAXORDINAL →
  ∃ r w',
    daily_loop E self already e s w = (r, w') ∧
    (e < MAXORDINAL → r = Ret tt) ∧
    (s <= e → e = MAXORDINAL → r = Raise (OverflowError "date value out of range")) ∧
    visited (trace w') = visited (trace w) ++ date_range s e ∧
    printed (trace w') = printed (trace w) ++ (date_range s e ≫= visit_output self already).
Proof.
  intros Hwb Hs He.
  destruct (decide (s <= e + 1)) as [Hse|Hse].
  2: { rewrite daily_loop_done by lia. exists (Ret tt), w.
       rewrite date_range_empty by lia. cbn. rewrite !app_nil_r.
       split; [done|]. split; [done|]. split; [lia|]. done. }
  set (I := λ (d : date) (w' : world),
    visited (trace w') = visited (trace w) ++ date_range s (d - 1) ∧
    printed (trace w') =
      printed (trace w) ++ (date_range s (d - 1) ≫= visit_output self already)).
  destruct (daily_loop_total E self already s e I Hs He) with (cur := s) (w := w)
    as (r & w' & Hloop & HIe & Hret).
  - unfold I. intros d w1 Hd (Hv & Hp).
    destruct (visit_date_returns E self already d w1 Hwb) as [w2 Hw2].
    exists w2. split; [done|].
    pose proof (visit_date_visited E self already d w1) as Hv2. rewrite Hw2 in Hv2.
    cbn [snd] in Hv2.
    pose proof (visit_date_printed E self already d w1 w2 Hw2) as Hp2.
    replace (d + 1 - 1) with (d - 1 + 1) by lia.
    rewrite date_range_snoc by lia.
    replace (d - 1 + 1) with d by lia.
    rewrite Hv2, Hp2, Hv, Hp, bind_app, bind_singleton, <-!app_assoc. done.
  - lia.
  - unfold I. rewrite date_range_empty by lia. cbn. by rewrite !app_nil_r.
  - exists r, w'. split; [done|]. split; [done|].
    unfold I in HIe. replace (e + 1 - 1) with e in HIe by lia.
    split; [|done]. intros Hle ->.
    destruct (daily_loop_overflows E self already s w Hwb ltac:(lia)) as [w'' Hover].
    congruence.
Qed.

Lemma omap_list_bind {A B C : Type} (f : B → option C) (g : A → list B) (l : list A) :
  omap f (l ≫= g) = l ≫= (λ x, omap f (g x)).
Proof.
  induction l as [|x l IH]; [done|]. rewrite !bind_cons, omap_app. by rewrite IH.
Qed.

Lemma bind_filter_singleton (P : date → bool) (l : list date) :
  l ≫= (λ d, if P d then [d] else []) = filter P l.
Proof.
  induction l as [|d l IH]; [done|]. rewrite bind_cons, IH.
  destruct (P d) eqn:HP.
  - by rewrite filter_cons_True by (by apply Is_true_true_2).
  - by rewrite filter_cons_False by (by apply Is_true_false_2).
Qed.

Lemma filter_dates_all (P : date → bool) (l : list date) : (∀ d, P d = true) → filter P l = l.
Proof.
  intros HP. induction l as [|d l IH]; [done|].
  rewrite filter_cons_True by (apply Is_true_true_2, HP). by rewrite IH.
Qed.

Lemma filter_dates_none (P : date → bool) (l : list date) : (∀ d, P d = false) → filter P l = [].
Proof.
  intros HP. induction l as [|d l IH]; [done|].
  by rewrite filter_cons_False by (apply Is_true_false_2, HP).
Qed.

Lemma skips_spec E self w d :
  skips self (collect_dates E w (dir_entries w)) d = true ↔
  redownload self = false ∧ downloaded E w d.
Proof.
  unfold skips. rewrite andb_true_iff, bool_decide_eq_true, negb_true_iff.
  rewrite already_downloaded_spec. tauto.
Qed.

(** X13. The output of a run over calendar dates, when the output directory
    can be listed and no call is interrupted by an exception outside
    [Exception]: for every date of the range, in order, the line of a
    skipped date if the scan made at the start lists the date and
    [redownload] is off, and otherwise the line of the process placeholder
    followed by that of the archive placeholder, whether the download of the
    date has succeeded or not. With [redownload] on, no date is skipped. *)
Theorem run_hands_over_what_it_does_not_skip E self start_date end_date fixed_date w s e :
  resolves_to E start_date end_date fixed_date w s e → listable E w →
  valid_date s → valid_date e → raises_only_Exception E →
  let run := process_and_archive_daily_data E self start_date end_date fixed_date w in
  ∃ dates,
    _get_already_downloaded_dates E w = (Ret dates, w) ∧
    (∀ d, skips self dates d = true ↔ redownload self = false ∧ downloaded E w d) ∧
    printed (trace run.2) =
      printed (trace w) ++ (date_range s e ≫= visit_output self dates) ∧
    processed (trace run.2) =
      processed (trace w) ++ filter (λ d, negb (skips self dates d)) (date_range s e) ∧
    archived (trace run.2) =
      archived (trace w) ++ filter (λ d, negb (skips self dates d)) (date_range s e) ∧
    skipped (trace run.2) =
      skipped (trace w) ++ filter (λ d, skips self dates d) (date_range s e) ∧
    (redownload self = true →
     processed (trace run.2) = processed (trace w) ++ date_range s e ∧
     skipped (trace run.2) = skipped (trace w)).
Proof.
  intros Hres Hls [Hs _] [_ He] Hwb run. subst run.
  rewrite (run_resolved E self _ _ _ w s e Hres Hls).
  set (dates := collect_dates E w (dir_entries w)).
  exists dates.
  split; [by rewrite get_already_downloaded_dates_run, Hls|].
  split; [intros d; apply skips_spec|].
  destruct (daily_loop_printed E self dates s e w Hwb Hs He)
    as (r & w' & -> & _ & _ & _ & Hprinted).
  cbn [snd]. split; [exact Hprinted|].
  destruct (printed_dates (trace w')) as (Hp & Ha & Hsk).
  destruct (printed_dates (trace w)) as (Hp0 & Ha0 & Hsk0).
  assert (Hp' : processed (trace w') =
                processed (trace w) ++ filter (λ d, negb (skips self dates d)) (date_range s e)).
  { rewrite Hp, Hprinted, omap_app, <-Hp0, omap_list_bind, <-bind_filter_singleton.
    f_equal. apply list_bind_ext; [|done].
    intros d. unfold visit_output. by destruct (skips self dates d). }
  assert (Ha' : archived (trace w') =
                archived (trace w) ++ filter (λ d, negb (skips self dates d)) (date_range s e)).
  { rewrite Ha, Hprinted, omap_app, <-Ha0, omap_list_bind, <-bind_filter_singleton.
    f_equal. apply list_bind_ext; [|done].
    intros d. unfold visit_output. by destruct (skips self dates d). }
  assert (Hsk' : skipped (trace w') =
                 skipped (trace w) ++ filter (λ d, skips self dates d) (date_range s e)).
  { rewrite Hsk, Hprinted, omap_app, <-Hsk0, omap_list_bind, <-bind_filter_singleton.
    f_equal. apply list_bind_ext; [|done].
    intros d. unfold visit_output. by destruct (skips self dates d). }
  split; [exact Hp'|]. split; [exact Ha'|]. split; [exact Hsk'|].
  intros Hre. rewrite Hp', Hsk'.
  assert (Hnone : ∀ d, skips self dates d = false).
  { intros d. unfold skips. rewrite Hre. apply andb_false_r. }
  rewrite filter_dates_all by (intros d; by rewrite Hnone).
  rewrite filter_dates_none by exact Hnone. by rewrite app_nil_r.
Qed.

Lemma run_hands_over_what_it_does_not_skip_witness :
  resolves_to Sample.offline (Passed (Some Sample.dec_01)) (Some Sample.dec_05) None
    Sample.two_days_world Sample.dec_01 Sample.dec_05 ∧
  listable Sample.offline Sample.two_days_world ∧
  valid_date Sample.dec_01 ∧ valid_date Sample.dec_05 ∧
  raises_only_Exception Sample.offline ∧
  ∃ dates,
    _get_already_downloaded_dates Sample.offline Sample.two_days_world =
      (Ret dates, Sample.two_days_world) ∧
    processed (trace (process_and_archive_daily_data Sample.offline Sample.downloader
                        (Passed (Some Sample.dec_01)) (Some Sample.dec_05) None
                        Sample.two_days_world).2) =
    processed (trace Sample.two_days_world) ++
      filter (λ d, negb (skips Sample.downloader dates d))
        (date_range Sample.dec_01 Sample.dec_05).
Proof.
  assert (Hres : resolves_to Sample.offline (Passed (Some Sample.dec_01))
                   (Some Sample.dec_05) None Sample.two_days_world
                   Sample.dec_01 Sample.dec_05)
    by (repeat split; vm_compute; reflexivity).
  assert (H1 : valid_date Sample.dec_01) by (vm_compute; split; discriminate).
  assert (H5 : valid_date Sample.dec_05) by (vm_compute; split; discriminate).
  split; [exact Hres|]. split; [reflexivity|]. split; [exact H1|]. split; [exact H5|].
  split; [exact raises_only_Exception_offline|].
  destruct (run_hands_over_what_it_does_not_skip Sample.offline Sample.downloader _ _ _ _ _ _
              Hres eq_refl H1 H5 raises_only_Exception_offline)
    as (dates & Hlist & _ & _ & Hp & _).
  exists dates. split; [exact Hlist | exact Hp].
Defined.

(** X15. A run whose last date is [date.max] (9999-12-31), on an output
    directory that can be listed, visits every date of its range and then
    ends with the [OverflowError] of [current_date += timedelta(days=1)],
    which the loop evaluates before it tests the date again (collaborators
    raising instances of [Exception] only). *)
Theorem run_up_to_date_max_overflows E self start_date end_date fixed_date w s :
  resolves_to E start_date end_date fixed_date w s (ymd2ord 9999 12 31) → listable E w →
  valid_date s → raises_only_Exception E →
  ∃ w',
    process_and_archive_daily_data E self start_date end_date fixed_date w =
      (Raise (OverflowError "date value out of range"), w') ∧
    visited (trace w') = visited (trace w) ++ date_range s (ymd2ord 9999 12 31).
Proof.
  rewrite ymd2ord_max. intros Hres Hls [Hs Hmax] Hwb.
  rewrite (run_resolved E self _ _ _ w s MAXORDINAL Hres Hls).
  destruct (daily_loop_printed E self (collect_dates E w (dir_entries w)) s MAXORDINAL w
              Hwb Hs ltac:(lia))
    as (r & w' & -> & _ & Hover & Hv & _).
  exists w'. by rewrite Hover.
Qed.

Lemma run_up_to_date_max_overflows_witness :
  resolves_to Sample.working (Passed None) None (Some (ymd2ord 9999 12 31))
    Sample.empty_world (ymd2ord 9999 12 31) (ymd2ord 9999 12 31) ∧
  listable Sample.working Sample.empty_world ∧
  valid_date (ymd2ord 9999 12 31) ∧
  raises_only_Exception Sample.working ∧
  ∃ w',
    process_and_archive_daily_data Sample.working Sample.dry_run (Passed None) None
      (Some (ymd2ord 9999 12 31)) Sample.empty_world =
    (Raise (OverflowError "date value out of range"), w').
Proof.
  assert (Hres : resolves_to Sample.working (Passed None) None (Some (ymd2ord 9999 12 31))
                   Sample.empty_world (ymd2ord 9999 12 31) (ymd2ord 9999 12 31))
    by (repeat split; vm_compute; reflexivity).
  assert (Hmax : valid_date (ymd2ord 9999 12 31)) by (vm_compute; split; discriminate).
  split; [exact Hres|]. split; [reflexivity|]. split; [exact Hmax|].
  split; [exact raises_only_Exception_working|].
  destruct (run_up_to_date_max_overflows Sample.working Sample.dry_run _ _ _ _ _
              Hres eq_refl Hmax raises_only_Exception_working) as (w' & Hrun & _).
  exists w'. exact Hrun.
Defined.

#[global] Instance keeps_downloaded_preorder E : PreOrder (keeps_downloaded E).
Proof.
  split.
  - intros w d Hd. exact Hd.
  - intros w1 w2 w3 H1 H2 d Hd. apply H2, H1, Hd.
Qed.

#[global] Instance keeps_dicts_preorder : PreOrder keeps_dicts.
Proof.
  split.
  - intros w l cfg Hl. exact Hl.
  - intros w1 w2 w3 H1 H2 l cfg Hl. apply H2, H1, Hl.
Qed.

Lemma keeps_downloaded_event E ev w : keeps_downloaded E w (add_event ev w).
Proof. intros d Hd. exact Hd. Qed.

Lemma keeps_dicts_event ev w : keeps_dicts w (add_event ev w).
Proof. intros l cfg Hl. exact Hl. Qed.

Lemma date_range_split s k e :
  s <= k <= e + 1 → date_range s e = date_range s (k - 1) ++ date_range k e.
Proof.
  intros Hk. unfold date_range.
  replace (e + 1 - s) with ((k - 1 + 1 - s) + (e + 1 - k)) by lia.
  rewrite seqZ_app by lia. do 2 f_equal. lia.
Qed.

Lemma retrieve_calls_length evs : length (retrieve_calls evs) = length (retrieved evs).
Proof.
  induction evs as [|ev evs IH]; [done|].
  unfold retrieve_calls, retrieved in *.
  destruct ev;
    repeat first [ rewrite filter_cons_True by exact I
                 | rewrite filter_cons_False by (intros []) ];
    cbn; by rewrite ?IH.
Qed.

(** The calls of the client in the loop, whatever the visits do: a
    sublist of the calls for the dates that are not skipped. *)
Lemma daily_loop_retrieved E self already s e w :
  ∃ evs,
    trace (daily_loop E self already e s w).2 = trace w ++ evs ∧
    retrieved evs `sublist_of`
      (run_retrieval E <$> filter (λ d, negb (skips self already d)) (date_range s e)) ∧
    (debug self = true → retrieved evs = []).
Proof.
  destruct (decide (s <= e + 1)) as [Hse|Hse].
  2: { rewrite daily_loop_done by lia. exists []. rewrite app_nil_r.
       split; [done|]. split; [apply sublist_nil_l | done]. }
  set (I := λ (d : date) (w' : world),
    ∃ evs, trace w' = trace w ++ evs ∧
           retrieved evs `sublist_of`
             (run_retrieval E <$>
                filter (λ d, negb (skips self already d)) (date_range s (d - 1))) ∧
           (debug self = true → retrieved evs = [])).
  destruct (daily_loop_segment E self already s e I) with (cur := s) (w := w)
    as (k & Hk & (evs & Htrace & Hsub & Hdebug) & _).
  - unfold I. intros d w1 Hd (evs & Htrace & Hsub & Hdebug).
    destruct (visit_date_retrieved E self already d w1) as (evs' & Htrace' & Hretr).
    exists (evs ++ evs'). split; [rewrite Htrace', Htrace; by rewrite <-app_assoc|].
    rewrite retrieved_app.
    replace (d + 1 - 1) with (d - 1 + 1) by lia.
    rewrite filter_date_range_snoc, fmap_app by lia.
    replace (d - 1 + 1) with d by lia. split.
    + apply sublist_app; [exact Hsub|].
      destruct Hretr as [-> |(-> & _ & ->)]; [apply sublist_nil_l | done].
    + intros Hd'. rewrite (Hdebug Hd').
      destruct Hretr as [-> |(_ & ? & _)]; [done | congruence].
  - lia.
  - exists []. rewrite app_nil_r. split; [done|]. split; [apply sublist_nil_l | done].
  - exists evs. split; [exact Htrace|]. split; [|exact Hdebug].
    rewrite (date_range_split s k e) by lia. rewrite filter_app, fmap_app.
    by apply sublist_inserts_r.
Qed.

(** X14. The calls of the client in a run, whatever the collaborators do: a
    sublist of the calls for the dates of the range that are not skipped, in
    the order of the dates, each for the dataset, the request of the default
    configuration and the file of its date. So there are at most as many
    calls as dates in the range, and none in debug mode; the dates skipped
    are those of the list that [_get_already_downloaded_dates] returns when
    the directory can be listed, and when it cannot, the client is not
    called at all. *)
Theorem run_asks_the_client_once_per_date E self start_date end_date fixed_date w s e :
  resolves_to E start_date end_date fixed_date w s e →
  let run := process_and_archive_daily_data E self start_date end_date fixed_date w in
  ∃ dates evs,
    (listable E w → _get_already_downloaded_dates E w = (Ret dates, w)) ∧
    trace run.2 = trace w ++ evs ∧
    retrieved evs `sublist_of`
      (run_retrieval E <$> filter (λ d, negb (skips self dates d)) (date_range s e)) ∧
    (length (retrieve_calls evs) <= length (date_range s e))%nat ∧
    (debug self = true → retrieved evs = []) ∧
    (¬ listable E w → retrieved evs = []).
Proof.
  intros Hres run. subst run.
  destruct (listdir_error E w) as [class_name|] eqn:Hls.
  { rewrite (run_unlistable E self _ _ _ w s e class_name Hres Hls). cbn [snd].
    exists [], []. split; [unfold listable; congruence|].
    split; [by rewrite app_nil_r|]. split; [apply sublist_nil_l|].
    split; [apply Nat.le_0_l | done]. }
  assert (Hlistable : listable E w) by exact Hls.
  rewrite (run_resolved E self _ _ _ w s e Hres Hls).
  exists (collect_dates E w (dir_entries w)).
  destruct (daily_loop_retrieved E self (collect_dates E w (dir_entries w)) s e w)
    as (evs & Htrace & Hsub & Hdebug).
  exists evs. split; [by rewrite get_already_downloaded_dates_run, Hls|].
  split; [exact Htrace|]. split; [exact Hsub|].
  split; [|split; [exact Hdebug | by intros []]].
  rewrite retrieve_calls_length. apply sublist_length in Hsub.
  rewrite length_fmap in Hsub. etrans; [exact Hsub|]. apply length_filter.
Qed.

Lemma run_asks_the_client_once_per_date_witness :
  resolves_to Sample.working (Passed (Some Sample.dec_01)) (Some Sample.dec_05) None
    Sample.two_days_world Sample.dec_01 Sample.dec_05 ∧
  ∃ evs,
    trace (process_and_archive_daily_data Sample.working Sample.downloader
             (Passed (Some Sample.dec_01)) (Some Sample.dec_05) None
             Sample.two_days_world).2 = trace Sample.two_days_world ++ evs ∧
    (length (retrieve_calls evs) <= length (date_range Sample.dec_01 Sample.dec_05))%nat.
Proof.
  assert (Hres : resolves_to Sample.working (Passed (Some Sample.dec_01))
                   (Some Sample.dec_05) None Sample.two_days_world
                   Sample.dec_01 Sample.dec_05)
    by (repeat split; vm_compute; reflexivity).
  split; [exact Hres|].
  destruct (run_asks_the_client_once_per_date Sample.working Sample.downloader _ _ _ _ _ _ Hres)
    as (dates & evs & _ & Htrace & _ & Hlen & _ & _).
  exists evs. split; [exact Htrace | exact Hlen].
Defined.

Lemma download_keeps_downloaded E self d config w :
  config_argument_ok config w →
  keeps_downloaded E w (download_data_for_date E self d config w).2.
Proof.
  intros Hconfig d' (fname & size & Hfile & Hparse).
  pose proof (download_directory E self d config w Hconfig) as Hdir. cbv zeta in Hdir.
  set (file := strftime_ymd E d +:+ ".nc") in *.
  set (r := download_data_for_date E self d config w) in *.
  assert (Hne : ∀ td, fs w !! td = None → td ≠ fname) by (intros td Htd ->; congruence).
  destruct Hdir as [(_ & Hfs & _)|(size' & base & _ & -> & _ & _ & Hfs & _)].
  - exists fname, size. split; [|done].
    destruct Hfs as [-> |(td & X & Hfresh & ->)]; [done|].
    rewrite lookup_insert_ne; [done | by apply Hne].
  - assert (Hbase : ∃ size0,
              <[file := stored file size' (fs w !! file)]> (fs w) !! fname =
              Some (File size0)).
    { destruct (decide (file = fname)) as [->|Hother].
      - rewrite lookup_insert_eq, Hfile. cbn. eauto.
      - rewrite lookup_insert_ne by done. eauto. }
    destruct Hbase as [size0 Hbase]. exists fname, size0. split; [|done].
    destruct Hfs as [-> |(td & X & Hfresh & _ & ->)]; [done|].
    rewrite lookup_insert_ne; [done | by apply Hne].
Qed.

Lemma visit_date_keeps_downloaded E self already d :
  obeys (keeps_downloaded E) any_exn (visit_date E self already d).
Proof.
  intros w. split; [|done]. rewrite visit_date_run.
  destruct (skips self already d); [apply keeps_downloaded_event|].
  pose proof (download_keeps_downloaded E self d None w I) as Hkeep.
  destruct (download_data_for_date E self d None w) as [[r|e] w1]; [|exact Hkeep].
  cbn [snd] in *. etrans; [exact Hkeep|].
  etrans; apply keeps_downloaded_event.
Qed.

Lemma download_keeps_dicts E self d w :
  keeps_dicts w (download_data_for_date E self d None w).2.
Proof.
  destruct (debug self) eqn:Hdebug.
  { rewrite download_debug_run by done. apply keeps_dicts_event. }
  rewrite download_default_run by done.
  set (l0 := fresh (dom (heap w))).
  destruct (download_attempt_same_heap E d l0
              (set_heap (<[l0 := default_download_config]>) (started d w))) as [Hheap _].
  unfold same_heap in Hheap. intros l cfg Hl. rewrite Hheap. cbn [heap set_heap started add_event].
  rewrite lookup_insert_ne; [done|]. intros <-.
  assert (l0 ∉ dom (heap w)) as Hfresh by apply is_fresh.
  apply Hfresh, elem_of_dom. eauto.
Qed.

Lemma visit_date_keeps_dicts E self already d :
  obeys keeps_dicts any_exn (visit_date E self already d).
Proof.
  intros w. split; [|done]. rewrite visit_date_run.
  destruct (skips self already d); [apply keeps_dicts_event|].
  pose proof (download_keeps_dicts E self d w) as Hkeep.
  destruct (download_data_for_date E self d None w) as [[r|e] w1]; [|exact Hkeep].
  cbn [snd] in *. etrans; [exact Hkeep|].
  etrans; apply keeps_dicts_event.
Qed.

(** What every visit keeps, the run keeps. *)
Lemma run_keeps E self (T : world → world → Prop) `{!PreOrder T} start_date end_date
    fixed_date w :
  (∀ already d, obeys T any_exn (visit_date E self already d)) →
  T w (process_and_archive_daily_data E self start_date end_date fixed_date w).2.
Proof.
  intros Hvisit. rewrite run_unfold. cbv zeta.
  destruct (negb _); [reflexivity|].
  destruct (_ && _); [reflexivity|].
  pose proof (get_start_and_end_dates_world E w
                (arg_or_default (Some EPOCH_START) start_date) end_date fixed_date) as Hw.
  destruct (_get_start_and_end_dates E _ end_date fixed_date w) as [[[[s e]|]|e] w1];
    cbn [snd] in Hw; subst w1; try reflexivity.
  destruct (listdir_error E w); [reflexivity|].
  apply (daily_loop_obeys E self _ e T any_exn s (λ d _, Hvisit _ d) s). lia.
Qed.

(** X11. A date that counts as downloaded (a regular file whose name parses
    as the date) still counts as downloaded after any
    [download_data_for_date] and after any run, however they end. *)
Theorem downloaded_dates_stay_downloaded E self d' :
  (∀ d config w,
     config_argument_ok config w → downloaded E w d' →
     downloaded E (download_data_for_date E self d config w).2 d') ∧
  (∀ start_date end_date fixed_date w,
     downloaded E w d' →
     downloaded E (process_and_archive_daily_data E self start_date end_date fixed_date w).2
       d').
Proof.
  split.
  - intros d config w Hconfig. apply (download_keeps_downloaded E self d config w Hconfig).
  - intros start_date end_date fixed_date w.
    apply (run_keeps E self (keeps_downloaded E)).
    intros already d. apply visit_date_keeps_downloaded.
Qed.

Lemma downloaded_dates_stay_downloaded_witness :
  downloaded Sample.working Sample.two_days_world Sample.dec_02 ∧
  downloaded Sample.working
    (process_and_archive_daily_data Sample.working Sample.downloader
       (Passed (Some Sample.dec_01)) (Some Sample.dec_05) None Sample.two_days_world).2
    Sample.dec_02.
Proof.
  assert (Hthere : downloaded Sample.working Sample.two_days_world Sample.dec_02).
  { exists "2024-12-02.nc"%string, 1024%N. split; vm_compute; reflexivity. }
  split; [exact Hthere|].
  exact (proj2 (downloaded_dates_stay_downloaded Sample.working Sample.downloader
                  Sample.dec_02) _ _ _ _ Hthere).
Defined.

(** X12. A download without a configuration works on a new dictionary of its
    own: every dictionary that is alive before such a call, or before a run,
    is there afterwards with the same items. *)
Theorem run_leaves_the_dictionaries_alone E self l cfg :
  (∀ d w,
     heap w !! l = Some cfg →
     heap (download_data_for_date E self d None w).2 !! l = Some cfg) ∧
  (∀ start_date end_date fixed_date w,
     heap w !! l = Some cfg →
     heap (process_and_archive_daily_data E self start_date end_date fixed_date w).2 !! l =
       Some cfg).
Proof.
  split.
  - intros d w. apply (download_keeps_dicts E self d w).
  - intros start_date end_date fixed_date w.
    apply (run_keeps E self keeps_dicts).
    intros already d. apply visit_date_keeps_dicts.
Qed.

Lemma run_leaves_the_dictionaries_alone_witness :
  heap (Sample.world_with_config Sample.config_without_area) !! 1%positive =
    Some Sample.config_without_area ∧
  heap (process_and_archive_daily_data Sample.working Sample.downloader
          (Passed (Some Sample.dec_01)) (Some Sample.dec_02) None
          (Sample.world_with_config Sample.config_without_area)).2 !! 1%positive =
    Some Sample.config_without_area.
Proof.
  assert (Hc : heap (Sample.world_with_config Sample.config_without_area) !! 1%positive =
               Some Sample.config_without_area) by reflexivity.
  split; [exact Hc|].
  exact (proj2 (run_leaves_the_dictionaries_alone Sample.working Sample.downloader
                  1%positive Sample.config_without_area) _ _ _ _ Hc).
Defined.

(** The name of the file of a calendar date is not that of a temporary
    directory. *)
Lemma file_name_not_temporary d suffix :
  valid_date d → format_ymd d +:+ ".nc" ≠ TEMP_PREFIX +:+ suffix.
Proof.
  intros Hd.
  destruct (format_ymd_shape d Hd)
    as (y & m & dd & y1 & y2 & y3 & y4 & m1 & m2 & d1 & d2 & _ & _ & _ & _ & _ & _ &
        -> & _).
  cbv beta iota fix delta [String.append TEMP_PREFIX]. intros [= -> _].
Qed.

Lemma lookup_plain_directory w name :
  plain_directory w →
  fs w !! name = None ∨ ∃ size, fs w !! name = Some (File size).
Proof.
  intros Hplain. destruct (fs w !! name) as [n|] eqn:Hname; [right | by left].
  destruct (Hplain name n Hname) as [[size ->] _]. eauto.
Qed.

Lemma dependable_listable E w : dependable E → listable E w.
Proof. intros [_ Hworks]. by destruct (Hworks w) as (_ & _ & _ & _ & _ & ?). Qed.

(** On a dependable platform, the download of a calendar date into a
    plain directory puts the file of the date in place and changes nothing
    else. *)
Lemma download_succeeds E self d w :
  dependable E → debug self = false → plain_directory w → four_digit_year d →
  ∃ size w',
    size ≠ 0%N ∧
    download_data_for_date E self d None w = (Ret (Some (format_ymd d +:+ ".nc")), w') ∧
    fs w' = <[format_ymd d +:+ ".nc" := File size]> (fs w).
Proof.
  intros (Hcal & Hworks) Hdebug Hplain Hd4.
  destruct (Hcal d Hd4) as [Hfmt _].
  pose proof (four_digit_year_valid d Hd4) as Hd.
  rewrite download_default_run by exact Hdebug.
  set (c := fresh (dom (heap w))).
  set (w0 := set_heap (<[c := default_download_config]>) (started d w)).
  assert (Hfs0 : fs w0 = fs w) by reflexivity.
  assert (Hc : ∀ w', heap w' = heap w0 → heap w' !! c = Some default_download_config).
  { intros w' ->. apply lookup_insert_eq. }
  unfold download_attempt. rewrite tempfile_mkdtemp_run. cbv zeta.
  set (w1 := add_event (EvMkdtemp TEMP_PREFIX) w0).
  destruct (Hworks w1) as ([suffix ->] & _).
  set (td := TEMP_PREFIX +:+ suffix).
  assert (Hfresh : fs w !! td = None).
  { destruct (fs w !! td) as [n|] eqn:Htd; [|done].
    destruct (Hplain td n Htd) as [_ Hno]. by destruct (Hno suffix). }
  unfold os_path_exists. change (fs w1) with (fs w). rewrite Hfresh. cbn [is_given].
  set (w2 := set_fs (<[td := Dir ∅]>) w1).
  set (file := format_ymd d +:+ ".nc").
  assert (Hfile_td : file ≠ td) by (by apply file_name_not_temporary).
  unfold try_finally, try_except.
  rewrite (download_into_run E d c default_download_config td w2
             (Hc w2 eq_refl) first_missing_default).
  cbv zeta. rewrite Hfmt. fold file.
  set (w3 := add_event (EvRetrieve _ _ _ _) _).
  destruct (Hworks w3) as (_ & (size & Hsize & ->) & -> & _).
  set (w4 := set_fs (write_in_dir td file size) w3).
  assert (Hfs4 : fs w4 = <[td := Dir {[file := size]}]> (fs w)).
  { subst w4 w3 w2 w1. unfold write_in_dir. cbn [fs set_fs add_event].
    rewrite Hfs0, lookup_insert_eq, insert_insert_eq, insert_empty. done. }
  assert (Hin4 : file_in_dir w4 td file = Some size).
  { unfold file_in_dir. by rewrite Hfs4, lookup_insert_eq, lookup_singleton_eq. }
  rewrite Hin4.
  replace (size =? 0)%N with false by (symmetry; by apply N.eqb_neq).
  set (w6 := add_event (EvMove td file file) _).
  destruct (Hworks w6) as (_ & _ & _ & -> & _).
  assert (Hfs6 : fs w6 = <[td := Dir {[file := size]}]> (fs w)) by exact Hfs4.
  assert (Hdest : fs w6 !! file = fs w !! file) by (by rewrite Hfs6, lookup_insert_ne).
  assert (Hremoved : remove_from_dir td file (fs w6) = <[td := Dir ∅]> (fs w)).
  { unfold remove_from_dir. rewrite Hfs6, lookup_insert_eq, insert_insert_eq.
    by rewrite delete_singleton_eq. }
  assert (Hmoved :
    match fs w6 !! file with
    | Some (Dir entries) =>
        match entries !! file with
        | Some _ => (Raise (ShutilError "Destination path already exists"), w6)
        | None =>
            (Ret (Some file),
             add_event (EvLog DEBUG (MsgMoved file))
               (set_fs (λ f, <[file := Dir (<[file := size]> entries)]>
                               (remove_from_dir td file f)) w6))
        end
    | _ =>
        (Ret (Some file),
         add_event (EvLog DEBUG (MsgMoved file))
           (set_fs (λ f, <[file := File size]> (remove_from_dir td file f)) w6))
    end =
    (Ret (Some file),
     add_event (EvLog DEBUG (MsgMoved file))
       (set_fs (λ f, <[file := File size]> (remove_from_dir td file f)) w6))).
  { rewrite Hdest. by destruct (lookup_plain_directory w file Hplain) as [-> |[n ->]]. }
  rewrite Hmoved.
  set (wb := add_event (EvLog DEBUG (MsgMoved file)) _).
  assert (Hfsb : fs wb = <[file := File size]> (<[td := Dir ∅]> (fs w))).
  { subst wb. cbn [fs set_fs add_event]. by rewrite Hremoved. }
  rewrite (cleanup_run E td wb).
  2: { reflexivity. }
  2: { rewrite Hfsb, lookup_insert_ne by done. rewrite lookup_insert_eq. eauto. }
  cbv zeta. destruct (Hworks (add_event (EvRmtree td) wb)) as (_ & _ & _ & _ & -> & _).
  exists size. eexists. split; [exact Hsize|]. split; [reflexivity|].
  cbn [fs set_fs add_event]. rewrite Hfsb.
  rewrite delete_insert_ne by done. by rewrite delete_insert_id.
Qed.

Lemma plain_directory_event ev w : plain_directory w → plain_directory (add_event ev w).
Proof. intros Hplain. exact Hplain. Qed.

(** On a dependable platform, a visit of a calendar date returns, keeps
    the directory plain, and leaves the date downloaded. *)
Lemma visit_date_succeeds E self w0 d w :
  dependable E → debug self = false → four_digit_year d →
  plain_directory w → keeps_downloaded E w0 w →
  ∃ w1,
    visit_date E self (collect_dates E w0 (dir_entries w0)) d w = (Ret tt, w1) ∧
    plain_directory w1 ∧ keeps_downloaded E w0 w1 ∧ downloaded E w1 d.
Proof.
  intros Hdep Hdebug Hd Hplain Hkeep. rewrite visit_date_run.
  destruct (skips self _ d) eqn:Hskip.
  { eexists. split; [reflexivity|]. split; [by apply plain_directory_event|].
    split; [exact Hkeep|]. apply skips_spec in Hskip as [_ Hthere]. by apply Hkeep. }
  destruct (download_succeeds E self d w Hdep Hdebug Hplain Hd)
    as (size & w' & Hsize & Hrun & Hfs).
  pose proof (download_keeps_downloaded E self d None w I) as Hkeep'.
  rewrite Hrun in Hkeep' |- *. cbn [snd] in Hkeep'.
  eexists. split; [reflexivity|].
  destruct Hdep as (Hcal & _). destruct (Hcal d Hd) as [_ Hparse].
  pose proof (four_digit_year_valid d Hd) as Hvalid.
  split; [|split].
  - intros name n. cbn [fs add_event]. rewrite Hfs.
    destruct (decide (format_ymd d +:+ ".nc" = name)) as [<-|Hne].
    + rewrite lookup_insert_eq. intros [= <-]. split; [eauto|].
      intros suffix. by apply file_name_not_temporary.
    + rewrite lookup_insert_ne by done. apply Hplain.
  - etrans; [exact Hkeep|]. exact Hkeep'.
  - exists (format_ymd d +:+ ".nc"), size. cbn [fs add_event]. rewrite Hfs.
    split; [apply lookup_insert_eq|].
    destruct (format_ymd_round_trip d "nc" Hvalid) as [-> _]. exact Hparse.
Qed.

(** On a dependable platform, the loop over a range of calendar dates
    returns and leaves every date of the range downloaded. *)
Lemma daily_loop_succeeds E self s e w :
  dependable E → debug self = false → four_digit_year s → e < MAXORDINAL →
  plain_directory w →
  ∃ w',
    daily_loop E self (collect_dates E w (dir_entries w)) e s w = (Ret tt, w') ∧
    plain_directory w' ∧ ∀ d, s <= d <= e → downloaded E w' d.
Proof.
  intros Hdep Hdebug [Hs4 _] He Hplain.
  assert (Hs : MINORDINAL <= s).
  { unfold MINORDINAL. revert Hs4. vm_compute (ymd2ord 1000 1 1). lia. }
  destruct (decide (s <= e + 1)) as [Hse|Hse].
  2: { rewrite daily_loop_done by lia. exists w. split; [done|]. split; [done|]. lia. }
  set (I := λ (k : date) (w' : world),
    plain_directory w' ∧ keeps_downloaded E w w' ∧ ∀ d, s <= d < k → downloaded E w' d).
  destruct (daily_loop_total E self (collect_dates E w (dir_entries w)) s e I Hs ltac:(lia))
    with (cur := s) (w := w) as (r & w' & Hloop & (Hplain' & _ & Hall) & Hret).
  - unfold I. intros d w1 Hd (Hplain1 & Hkeep1 & Hall1).
    destruct (visit_date_succeeds E self w d w1 Hdep Hdebug) as (w2 & Hw2 & Hp2 & Hk2 & Hd2);
      [split; lia | done | done |].
    exists w2. split; [exact Hw2|]. split; [exact Hp2|]. split; [exact Hk2|].
    intros d' Hd'. destruct (decide (d' = d)) as [->|Hne]; [exact Hd2|].
    pose proof (visit_date_keeps_downloaded E self (collect_dates E w (dir_entries w)) d w1)
      as [Hkeep _].
    rewrite Hw2 in Hkeep. apply Hkeep, Hall1. lia.
  - lia.
  - unfold I. split; [exact Hplain|]. split; [reflexivity|]. intros d Hd. lia.
  - exists w'. rewrite Hloop, (Hret He). split; [done|]. split; [done|].
    intros d Hd. apply Hall. lia.
Qed.

(** X16. Two runs in succession where everything works: on a dependable
    platform, outside debug mode, from an output directory that holds only
    regular files whose names do not start with [era5_download_], a run over
    dates with four-digit years before [date.max] returns and leaves every
    date of the range downloaded; a second run of the same range, with
    [redownload] off, then makes no call and leaves the directory as it is. *)
Theorem second_run_on_a_dependable_platform_is_a_noop
    E self start_date end_date fixed_date w s e :
  dependable E → debug self = false → redownload self = false →
  plain_directory w → four_digit_year s → e < MAXORDINAL →
  resolves_to E start_date end_date fixed_date w s e →
  let first := process_and_archive_daily_data E self start_date end_date fixed_date w in
  let second :=
    process_and_archive_daily_data E self start_date end_date fixed_date first.2 in
  first.1 = Ret tt ∧
  (∀ d, s <= d <= e → downloaded E first.2 d) ∧
  plain_directory first.2 ∧
  (resolves_to E start_date end_date fixed_date first.2 s e →
   fs second.2 = fs first.2 ∧
   external_calls (trace second.2) = external_calls (trace first.2) ∧
   retrieve_calls (trace second.2) = retrieve_calls (trace first.2)).
Proof.
  intros Hdep Hdebug Hre Hplain Hs He Hres first second. subst second first.
  rewrite (run_resolved E self _ _ _ w s e Hres (dependable_listable E w Hdep)).
  destruct (daily_loop_succeeds E self s e w Hdep Hdebug Hs He Hplain)
    as (w' & -> & Hplain' & Hall).
  cbn [fst snd]. split; [done|]. split; [exact Hall|]. split; [exact Hplain'|].
  intros Hres'. rewrite (run_resolved E self _ _ _ w' s e Hres' (dependable_listable E w' Hdep)).
  assert (Hout : only_output w'
            (daily_loop E self (collect_dates E w' (dir_entries w')) e s w').2).
  { apply daily_loop_all_skipped; [exact Hre|].
    intros d Hd. apply already_downloaded_spec. auto. }
  destruct (only_output_calls _ _ Hout) as [Hext Hretr].
  destruct Hout as (Hfs & _). done.
Qed.

Lemma dependable_working : dependable Sample.working.
Proof.
  split.
  { intros d Hd%four_digit_year_valid. split; [done|].
    by destruct (format_ymd_round_trip d "nc" Hd) as (_ & ? & _). }
  intros w.
  split; [by eexists|]. split; [by exists 1024%N|]. done.
Qed.

Lemma second_run_on_a_dependable_platform_is_a_noop_witness :
  dependable Sample.working ∧
  debug Sample.downloader = false ∧ redownload Sample.downloader = false ∧
  plain_directory Sample.empty_world ∧
  four_digit_year Sample.dec_01 ∧ Sample.dec_02 < MAXORDINAL ∧
  resolves_to Sample.working (Passed (Some Sample.dec_01)) (Some Sample.dec_02) None
    Sample.empty_world Sample.dec_01 Sample.dec_02 ∧
  resolves_to Sample.working (Passed (Some Sample.dec_01)) (Some Sample.dec_02) None
    (Sample.first_run Sample.working).2 Sample.dec_01 Sample.dec_02 ∧
  (Sample.first_run Sample.working).1 = Ret tt ∧
  fs (Sample.second_run Sample.working).2 = fs (Sample.first_run Sample.working).2 ∧
  retrieve_calls (trace (Sample.second_run Sample.working).2) =
    retrieve_calls (trace (Sample.first_run Sample.working).2).
Proof.
  assert (Hplain : plain_directory Sample.empty_world).
  { intros name n Hname. vm_compute in Hname. discriminate Hname. }
  assert (H1 : four_digit_year Sample.dec_01) by (vm_compute; split; discriminate).
  assert (H2 : Sample.dec_02 < MAXORDINAL) by (vm_compute; reflexivity).
  assert (Hres : resolves_to Sample.working (Passed (Some Sample.dec_01))
                   (Some Sample.dec_02) None Sample.empty_world
                   Sample.dec_01 Sample.dec_02)
    by (repeat split; vm_compute; reflexivity).
  assert (Hres' : resolves_to Sample.working (Passed (Some Sample.dec_01))
                    (Some Sample.dec_02) None (Sample.first_run Sample.working).2
                    Sample.dec_01 Sample.dec_02)
    by (repeat split; vm_compute; reflexivity).
  destruct (second_run_on_a_dependable_platform_is_a_noop Sample.working Sample.downloader
              _ _ _ _ _ _ dependable_working eq_refl eq_refl Hplain H1 H2 Hres)
    as (Hfirst & _ & _ & Hsecond).
  destruct (Hsecond Hres') as (Hfs & _ & Hretr).
  split; [exact dependable_working|]. split; [reflexivity|]. split; [reflexivity|].
  split; [exact Hplain|]. split; [exact H1|]. split; [exact H2|].
  split; [exact Hres|]. split; [exact Hres'|].
  split; [exact Hfirst|]. split; [exact Hfs | exact Hretr].
Defined.
